(** * ollama-claude-proxy: format translation and key-rotating transport

    A shallow embedding of the proxy's core:
    - [config.js]            the key pool and its rotation cursor, and
                             [loadConfig],
    - [utils/helpers.js]     [isNetworkError],
    - [format/converter.js]  the converters between the Anthropic (schema A),
                             OpenAI (schema B) and Ollama (target) shapes,
    - [ollama/client.js], [ollama/openai-client.js]
                             [fetchWithKeyRotation], the non-streaming
                             senders, the streaming senders with their
                             readers, [listModels] and [isValidModel],
    - [server.js]            [parseError] and the /v1/models endpoint.

    JavaScript values are kept dynamically typed ([JValue]) so that [typeof],
    truthiness, [||], [?.] and string coercion are the ones of the source.
    Numbers are the doubles of integral value (token counters, status
    codes, delays), the infinities and NaN: the wire counters of the target
    schema are integral, and a sum, a product or a parsed numeral is the
    nearest double to its exact value; a number is printed in decimal, as
    the integers below [10^21] are.  Strings are sequences of code units
    below 256.

    Effects are explicit: a function that can throw returns a [Result]; the
    transport threads a [World] holding the shared configuration object and
    the trace of fetches and sleeps; the upstream, the JSON codec, the clock
    and the random source are parameters.  The console output of the logger
    is left out, except for the debug line a stream reader writes for a line
    it cannot parse. *)

From Stdlib Require Import ZArith List String Ascii Bool Lia Arith.
From Stdlib Require Import Numbers.DecimalString.
From Stdlib Require Import Decimal DecimalPos.
Import ListNotations.
Open Scope list_scope.
Open Scope string_scope.

(* ================================================================== *)
(** ** JavaScript values *)

#[warnings="-register-all"]
Inductive JValue : Type :=
| JUndefined
| JNull
| JBool (b : bool)
| JNum (n : Z)
| JNaN
| JInfinity (negative : bool)
| JStr (s : string)
| JArr (xs : list JValue)
| JObj (fields : list (string * JValue)).

(** Thrown values.  Only [.message] is ever inspected by the source. *)
Record Error : Type := mkError { message : string }.

Inductive Result (A : Type) : Type :=
| Ok (a : A)
| Throw (e : Error).
Arguments Ok {A} a.
Arguments Throw {A} e.

Definition bind {A B} (r : Result A) (k : A -> Result B) : Result B :=
  match r with
  | Ok a => k a
  | Throw e => Throw e
  end.

Notation "'let*' x ':=' r 'in' k" := (bind r (fun x => k))
  (at level 10, x name, r at level 100, k at level 200).

Module JS.

Definition Z_to_string (n : Z) : string := NilZero.string_of_int (Z.to_int n).
Definition nat_to_string (n : nat) : string := Z_to_string (Z.of_nat n).

(** ToBoolean *)
Definition truthy (v : JValue) : bool :=
  match v with
  | JUndefined | JNull => false
  | JBool b => b
  | JNum n => negb (n =? 0)%Z
  | JNaN => false
  | JInfinity _ => true
  | JStr s => negb (s =? "")
  | JArr _ | JObj _ => true
  end.

Definition nullish (v : JValue) : bool :=
  match v with
  | JUndefined | JNull => true
  | _ => false
  end.

Definition typeof (v : JValue) : string :=
  match v with
  | JUndefined => "undefined"
  | JNull => "object"
  | JBool _ => "boolean"
  | JNum _ | JNaN | JInfinity _ => "number"
  | JStr _ => "string"
  | JArr _ | JObj _ => "object"
  end.

Definition isArray (v : JValue) : bool :=
  match v with
  | JArr _ => true
  | _ => false
  end.

(** [a || b] *)
Definition or (a b : JValue) : JValue := if truthy a then a else b.

Fixpoint lookup (k : string) (fs : list (string * JValue)) : JValue :=
  match fs with
  | [] => JUndefined
  | (k', v) :: rest => if k =? k' then v else lookup k rest
  end.

Fixpoint at_index (k : string) (i : nat) (xs : list JValue) : JValue :=
  match xs with
  | [] => JUndefined
  | x :: rest => if k =? nat_to_string i then x else at_index k (S i) rest
  end.

Fixpoint char_at (k : string) (i : nat) (s : string) : JValue :=
  match s with
  | EmptyString => JUndefined
  | String c rest =>
      if k =? nat_to_string i then JStr (String c "") else char_at k (S i) rest
  end.

(** [v.k] on a value that is neither [null] nor [undefined]: own
    properties of objects, [length] and the indices of arrays and strings.
    None of the keys the source reads lives on a prototype. *)
Definition prop (v : JValue) (k : string) : JValue :=
  match v with
  | JObj fs => lookup k fs
  | JArr xs =>
      if k =? "length" then JNum (Z.of_nat (List.length xs)) else at_index k 0 xs
  | JStr s =>
      if k =? "length" then JNum (Z.of_nat (String.length s)) else char_at k 0 s
  | _ => JUndefined
  end.

Definition describe (v : JValue) : string :=
  match v with
  | JNull => "null"
  | _ => "undefined"
  end.

(** [v.k], which throws a TypeError on [null] and [undefined]. *)
Definition get (v : JValue) (k : string) : Result JValue :=
  if nullish v
  then Throw (mkError ("Cannot read properties of " ++ describe v
                       ++ " (reading '" ++ k ++ "')"))
  else Ok (prop v k).

(** [v?.k] *)
Definition opt (v : JValue) (k : string) : JValue :=
  if nullish v then JUndefined else prop v k.

Fixpoint join (sep : string) (parts : list string) : string :=
  match parts with
  | [] => ""
  | [p] => p
  | p :: rest => p ++ sep ++ join sep rest
  end.

(** ToString, as applied by [+] against a string and by template
    literals.  Arrays print as [Array.prototype.join] does. *)
Fixpoint toString (v : JValue) : string :=
  match v with
  | JUndefined => "undefined"
  | JNull => "null"
  | JBool true => "true"
  | JBool false => "false"
  | JNum n => Z_to_string n
  | JNaN => "NaN"
  | JInfinity false => "Infinity"
  | JInfinity true => "-Infinity"
  | JStr s => s
  | JArr xs =>
      join "," (List.map (fun x => if nullish x then "" else toString x) xs)
  | JObj _ => "[object Object]"
  end.

(** [String.prototype.includes] *)
Fixpoint includes (s sub : string) : bool :=
  String.prefix sub s
  || match s with
     | EmptyString => false
     | String _ rest => includes rest sub
     end.

Definition startsWith (s p : string) : bool := String.prefix p s.

Definition LF : ascii := "010"%char.

(** The two-character string of two line feeds. *)
Definition blank_line : string := String LF (String LF "").

(** [s.split(sep)] for a one-character separator. *)
Fixpoint split (sep : ascii) (s : string) : list string :=
  match s with
  | EmptyString => [""]
  | String c rest =>
      if Ascii.eqb c sep then "" :: split sep rest
      else
        match split sep rest with
        | [] => [String c ""]
        | first :: others => String c first :: others
        end
  end.

(** [xs.pop()]: the array that is left, and the element returned. *)
Fixpoint pop {A} (xs : list A) : list A * option A :=
  match xs with
  | [] => ([], None)
  | [x] => ([], Some x)
  | x :: rest => let (front, last) := pop rest in (x :: front, last)
  end.

(** White space among the code units below 256. *)
Definition is_space (c : ascii) : bool :=
  let n := nat_of_ascii c in
  ((9 <=? n) && (n <=? 13) || (n =? 32) || (n =? 160))%nat.

Fixpoint trimStart (s : string) : string :=
  match s with
  | EmptyString => ""
  | String c rest => if is_space c then trimStart rest else s
  end.

Fixpoint trimEnd (s : string) : string :=
  match s with
  | EmptyString => ""
  | String c rest =>
      let rest' := trimEnd rest in
      if is_space c && (rest' =? "") then "" else String c rest'
  end.

Definition trim (s : string) : string := trimEnd (trimStart s).

Definition digit (c : ascii) : option Z :=
  let n := nat_of_ascii c in
  if ((48 <=? n) && (n <=? 57))%nat then Some (Z.of_nat (n - 48)) else None.

Fixpoint digits (acc : option Z) (s : string) : option Z :=
  match s with
  | EmptyString => acc
  | String c rest =>
      match digit c with
      | Some d =>
          digits (Some (10 * match acc with Some a => a | None => 0 end + d)%Z) rest
      | None => acc
      end
  end.

(** A number is a double.  [nearest x], for [x >= 0], is [x] rounded to
    53 significant bits, a tie going to the even significand. *)
Definition nearest (x : Z) : Z :=
  let excess := (Z.log2 x + 1 - 53)%Z in
  if (excess <=? 0)%Z then x
  else
    let q := Z.shiftr x excess in
    let r := (x - Z.shiftl q excess)%Z in
    let half := Z.shiftl 1 (excess - 1) in
    let q :=
      if (half <? r)%Z || ((r =? half)%Z && Z.odd q) then (q + 1)%Z else q in
    Z.shiftl q excess.

(** The Number value of a mathematical integer: the nearest double, and
    an infinity when that is [2^1024] or more. *)
Definition number (x : Z) : JValue :=
  let y := nearest (Z.abs x) in
  if (2 ^ 1024 <=? y)%Z then JInfinity (x <? 0)%Z
  else JNum (Z.sgn x * y).

(** [parseInt(s, 10)]: the Number value of the integer the leading digits
    denote, which Node rounds to the nearest double. *)
Definition parseInt (s : string) : JValue :=
  let value sign t :=
    match digits None t with
    | Some n => number (sign * n)
    | None => JNaN
    end in
  match trimStart s with
  | String "-" t => value (-1)%Z t
  | String "+" t => value 1%Z t
  | t => value 1%Z t
  end.

(** [a * n] for a number [a] and an integer literal [n]: the product of
    two doubles is the nearest double to the exact product. *)
Definition times (a : JValue) (n : Z) : JValue :=
  match a with
  | JNum x => number (x * n)
  | JInfinity negative =>
      if (n =? 0)%Z then JNaN else JInfinity (xorb negative (n <? 0)%Z)
  | _ => JNaN
  end.

End JS.

(* ================================================================== *)
(** ** src/constants.js *)

Definition MAX_RETRIES : nat := 3.
Definition RETRY_DELAY_MS : Z := 1000.

(* ================================================================== *)
(** ** src/config.js: the key pool and its cursor *)

Module Config.

(** [this.config.apiKeys] and [this.currentKeyIndex]. *)
Record t : Type := mk {
  apiKeys : list string;
  currentKeyIndex : nat
}.

(** The constructor sets the cursor to 0; [loadConfig] fills the pool. *)
Definition create (keys : list string) : t := mk keys 0.

(** [getApiKey]: [None] is [null]. *)
Definition getApiKey (c : t) : option string :=
  match List.length (apiKeys c) with
  | 0 => None
  | S _ => List.nth_error (apiKeys c)
             (currentKeyIndex c mod List.length (apiKeys c))%nat
  end.

Definition getApiKeys (c : t) : list string := apiKeys c.

Definition getCurrentKeyIndex (c : t) : nat := currentKeyIndex c.

(** [rotateApiKey]: the new configuration and the returned key. *)
Definition rotateApiKey (c : t) : t * option string :=
  let c' :=
    if (1 <? List.length (apiKeys c))%nat
    then mk (apiKeys c) ((currentKeyIndex c + 1) mod List.length (apiKeys c))%nat
    else c in
  (c', getApiKey c').

(** The operations the rest of the program performs on the pool. *)
Inductive op : Type :=
| GetApiKey
| GetApiKeys
| GetCurrentKeyIndex
| RotateApiKey.

Definition step (c : t) (o : op) : t :=
  match o with
  | RotateApiKey => fst (rotateApiKey c)
  | GetApiKey | GetApiKeys | GetCurrentKeyIndex => c
  end.

Definition run (c : t) (ops : list op) : t := List.fold_left step ops c.

Definition rotations (ops : list op) : nat :=
  List.length (List.filter (fun o => match o with RotateApiKey => true | _ => false end) ops).

End Config.

(* ================================================================== *)
(** ** The host

    What the program takes from the JavaScript runtime.  [JSON_parse]
    throws a SyntaxError on malformed text; [JSON_stringify] answers a
    string or [undefined]; [Date_now] and [Math_random_id] are read once per
    identifier, the argument being the ordinal of the reading within the
    call; [Math_random_id] stands for
    [Math.random().toString(36).substr(2, 9)]. *)

Record Host : Type := mkHost {
  JSON_parse : string -> Result JValue;
  JSON_stringify : JValue -> JValue;
  Date_now : nat -> Z;
  Math_random_id : nat -> string
}.

Module JSOps.

(** [v === "literal"] *)
Definition equals (v : JValue) (s : string) : bool :=
  match v with
  | JStr s' => s' =? s
  | _ => false
  end.

(** [v !== undefined] *)
Definition defined (v : JValue) : bool :=
  match v with
  | JUndefined => false
  | _ => true
  end.

(** ToPrimitive on the values JSON can carry. *)
Definition prim (v : JValue) : JValue :=
  match v with
  | JArr _ | JObj _ => JStr (JS.toString v)
  | _ => v
  end.

(** ToNumber on a primitive that is not a string. *)
Definition num (v : JValue) : JValue :=
  match v with
  | JNull => JNum 0
  | JBool true => JNum 1
  | JBool false => JNum 0
  | JNum n => JNum n
  | JInfinity negative => JInfinity negative
  | _ => JNaN
  end.

(** [a + b]: a concatenation when either side is a string, otherwise the
    sum of two doubles, which is the nearest double to the exact sum. *)
Definition add (a b : JValue) : JValue :=
  let pa := prim a in
  let pb := prim b in
  match pa, pb with
  | JStr _, _ | _, JStr _ => JStr (JS.toString pa ++ JS.toString pb)
  | _, _ =>
      match num pa, num pb with
      | JNum x, JNum y => JS.number (x + y)
      | JInfinity negative, JNum _ | JNum _, JInfinity negative =>
          JInfinity negative
      | JInfinity negative, JInfinity negative' =>
          if Bool.eqb negative negative' then JInfinity negative else JNaN
      | _, _ => JNaN
      end
  end.

(** [Math.floor(ms / 1000)] *)
Definition seconds (ms : Z) : Z := (ms / 1000)%Z.

End JSOps.

(* ================================================================== *)
(** ** src/utils/helpers.js *)

Definition isNetworkError (error : Error) : bool :=
  let message := message error in
  JS.includes message "ECONNREFUSED"
  || JS.includes message "ENOTFOUND"
  || JS.includes message "ETIMEDOUT"
  || JS.includes message "socket hang up"
  || JS.includes message "fetch failed".

(* ================================================================== *)
(** ** src/format/converter.js *)

Module AnthropicRequest.
(** The request the front door builds; it has checked
    [Array.isArray(messages)] before. *)
Record t : Type := mk {
  model : JValue;
  messages : list JValue;
  max_tokens : JValue;
  temperature : JValue;
  top_p : JValue;
  tools : JValue;
  system : JValue
}.
End AnthropicRequest.

Module OpenAIRequest.
Record t : Type := mk {
  model : JValue;
  messages : JValue;
  temperature : JValue;
  top_p : JValue;
  max_tokens : JValue;
  stream : JValue
}.
End OpenAIRequest.

Section Converter.

Variable host : Host.

(** The inner loop of [convertAnthropicToOllama]:
    [for (const block of msg.content)], with [content] as accumulated so
    far. *)
Fixpoint flatten_blocks (content : string) (blocks : list JValue)
  : Result string :=
  match blocks with
  | [] => Ok content
  | block :: rest =>
      let* type := JS.get block "type" in
      if JSOps.equals type "text" then
        flatten_blocks (content ++ JS.toString (JS.prop block "text")) rest
      else if JSOps.equals type "tool_use" then
        flatten_blocks
          (content ++ "[tool_call: " ++ JS.toString (JS.prop block "name")
             ++ "(" ++ JS.toString (JSON_stringify host (JS.prop block "input"))
             ++ ")]")
          rest
      else if JSOps.equals type "tool_result" then
        flatten_blocks
          (content ++ "[tool_result: " ++ JS.toString (JS.prop block "content")
             ++ "]")
          rest
      else flatten_blocks content rest
  end.

Definition ollama_message (role content : JValue) : JValue :=
  JObj [("role", role); ("content", content)].

(** [msg.role === "user" ? "user"
      : msg.role === "assistant" ? "assistant" : "user"] *)
Definition ollama_role (msg_role : JValue) : string :=
  if JSOps.equals msg_role "user" then "user"
  else if JSOps.equals msg_role "assistant" then "assistant"
  else "user".

(** One turn of [for (const msg of messages)]: what it pushes. *)
Definition convert_message (msg : JValue) : Result (list JValue) :=
  let* msg_role := JS.get msg "role" in
  let role := ollama_role msg_role in
  let msg_content := JS.prop msg "content" in
  if JS.typeof msg_content =? "string" then
    Ok [ollama_message (JStr role) msg_content]
  else
    match msg_content with
    | JArr blocks =>
        let* content := flatten_blocks "" blocks in
        if JS.truthy (JStr content)
        then Ok [ollama_message (JStr role) (JStr content)]
        else Ok []
    | _ => Ok []
    end.

Fixpoint convert_messages (ollamaMessages : list JValue) (msgs : list JValue)
  : Result (list JValue) :=
  match msgs with
  | [] => Ok ollamaMessages
  | msg :: rest =>
      let* pushed := convert_message msg in
      convert_messages (ollamaMessages ++ pushed)%list rest
  end.

(** [const options = {}; if (x !== undefined) options.k = x; ...] *)
Definition build_options (temperature top_p max_tokens : JValue) : JValue :=
  JObj ((if JSOps.defined temperature then [("temperature", temperature)] else [])
        ++ (if JSOps.defined top_p then [("top_p", top_p)] else [])
        ++ (if JSOps.defined max_tokens then [("num_predict", max_tokens)] else []))%list.

Definition system_message (system : JValue) : list JValue :=
  if JS.truthy system then
    [ollama_message (JStr "system")
       (if JS.typeof system =? "string" then system
        else JS.or (JS.opt (JS.prop system "0") "text") (JStr ""))]
  else [].

Definition convertAnthropicToOllama (anthropicRequest : AnthropicRequest.t)
  : Result JValue :=
  let* ollamaMessages :=
    convert_messages
      (system_message (AnthropicRequest.system anthropicRequest))
      (AnthropicRequest.messages anthropicRequest) in
  Ok (JObj [("model", AnthropicRequest.model anthropicRequest);
            ("messages", JArr ollamaMessages);
            ("stream", JBool false);
            ("options",
              build_options (AnthropicRequest.temperature anthropicRequest)
                            (AnthropicRequest.top_p anthropicRequest)
                            (AnthropicRequest.max_tokens anthropicRequest))]).

(** [const { message, done, ... } = ollamaResponse] *)
Definition destructure (what : string) (v : JValue) : Result JValue :=
  if JS.nullish v
  then Throw (mkError ("Cannot destructure property 'message' of '" ++ what
                       ++ "' as it is " ++ JS.describe v ++ "."))
  else Ok v.

Definition convertOllamaToAnthropic (now : Z) (rnd : string)
           (ollamaResponse model : JValue) : Result JValue :=
  let* r := destructure "ollamaResponse" ollamaResponse in
  let message := JS.prop r "message" in
  let done := JS.prop r "done" in
  let prompt_eval_count := JS.prop r "prompt_eval_count" in
  let eval_count := JS.prop r "eval_count" in
  let content :=
    if JS.truthy message then
      let mc := JS.prop message "content" in
      if JS.typeof mc =? "string" then mc
      else if JS.truthy mc && (JS.typeof mc =? "object") then
        JS.or (JS.or (JS.or (JS.prop mc "content") (JS.prop mc "text")) mc)
              (JStr "")
      else if JS.typeof message =? "string" then message
      else JStr ""
    else JStr "" in
  Ok (JObj [("id", JStr ("msg_" ++ JS.Z_to_string now ++ "_" ++ rnd));
            ("type", JStr "message");
            ("role", JStr "assistant");
            ("content", JArr [JObj [("type", JStr "text"); ("text", content)]]);
            ("model", model);
            ("stop_reason", if JS.truthy done then JStr "end_turn" else JNull);
            ("stop_sequence", JNull);
            ("usage",
              JObj [("input_tokens", JS.or prompt_eval_count (JNum 0));
                    ("output_tokens",
                      JS.or (JS.or eval_count (JS.prop content "length"))
                            (JNum 0))])]).

Definition convertOllamaStreamToAnthropic (now : Z) (rnd : string)
           (chunk model : JValue) : Result JValue :=
  let* message := JS.get chunk "message" in
  if JSOps.defined (JS.opt message "content") then
    Ok (JObj [("type", JStr "content_block_delta");
              ("delta", JObj [("type", JStr "text_delta");
                              ("text", JS.prop message "content")]);
              ("index", JNum 0)])
  else if JS.truthy (JS.prop chunk "done") then
    Ok (JObj [("type", JStr "message_stop");
              ("message",
                JObj [("id", JStr ("msg_" ++ JS.Z_to_string now ++ "_" ++ rnd));
                      ("type", JStr "message");
                      ("role", JStr "assistant");
                      ("content", JStr "");
                      ("model", model);
                      ("stop_reason", JStr "end_turn");
                      ("stop_sequence", JNull);
                      ("usage",
                        JObj [("input_tokens",
                                JS.or (JS.prop chunk "prompt_eval_count") (JNum 0));
                              ("output_tokens",
                                JS.or (JS.prop chunk "eval_count") (JNum 0))])])])
  else Ok JNull.

(** The callback of [msg.content.map(...)] in [convertOpenAIToOllama]. *)
Definition convert_part (part : JValue) : Result JValue :=
  let* type := JS.get part "type" in
  if JSOps.equals type "text" then Ok (JS.prop part "text")
  else if JSOps.equals type "image_url" then
    Ok (JStr ("[image: "
              ++ JS.toString (JS.or (JS.opt (JS.prop part "image_url") "url")
                                    (JStr ""))
              ++ "]"))
  else Ok (JStr "").

Fixpoint map_result {A B} (f : A -> Result B) (xs : list A) : Result (list B) :=
  match xs with
  | [] => Ok []
  | x :: rest =>
      let* y := f x in
      let* ys := map_result f rest in
      Ok (y :: ys)
  end.

(** [parts.join("")] *)
Definition join_values (parts : list JValue) : string :=
  JS.join "" (List.map (fun x => if JS.nullish x then "" else JS.toString x) parts).

(** The callback of [(messages || []).map(...)]. *)
Definition convert_openai_message (msg : JValue) : Result JValue :=
  let* msg_content := JS.get msg "content" in
  let* content :=
    if JS.typeof msg_content =? "string" then Ok msg_content
    else
      match msg_content with
      | JArr parts =>
          let* texts := map_result convert_part parts in
          Ok (JStr (join_values texts))
      | _ => Ok (JStr "")
      end in
  Ok (ollama_message (JS.prop msg "role") content).

Definition convertOpenAIToOllama (openaiRequest : OpenAIRequest.t)
  : Result JValue :=
  let* ollamaMessages :=
    match JS.or (OpenAIRequest.messages openaiRequest) (JArr []) with
    | JArr msgs => map_result convert_openai_message msgs
    | _ => Throw (mkError "(messages || []).map is not a function")
    end in
  Ok (JObj [("model", OpenAIRequest.model openaiRequest);
            ("messages", JArr ollamaMessages);
            ("stream", JS.or (OpenAIRequest.stream openaiRequest) (JBool false));
            ("options",
              build_options (OpenAIRequest.temperature openaiRequest)
                            (OpenAIRequest.top_p openaiRequest)
                            (OpenAIRequest.max_tokens openaiRequest))]).

(** The step both schema-B converters take for reasoning models:
    [if (m.thinking) text = m.thinking + (text ? "\n\n" + text : "")],
    where the quoted separator is two line feeds. *)
Definition with_thinking (thinking text : JValue) : JValue :=
  if JS.truthy thinking then
    JSOps.add thinking
              (if JS.truthy text
               then JSOps.add (JStr JS.blank_line) text
               else JStr "")
  else text.

Definition convertOllamaToOpenAI (now : Z) (rnd : string)
           (ollamaResponse model : JValue) : Result JValue :=
  let* r := destructure "ollamaResponse" ollamaResponse in
  let message := JS.prop r "message" in
  let done := JS.prop r "done" in
  let prompt_eval_count := JS.prop r "prompt_eval_count" in
  let eval_count := JS.prop r "eval_count" in
  let content :=
    if JS.truthy message then
      let mc := JS.prop message "content" in
      let content :=
        if JS.typeof mc =? "string" then mc
        else if JS.truthy mc && (JS.typeof mc =? "object") then
          JS.or (JS.or (JS.prop mc "content") (JS.prop mc "text")) (JStr "")
        else JStr "" in
      with_thinking (JS.prop message "thinking") content
    else JStr "" in
  Ok (JObj [("id", JStr ("chatcmpl-" ++ JS.Z_to_string now ++ "-" ++ rnd));
            ("object", JStr "chat.completion");
            ("created", JNum (JSOps.seconds now));
            ("model", model);
            ("choices",
              JArr [JObj [("index", JNum 0);
                          ("message", JObj [("role", JStr "assistant");
                                            ("content", content)]);
                          ("finish_reason",
                            if JS.truthy done then JStr "stop" else JNull)]]);
            ("usage",
              JObj [("prompt_tokens", JS.or prompt_eval_count (JNum 0));
                    ("completion_tokens", JS.or eval_count (JNum 0));
                    ("total_tokens",
                      JSOps.add (JS.or prompt_eval_count (JNum 0))
                                (JS.or eval_count (JNum 0)))])]).

Definition convertOllamaStreamToOpenAI (now : Z) (rnd : string)
           (chunk model : JValue) : Result JValue :=
  let id := "chatcmpl-" ++ JS.Z_to_string now ++ "-" ++ rnd in
  let* done := JS.get chunk "done" in
  if JS.truthy done then
    Ok (JObj [("id", JStr id);
              ("object", JStr "chat.completion.chunk");
              ("created", JNum (JSOps.seconds now));
              ("model", model);
              ("choices",
                JArr [JObj [("index", JNum 0);
                            ("delta", JObj []);
                            ("finish_reason", JStr "stop")]])])
  else
    let msg := JS.prop chunk "message" in
    if negb (JS.truthy msg) then Ok JNull
    else
      let mc := JS.prop msg "content" in
      let text :=
        if JS.truthy mc then
          if JS.typeof mc =? "string" then mc
          else JS.or (JS.or (JS.prop mc "content") (JS.prop mc "text")) (JStr "")
        else JStr "" in
      let text := with_thinking (JS.prop msg "thinking") text in
      if negb (JS.truthy text) then Ok JNull
      else
        Ok (JObj [("id", JStr id);
                  ("object", JStr "chat.completion.chunk");
                  ("created", JNum (JSOps.seconds now));
                  ("model", model);
                  ("choices",
                    JArr [JObj [("index", JNum 0);
                                ("delta", JObj [("role", JStr "assistant");
                                                ("content", text)]);
                                ("finish_reason", JNull)]])]).

End Converter.

(* ================================================================== *)
(** ** The upstream and the effects of a call *)

(** What [fetch] resolves to: the status, the [retry-after] header
    ([None] when [headers.get] answers [null]) and the body as
    [response.text()] delivers it; [response.json()] parses that text. *)
Record Response : Type := mkResponse {
  status : Z;
  retry_after : option string;
  text : string
}.

Definition ok (r : Response) : bool :=
  ((200 <=? status r) && (status r <=? 299))%Z.

Inductive FetchOutcome : Type :=
| Resolves (response : Response)
| Rejects (error : Error).

(** The upstream as seen by one logical call: the request line and body
    are fixed during the call, so an answer depends on the ordinal of the
    [fetch] within the call and on the bearer key it carries. *)
Definition Upstream : Type := nat -> string -> FetchOutcome.

Inductive Effect : Type :=
| Fetch (bearer : string)
| Sleep (ms : JValue).

(** The shared configuration object, the number of [fetch] calls issued
    and the effects in the order they happened (the console output of the
    logger is left out). *)
Record World : Type := mkWorld {
  config : Config.t;
  calls : nat;
  trace : list Effect
}.

Definition start (c : Config.t) : World := mkWorld c 0 [].

Definition sleep (ms : JValue) (w : World) : World :=
  mkWorld (config w) (calls w) (trace w ++ [Sleep ms])%list.

Definition rotate (w : World) : World :=
  mkWorld (fst (Config.rotateApiKey (config w))) (calls w) (trace w).

Definition fetched (bearer : string) (w : World) : World :=
  mkWorld (config w) (S (calls w)) (trace w ++ [Fetch bearer])%list.

(* ================================================================== *)
(** ** src/ollama/client.js and src/ollama/openai-client.js *)

(** How a [try] block is left: by [return], by [continue], or by a
    [throw] that its [catch] receives. *)
Inductive Completion : Type :=
| Returned (value : JValue)
| Continued
| Thrown (error : Error).

Section Transport.

Variable host : Host.
Variable upstream : Upstream.

(** [lastError || new Error(fallback)] *)
Definition last_or (lastError : option Error) (fallback : string) : Error :=
  match lastError with
  | Some e => e
  | None => mkError fallback
  end.

(** The [for] loop of [fetchWithKeyRotation], with [remaining] turns
    left.  Both clients carry the same function. *)
Fixpoint key_attempts (keys : list string) (remaining : nat)
         (lastError : option Error) (w : World) : Result Response * World :=
  match remaining with
  | 0 => (Throw (last_or lastError "All API keys exhausted"), w)
  | S remaining' =>
      match Config.getApiKey (config w) with
      | None | Some EmptyString => (Throw (mkError "No API key configured"), w)
      | Some apiKey =>
          let outcome := upstream (calls w) apiKey in
          let w := fetched apiKey w in
          match outcome with
          | Resolves response =>
              if (status response =? 401)%Z then
                key_attempts keys remaining' lastError (rotate w)
              else if (status response =? 429)%Z
                      && (1 <? List.length keys)%nat then
                key_attempts keys remaining' lastError
                             (sleep (JNum 1000) (rotate w))
              else (Ok response, w)
          | Rejects error =>
              if isNetworkError error && (1 <? List.length keys)%nat then
                key_attempts keys remaining' (Some error)
                             (sleep (JNum RETRY_DELAY_MS) (rotate w))
              else (Throw error, w)
          end
      end
  end.

Definition fetchWithKeyRotation (w : World) : Result Response * World :=
  let keys := Config.getApiKeys (config w) in
  let maxKeyAttempts :=
    match List.length keys with
    | 0 => 1
    | n => n
    end in
  key_attempts keys maxKeyAttempts None w.

(** [retryAfter ? parseInt(retryAfter, 10) * 1000
                : RETRY_DELAY_MS * (attempt + 1)] *)
Definition waitMs (response : Response) (attempt : nat) : JValue :=
  match retry_after response with
  | Some (String _ _ as retryAfter) => JS.times (JS.parseInt retryAfter) 1000
  | _ => JS.times (JS.number (Z.of_nat attempt + 1)) RETRY_DELAY_MS
  end.

(** The body of the [try] block of [sendMessage] and of
    [sendOpenAIMessage], which differ in the converter applied to the
    parsed body: how the block is left, and the world then. *)
Definition try_block (convert : JValue -> Result JValue) (attempt : nat)
           (w : World) : Completion * World :=
  match fetchWithKeyRotation w with
  | (Throw error, w) => (Thrown error, w)
  | (Ok response, w) =>
      if negb (ok response) then
        let errorText := text response in
        let statusCode := status response in
        if (statusCode =? 429)%Z then
          (Continued, sleep (waitMs response attempt) w)
        else if (statusCode =? 401)%Z then
          (Thrown (mkError "authentication_error: All API keys invalid"), w)
        else
          (Thrown (mkError ("API error " ++ JS.Z_to_string statusCode
                            ++ ": " ++ errorText)), w)
      else
        match JSON_parse host (text response) with
        | Throw error => (Thrown error, w)
        | Ok data =>
            match convert data with
            | Throw error => (Thrown error, w)
            | Ok converted => (Returned converted, w)
            end
        end
  end.

(** The [for] loop around it, with its [catch] block.  [remaining] turns
    are left and [attempt] is the loop variable. *)
Fixpoint attempts (convert : JValue -> Result JValue)
         (remaining attempt : nat) (lastError : option Error) (w : World)
  : Result JValue * World :=
  match remaining with
  | 0 => (Throw (last_or lastError "Max retries exceeded"), w)
  | S remaining' =>
      match try_block convert attempt w with
      | (Returned converted, w) => (Ok converted, w)
      | (Continued, w) => attempts convert remaining' (S attempt) lastError w
      | (Thrown error, w) =>
          if isNetworkError error && (attempt <? MAX_RETRIES - 1)%nat
          then attempts convert remaining' (S attempt) lastError
                        (sleep (JNum RETRY_DELAY_MS) w)
          else attempts convert remaining' (S attempt) (Some error) w
      end
  end.

(** [data => convertOllamaToAnthropic(data, anthropicRequest.model)] *)
Definition anthropic_reply (anthropicRequest : AnthropicRequest.t)
  : JValue -> Result JValue :=
  fun data =>
    convertOllamaToAnthropic (Date_now host 0) (Math_random_id host 0)
      data (AnthropicRequest.model anthropicRequest).

(** [data => convertOllamaToOpenAI(data, openaiRequest.model)] *)
Definition openai_reply (openaiRequest : OpenAIRequest.t)
  : JValue -> Result JValue :=
  fun data =>
    convertOllamaToOpenAI (Date_now host 0) (Math_random_id host 0)
      data (OpenAIRequest.model openaiRequest).

Definition sendMessage (anthropicRequest : AnthropicRequest.t) (w : World)
  : Result JValue * World :=
  match convertAnthropicToOllama host anthropicRequest with
  | Throw error => (Throw error, w)
  | Ok ollamaRequest =>
      attempts (anthropic_reply anthropicRequest) MAX_RETRIES 0 None w
  end.

Definition sendOpenAIMessage (openaiRequest : OpenAIRequest.t) (w : World)
  : Result JValue * World :=
  match convertOpenAIToOllama openaiRequest with
  | Throw error => (Throw error, w)
  | Ok ollamaRequest =>
      attempts (openai_reply openaiRequest) MAX_RETRIES 0 None w
  end.

End Transport.

(* ================================================================== *)
(** ** src/server.js: how the front door tells the error kinds apart *)

Record ParsedError : Type := mkParsedError {
  errorType : string;
  statusCode : Z;
  errorMessage : string
}.

Definition parseError (error : Error) : ParsedError :=
  if JS.includes (message error) "401"
     || JS.includes (message error) "authentication_error" then
    mkParsedError "authentication_error" 401
      "Authentication failed. Please check your OLLAMA_API_KEY."
  else if JS.includes (message error) "429"
          || JS.includes (message error) "rate_limit" then
    mkParsedError "rate_limit_error" 429
      "Rate limit exceeded. Please wait before retrying."
  else if JS.includes (message error) "invalid_request_error" then
    mkParsedError "invalid_request_error" 400 (message error)
  else mkParsedError "api_error" 500 (message error).

(* ================================================================== *)
(** ** The stream readers

    [sendMessageStream] and [sendOpenAIMessageStream] from
    [const reader = response.body.getReader()] on, that is once the
    connection is open.  The body is what [reader.read()] delivers through
    the decoder: the decoded chunks in order, then either the end of input
    or a rejection. *)

Record Body : Type := mkBody {
  chunks : list string;
  failure : option Error
}.

(** What a drained generator has produced: the events yielded in order, the
    debug lines handed to the logger, and the error it ended with, if any. *)
Record Drained : Type := mkDrained {
  events : list JValue;
  logs : list string;
  ended : option Error
}.

Section Streams.

Variable host : Host.

(** [!line.trim() || line.startsWith(':')] *)
Definition skipped (line : string) : bool :=
  negb (JS.truthy (JStr (JS.trim line))) || JS.startsWith line ":".

Definition content_block_delta (text : JValue) : JValue :=
  JObj [("type", JStr "content_block_delta");
        ("delta", JObj [("type", JStr "text_delta"); ("text", text)]);
        ("index", JNum 0)].

Definition message_stop (now : Z) (content : string) (model data : JValue)
  : JValue :=
  JObj [("type", JStr "message_stop");
        ("message",
          JObj [("id", JStr ("msg_" ++ JS.Z_to_string now));
                ("type", JStr "message");
                ("role", JStr "assistant");
                ("content", JArr [JObj [("type", JStr "text");
                                        ("text", JStr content)]]);
                ("model", model);
                ("stop_reason", JStr "end_turn");
                ("stop_sequence", JNull);
                ("usage",
                  JObj [("input_tokens",
                          JS.or (JS.prop data "prompt_eval_count") (JNum 0));
                        ("output_tokens",
                          JS.or (JS.prop data "eval_count") (JNum 0))])])].

(** The state the Anthropic reader carries from line to line: the text
    accumulated in [content] and the number of clock readings so far
    ([firstChunk] is written and never read). *)
Record Reader : Type := mkReader {
  content : string;
  readings : nat
}.

(** The body of [for (const line of lines)] in [sendMessageStream]:
    events yielded, lines logged, state afterwards. *)
Definition anthropic_line (model : JValue) (st : Reader) (line : string)
  : list JValue * list string * Reader :=
  if skipped line then ([], [], st)
  else
    let failed :=
      ([], ["[OllamaClient] Failed to parse SSE line: " ++ line], st) in
    match JSON_parse host line with
    | Throw _ => failed
    | Ok data =>
        match JS.get data "message" with
        | Throw _ => failed
        | Ok data_message =>
            let delta := JS.opt data_message "content" in
            let content1 :=
              if JS.truthy delta then content st ++ JS.toString delta
              else content st in
            let yielded1 :=
              if JS.truthy delta then [content_block_delta delta] else [] in
            if JS.truthy (JS.prop data "done") then
              ((yielded1
                ++ [message_stop (Date_now host (readings st)) content1
                                 model data])%list,
               [], mkReader content1 (S (readings st)))
            else (yielded1, [], mkReader content1 (readings st))
        end
    end.

(** The body of [for (const line of lines)] in [sendOpenAIMessageStream];
    the state is the number of clock readings so far. *)
Definition openai_line (model : JValue) (st : nat) (line : string)
  : list JValue * list string * nat :=
  if skipped line then ([], [], st)
  else
    match JSON_parse host line with
    | Throw _ => ([], ["[OpenAIClient] Failed to parse stream line: " ++ line], st)
    | Ok data =>
        match convertOllamaStreamToOpenAI (Date_now host st)
                (Math_random_id host st) data model with
        | Throw _ =>
            ([], ["[OpenAIClient] Failed to parse stream line: " ++ line], S st)
        | Ok chunk => (if JS.truthy chunk then [chunk] else [], [], S st)
        end
    end.

Section Reading.

Variable State : Type.
Variable on_line : State -> string -> list JValue * list string * State.

(** [for (const line of lines) ...] *)
Fixpoint each_line (st : State) (lines : list string)
  : list JValue * list string * State :=
  match lines with
  | [] => ([], [], st)
  | line :: rest =>
      let '(ev, lg, st1) := on_line st line in
      let '(ev', lg', st2) := each_line st1 rest in
      ((ev ++ ev')%list, (lg ++ lg')%list, st2)
  end.

(** [while (true)]: one turn per chunk read; the loop is left when the
    reader reports the end of input or rejects. *)
Fixpoint read_loop (buffer : string) (st : State) (values : list string)
  : list JValue * list string * State :=
  match values with
  | [] => ([], [], st)
  | value :: rest =>
      let buffer := buffer ++ value in
      let (lines, last) := JS.pop (JS.split JS.LF buffer) in
      let buffer :=
        match last with
        | Some fragment => fragment
        | None => ""
        end in
      let '(ev, lg, st1) := each_line st lines in
      let '(ev', lg', st2) := read_loop buffer st1 rest in
      ((ev ++ ev')%list, (lg ++ lg')%list, st2)
  end.

Definition drain (st : State) (body : Body) : Drained :=
  let '(ev, lg, _) := read_loop "" st (chunks body) in
  mkDrained ev lg (failure body).

End Reading.

Definition sendMessageStream (model : JValue) (body : Body) : Drained :=
  drain Reader (anthropic_line model) (mkReader "" 0) body.

Definition sendOpenAIMessageStream (model : JValue) (body : Body) : Drained :=
  drain nat (openai_line model) 0 body.

End Streams.

(* ================================================================== *)
(** ** A host to run the model on

    [JSON.parse] and [JSON.stringify] on the texts the model can hold:
    numbers without fraction or exponent, [\u] escapes below 256. *)

Module Json.

Definition DQUOTE : ascii := ascii_of_nat 34.
Definition BACKSLASH : ascii := ascii_of_nat 92.

Definition is_ws (c : ascii) : bool :=
  let n := nat_of_ascii c in
  ((n =? 32) || (n =? 9) || (n =? 10) || (n =? 13))%nat.

Fixpoint skip_ws (s : string) : string :=
  match s with
  | EmptyString => s
  | String c rest => if is_ws c then skip_ws rest else s
  end.

Definition hex (c : ascii) : option nat :=
  let n := nat_of_ascii c in
  if ((48 <=? n) && (n <=? 57))%nat then Some (n - 48)
  else if ((97 <=? n) && (n <=? 102))%nat then Some (n - 87)
  else if ((65 <=? n) && (n <=? 70))%nat then Some (n - 55)
  else None.

Definition unescape (c : ascii) : option ascii :=
  match c with
  | "n"%char => Some JS.LF
  | "t"%char => Some (ascii_of_nat 9)
  | "r"%char => Some (ascii_of_nat 13)
  | "b"%char => Some (ascii_of_nat 8)
  | "f"%char => Some (ascii_of_nat 12)
  | "/"%char => Some c
  | _ => if Ascii.eqb c DQUOTE || Ascii.eqb c BACKSLASH then Some c else None
  end.

(** The characters of a string literal after its opening quote, and the
    text after its closing quote. *)
Fixpoint string_body (s : string) : option (string * string) :=
  match s with
  | EmptyString => None
  | String c rest =>
      if Ascii.eqb c DQUOTE then Some (EmptyString, rest)
      else if Ascii.eqb c BACKSLASH then
        match rest with
        | String "u" (String a (String b (String x (String y rest')))) =>
            match hex a, hex b, hex x, hex y with
            | Some 0, Some 0, Some h, Some l =>
                match string_body rest' with
                | Some (body, after) =>
                    Some (String (ascii_of_nat (16 * h + l)) body, after)
                | None => None
                end
            | _, _, _, _ => None
            end
        | String e rest' =>
            match unescape e, string_body rest' with
            | Some c', Some (body, after) => Some (String c' body, after)
            | _, _ => None
            end
        | EmptyString => None
        end
      else if (nat_of_ascii c <? 32)%nat then None
      else
        match string_body rest with
        | Some (body, after) => Some (String c body, after)
        | None => None
        end
  end.

Fixpoint digits_prefix (s : string) : string * string :=
  match s with
  | EmptyString => (EmptyString, s)
  | String c rest =>
      match JS.digit c with
      | Some _ => let (ds, after) := digits_prefix rest in (String c ds, after)
      | None => (EmptyString, s)
      end
  end.

Definition number (s : string) : option (JValue * string) :=
  let unsigned (sign : Z) (t : string) :=
    let (ds, after) := digits_prefix t in
    let integral :=
      match ds with
      | EmptyString => false
      | String "0" (String _ _) => false
      | _ => true
      end in
    let continues :=
      match after with
      | String "."%char _ | String "e"%char _ | String "E"%char _ => true
      | _ => false
      end in
    if integral && negb continues then
      match JS.digits None ds with
      | Some n => Some (JS.number (sign * n), after)
      | None => None
      end
    else None in
  match s with
  | String "-" t => unsigned (-1)%Z t
  | _ => unsigned 1%Z s
  end.

Fixpoint drop (n : nat) (s : string) : string :=
  match n, s with
  | S n', String _ rest => drop n' rest
  | _, _ => s
  end.

(** [fields[k] = v], a later member of the same name replacing the
    earlier one. *)
Fixpoint set_field (k : string) (v : JValue) (fields : list (string * JValue))
  : list (string * JValue) :=
  match fields with
  | [] => [(k, v)]
  | (k', v') :: rest =>
      if k =? k' then (k, v) :: rest else (k', v') :: set_field k v rest
  end.

Fixpoint value (fuel : nat) (s : string) : option (JValue * string) :=
  match fuel with
  | 0 => None
  | S fuel =>
      match skip_ws s with
      | String "{" rest =>
          match skip_ws rest with
          | String "}" after => Some (JObj [], after)
          | inner => members fuel inner []
          end
      | String "[" rest =>
          match skip_ws rest with
          | String "]" after => Some (JArr [], after)
          | inner => elements fuel inner []
          end
      | String c rest as t =>
          if Ascii.eqb c DQUOTE then
            match string_body rest with
            | Some (body, after) => Some (JStr body, after)
            | None => None
            end
          else if String.prefix "true" t then Some (JBool true, drop 4 t)
          else if String.prefix "false" t then Some (JBool false, drop 5 t)
          else if String.prefix "null" t then Some (JNull, drop 4 t)
          else number t
      | EmptyString => None
      end
  end
with elements (fuel : nat) (s : string) (acc : list JValue)
  : option (JValue * string) :=
  match fuel with
  | 0 => None
  | S fuel =>
      match value fuel s with
      | Some (v, after) =>
          match skip_ws after with
          | String "," rest => elements fuel rest (acc ++ [v])%list
          | String "]" rest => Some (JArr (acc ++ [v])%list, rest)
          | _ => None
          end
      | None => None
      end
  end
with members (fuel : nat) (s : string) (acc : list (string * JValue))
  : option (JValue * string) :=
  match fuel with
  | 0 => None
  | S fuel =>
      match skip_ws s with
      | String q rest =>
          if Ascii.eqb q DQUOTE then
            match string_body rest with
            | Some (k, after) =>
                match skip_ws after with
                | String ":" rest =>
                    match value fuel rest with
                    | Some (v, after) =>
                        match skip_ws after with
                        | String "," rest => members fuel rest (set_field k v acc)
                        | String "}" rest => Some (JObj (set_field k v acc), rest)
                        | _ => None
                        end
                    | None => None
                    end
                | _ => None
                end
            | None => None
            end
          else None
      | EmptyString => None
      end
  end.

Definition parse (s : string) : Result JValue :=
  match value (S (String.length s)) s with
  | Some (v, after) =>
      match skip_ws after with
      | EmptyString => Ok v
      | _ => Throw (mkError "Unexpected non-whitespace character after JSON")
      end
  | None => Throw (mkError "Unexpected token in JSON")
  end.

Definition hex_digit (n : nat) : ascii :=
  ascii_of_nat (if (n <? 10)%nat then 48 + n else 87 + n).

Fixpoint escape (s : string) : string :=
  match s with
  | EmptyString => EmptyString
  | String c rest =>
      let n := nat_of_ascii c in
      (if Ascii.eqb c DQUOTE || Ascii.eqb c BACKSLASH
       then String BACKSLASH (String c EmptyString)
       else if (n =? 10)%nat then String BACKSLASH "n"
       else if (n =? 13)%nat then String BACKSLASH "r"
       else if (n =? 9)%nat then String BACKSLASH "t"
       else if (n =? 8)%nat then String BACKSLASH "b"
       else if (n =? 12)%nat then String BACKSLASH "f"
       else if (n <? 32)%nat
       then String BACKSLASH
              ("u00" ++ String (hex_digit (n / 16))
                          (String (hex_digit (n mod 16)) EmptyString))
       else String c EmptyString)
      ++ escape rest
  end.

Definition quote (s : string) : string :=
  String DQUOTE (escape s ++ String DQUOTE EmptyString).

Fixpoint print (v : JValue) : option string :=
  match v with
  | JUndefined => None
  | JNull | JNaN | JInfinity _ => Some "null"
  | JBool true => Some "true"
  | JBool false => Some "false"
  | JNum n => Some (JS.Z_to_string n)
  | JStr s => Some (quote s)
  | JArr xs =>
      Some ("[" ++ JS.join ","
                     (List.map (fun x => match print x with
                                         | Some t => t
                                         | None => "null"
                                         end) xs)
                ++ "]")
  | JObj fields =>
      Some ("{" ++ JS.join ","
                     ((fix each (fs : list (string * JValue)) : list string :=
                         match fs with
                         | [] => []
                         | (k, x) :: rest =>
                             match print x with
                             | Some t => (quote k ++ ":" ++ t) :: each rest
                             | None => each rest
                             end
                         end) fields)
                ++ "}")
  end.

Definition stringify (v : JValue) : JValue :=
  match print v with
  | Some t => JStr t
  | None => JUndefined
  end.

End Json.

(** The readings of the clock and of the random source are fixed
    arbitrarily: one millisecond apart from an epoch, and a constant
    suffix. *)
Definition node : Host :=
  mkHost Json.parse Json.stringify
         (fun n => 1700000000000 + Z.of_nat n)%Z
         (fun _ => "k3j9x0q2a").


(* ================================================================== *)
(** ** Vocabulary of the properties *)

(** A content block of type [text] carrying the string [text]. *)
Definition text_block (block : JValue) (text : string) : Prop :=
  JS.get block "type" = Ok (JStr "text") /\ JS.prop block "text" = JStr text.

(** A block whose type is none of the three the converter renders. *)
Definition unrecognized_block (block : JValue) : Prop :=
  exists type,
    JS.get block "type" = Ok type
    /\ JSOps.equals type "text" = false
    /\ JSOps.equals type "tool_use" = false
    /\ JSOps.equals type "tool_result" = false.

(** A message whose content is an array of text blocks carrying [texts]. *)
Definition text_message (msg : JValue) (texts : list string) : Prop :=
  JS.nullish msg = false
  /\ exists blocks,
       JS.prop msg "content" = JArr blocks /\ Forall2 text_block blocks texts.

(** The texts one after the other, nothing in between. *)
Definition concatenation (texts : list string) : string :=
  List.fold_right String.append "" texts.

(** The target message a source message with the text [content] becomes. *)
Definition target_message (msg : JValue) (content : string) : JValue :=
  ollama_message (JStr (ollama_role (JS.prop msg "role"))) (JStr content).

Definition with_messages (r : AnthropicRequest.t) (msgs : list JValue)
  : AnthropicRequest.t :=
  AnthropicRequest.mk (AnthropicRequest.model r) msgs
    (AnthropicRequest.max_tokens r) (AnthropicRequest.temperature r)
    (AnthropicRequest.top_p r) (AnthropicRequest.tools r)
    (AnthropicRequest.system r).

(** A target response of a reasoning model: the message carries the final
    answer in [content] and the reasoning in [thinking]. *)
Definition thinking_message (thinking content : string) : JValue :=
  JObj [("role", JStr "assistant");
        ("content", JStr content);
        ("thinking", JStr thinking)].

Definition thinking_response (thinking content : string) (done : bool) : JValue :=
  JObj [("model", JStr "glm-5");
        ("message", thinking_message thinking content);
        ("done", JBool done)].

(** What the claim asks the completion text to be. *)
Definition thinking_then_content (thinking content : string) : string :=
  if content =? "" then thinking else thinking ++ JS.blank_line ++ content.

(** [response.content[0].text] of a schema-A response. *)
Definition anthropic_text (response : JValue) : JValue :=
  JS.prop (JS.prop (JS.prop response "content") "0") "text".

(** [event.delta.text] of a schema-A content delta. *)
Definition anthropic_delta_text (event : JValue) : JValue :=
  JS.prop (JS.prop event "delta") "text".

(** [completion.choices[0].message.content] of a schema-B completion. *)
Definition openai_text (completion : JValue) : JValue :=
  JS.prop (JS.prop (JS.prop (JS.prop completion "choices") "0") "message")
          "content".

(** [chunk.choices[0].delta.content] of a schema-B chunk. *)
Definition openai_delta_text (chunk : JValue) : JValue :=
  JS.prop (JS.prop (JS.prop (JS.prop chunk "choices") "0") "delta") "content".

Definition event_type (event : JValue) : JValue := JS.prop event "type".

Definition text_of (r : Result JValue) (read : JValue -> JValue) : JValue :=
  match r with
  | Ok v => read v
  | Throw _ => JUndefined
  end.

(** The complete lines of a text, each without its line feed, and the
    fragment after the last line feed. *)
Fixpoint cut (s : string) : list string * string :=
  match s with
  | EmptyString => ([], "")
  | String c rest =>
      let (lines, fragment) := cut rest in
      if Ascii.eqb c JS.LF then ("" :: lines, fragment)
      else
        match lines with
        | [] => ([], String c fragment)
        | first :: others => (String c first :: others, fragment)
        end
  end.

(** The text a sequence of decoded chunks adds up to. *)
Definition received (values : list string) : string :=
  List.fold_right String.append "" values.

(** The one-character string holding a double quote. *)
Definition dq : string := String Json.DQUOTE "".

(** [{"message":{"content":"Hi"},"done":false}] *)
Definition line_hi : string :=
  "{" ++ dq ++ "message" ++ dq ++ ":{" ++ dq ++ "content" ++ dq ++ ":"
      ++ dq ++ "Hi" ++ dq ++ "}," ++ dq ++ "done" ++ dq ++ ":false}".

(** [{"done":true,"eval_count":3}] *)
Definition line_done : string :=
  "{" ++ dq ++ "done" ++ dq ++ ":true," ++ dq ++ "eval_count" ++ dq ++ ":3}".

(** [{"message":{"content":"Hi"},"done":true}] *)
Definition line_hi_done : string :=
  "{" ++ dq ++ "message" ++ dq ++ ":{" ++ dq ++ "content" ++ dq ++ ":"
      ++ dq ++ "Hi" ++ dq ++ "}," ++ dq ++ "done" ++ dq ++ ":true}".

(** The objects these texts denote. *)
Definition data_hi : JValue :=
  JObj [("message", JObj [("content", JStr "Hi")]); ("done", JBool false)].

Definition data_done : JValue :=
  JObj [("done", JBool true); ("eval_count", JNum 3)].

Definition data_hi_done : JValue :=
  JObj [("message", JObj [("content", JStr "Hi")]); ("done", JBool true)].

Definition newline : string := String JS.LF "".

(** [event.message.usage.output_tokens] of a schema-A terminal event. *)
Definition output_tokens (event : JValue) : JValue :=
  JS.prop (JS.prop (JS.prop event "message") "usage") "output_tokens".

(** [chunk.choices[0].finish_reason] of a schema-B chunk. *)
Definition finish_reason (chunk : JValue) : JValue :=
  JS.prop (JS.prop (JS.prop chunk "choices") "0") "finish_reason".

(** The two kinds of stream event, in either schema. *)
Definition is_delta (event : JValue) : bool :=
  JSOps.equals (event_type event) "content_block_delta".

Definition is_stop (event : JValue) : bool :=
  JSOps.equals (event_type event) "message_stop".

Definition is_delta_chunk (chunk : JValue) : bool :=
  JS.truthy (openai_delta_text chunk).

Definition is_stop_chunk (chunk : JValue) : bool :=
  JSOps.equals (finish_reason chunk) "stop".

(** The events of one turn of a line loop. *)
Definition yielded {S : Type} (turn : list JValue * list string * S)
  : list JValue :=
  fst (fst turn).

(** The text [JSON.stringify] gives a value on the wire. *)
Definition wire (v : JValue) : string := JS.toString (Json.stringify v).

(** A schema-A request and a schema-B request saying "Hello". *)
Definition hello_anthropic : AnthropicRequest.t :=
  AnthropicRequest.mk (JStr "glm-5")
    [JObj [("role", JStr "user"); ("content", JStr "Hello")]]
    (JNum 4096) JUndefined JUndefined JUndefined JUndefined.

Definition hello_openai : OpenAIRequest.t :=
  OpenAIRequest.mk (JStr "glm-5")
    (JArr [JObj [("role", JStr "user"); ("content", JStr "Hello")]])
    JUndefined JUndefined JUndefined JUndefined.

(** An upstream that answers every fetch with the same response. *)
Definition always (response : Response) : Upstream :=
  fun _ _ => Resolves response.

(** The keys a rotation over [keys] meets in [j] steps from [cursor]. *)
Definition rotation_from (keys : list string) (cursor j : nat) : list string :=
  List.map (fun i => List.nth ((cursor + i) mod List.length keys) keys "")
           (List.seq 0 j).

(** The error a call ended with, if it ended with one. *)
Definition raised {A : Type} (r : Result A) : option Error :=
  match r with
  | Ok _ => None
  | Throw e => Some e
  end.

(** The kind the front door gives the error a call ended with. *)
Definition reported_as {A : Type} (r : Result A) : option string :=
  option_map (fun e => errorType (parseError e)) (raised r).

(** [event.message.content[0].text] of a schema-A terminal event of the
    stream reader. *)
Definition stop_text (event : JValue) : JValue :=
  JS.prop (JS.prop (JS.prop (JS.prop event "message") "content") "0") "text".

(** The text the content deltas among [evs] add up to. *)
Fixpoint delta_texts (evs : list JValue) : string :=
  match evs with
  | [] => ""
  | event :: rest =>
      (if is_delta event then JS.toString (anthropic_delta_text event) else "")
      ++ delta_texts rest
  end.

(** Every terminal event among [evs] carries the delta texts that came
    before it, [seen] being the text before the first of [evs]. *)
Fixpoint stops_carry (seen : string) (evs : list JValue) : Prop :=
  match evs with
  | [] => True
  | event :: rest =>
      (is_stop event = true -> stop_text event = JStr seen)
      /\ stops_carry (seen ++ delta_texts [event]) rest
  end.

(** A message the request converters can read: it is neither [null] nor
    [undefined], and neither is any element of its content when that is
    an array. *)
Definition readable_message (msg : JValue) : Prop :=
  JS.nullish msg = false
  /\ forall blocks,
       JS.prop msg "content" = JArr blocks ->
       Forall (fun block => JS.nullish block = false) blocks.

(** A message of the upstream chat format as the schema-A converter builds
    them after the system message: the role is one of the two chat roles
    and the content is a string. *)
Definition chat_message (m : JValue) : Prop :=
  (JS.prop m "role" = JStr "user" \/ JS.prop m "role" = JStr "assistant")
  /\ JS.typeof (JS.prop m "content") = "string".

(** A tool-use or tool-result block. *)
Definition tool_block (block : JValue) : Prop :=
  JS.prop block "type" = JStr "tool_use"
  \/ JS.prop block "type" = JStr "tool_result".

(** A string that does not start with white space. *)
Definition starts_in_text (s : string) : Prop :=
  match s with
  | EmptyString => True
  | String c _ => JS.is_space c = false
  end.

(** [response.usage.k] *)
Definition usage (response : JValue) (k : string) : JValue :=
  JS.prop (JS.prop response "usage") k.

(** [request.options.k] of an upstream request. *)
Definition option_of (request : JValue) (k : string) : JValue :=
  JS.prop (JS.prop request "options") k.

(* ================================================================== *)
(** ** The streaming senders, from the request to the events

    [sendMessageStream] and [sendOpenAIMessageStream] as a whole: the
    request is translated, the loop over [keyAttempt] opens the
    connection, and the body of the response goes to the reader of the
    same name above.  [body_of] is [response.body] as the reader will find
    it, [None] for a response without one.  A generator that throws
    before its first event is a drained stream with no event and that
    error. *)

Module Streaming.

Section Connecting.

Variable host : Host.
Variable upstream : Upstream.
Variable body_of : Response -> option Body.

(** [new Error(`API error ${response.status}: ${errorText}`)] *)
Definition api_error (response : Response) : Error :=
  mkError ("API error " ++ JS.Z_to_string (status response) ++ ": "
           ++ text response).

(** [keyAttempt >= keys.length - 1] *)
Definition last_key (len keyAttempt : nat) : bool :=
  (Z.of_nat len - 1 <=? Z.of_nat keyAttempt)%Z.

(** [while (keyAttempt < bound) { try { ... } catch (error) { ... } }],
    where [bound] is [keys.length] in client.js and
    [Math.max(keys.length, 1)] in openai-client.js, and [len] is
    [keys.length].  [Ok response] is the loop left by [break] or by its
    condition, with the variable [response] as it is then; [Throw] is the
    error its [catch] block throws on.  A turn that does not leave the
    loop raises [keyAttempt], so [bound] turns, counted down in [turns],
    are enough. *)
Fixpoint connect (bound len turns keyAttempt : nat)
         (response : option Response) (w : World)
  : Result (option Response) * World :=
  if negb (keyAttempt <? bound)%nat then (Ok response, w)
  else
    match turns with
    | 0 => (Ok response, w)
    | S turns' =>
        match fetchWithKeyRotation upstream w with
        | (Ok answer, w) =>
            if ok answer then (Ok (Some answer), w)
            else
              let refused :=
                ((status answer =? 401) || (status answer =? 429))%Z in
              let keyAttempt := if refused then S keyAttempt else keyAttempt in
              if refused && (keyAttempt <? len)%nat then
                connect bound len turns' keyAttempt (Some answer) w
              else if last_key len keyAttempt then
                (Throw (api_error answer), w)
              else connect bound len turns' (S keyAttempt) (Some answer) w
        | (Throw error, w) =>
            if last_key len keyAttempt then (Throw error, w)
            else connect bound len turns' (S keyAttempt) response w
        end
    end.

Definition failed (error : Error) (w : World) : Drained * World :=
  (mkDrained [] [] (Some error), w).

Definition sendMessageStream (anthropicRequest : AnthropicRequest.t) (w : World)
  : Drained * World :=
  match convertAnthropicToOllama host anthropicRequest with
  | Throw error => failed error w
  | Ok ollamaRequest =>
      let len := List.length (Config.getApiKeys (config w)) in
      match connect len len len 0 None w with
      | (Throw error, w) => failed error w
      | (Ok None, w) =>
          failed (mkError "Cannot read properties of undefined (reading 'ok')") w
      | (Ok (Some response), w) =>
          if negb (ok response) then failed (api_error response) w
          else
            match body_of response with
            | None => failed (mkError "No response body") w
            | Some body =>
                (sendMessageStream host (AnthropicRequest.model anthropicRequest)
                                   body, w)
            end
      end
  end.

Definition sendOpenAIMessageStream (openaiRequest : OpenAIRequest.t) (w : World)
  : Drained * World :=
  match convertOpenAIToOllama openaiRequest with
  | Throw error => failed error w
  | Ok ollamaRequest =>
      let len := List.length (Config.getApiKeys (config w)) in
      match connect (Nat.max len 1) len (Nat.max len 1) 0 None w with
      | (Throw error, w) => failed error w
      | (Ok None, w) => failed (mkError ("API error: " ++ "No response")) w
      | (Ok (Some response), w) =>
          if negb (ok response) then
            failed (mkError ("API error: "
                             ++ JS.toString (JS.or (JStr (text response))
                                                   (JStr "No response")))) w
          else
            match body_of response with
            | None => failed (mkError "No response body") w
            | Some body =>
                (sendOpenAIMessageStream host (OpenAIRequest.model openaiRequest)
                                         body, w)
            end
      end
  end.

End Connecting.

End Streaming.

(* ================================================================== *)
(** ** src/config.js: loading the configuration

    [loadConfig] as the constructor runs it: the defaults, overlaid by
    config.json when that file exists and parses, then overridden by the
    environment.  The configuration object is kept as its list of fields;
    [Config.t] above is the part of it the transport works on. *)

Module Loader.

(** [process.env]: each variable is a string or is not set. *)
Record Env : Type := mkEnv {
  PORT : option string;
  HOST : option string;
  OLLAMA_BASE_URL : option string;
  OLLAMA_API_KEY : option string;
  ANTHROPIC_API_KEY : option string;
  DEFAULT_MODEL : option string;
  DEBUG : option string
}.

(** config.json: [None] when [fs.existsSync] says no, otherwise what
    [fs.readFileSync] returns or throws. *)
Definition File : Type := option (Result string).

Definition DEFAULT_CONFIG : list (string * JValue) :=
  [("port", JNum 8080);
   ("host", JStr "0.0.0.0");
   ("ollamaBaseUrl", JStr "https://ollama.com/api");
   ("apiKey", JNull);
   ("apiKeys", JArr []);
   ("defaultModel", JStr "qwen3-coder-next");
   ("modelMapping", JObj []);
   ("debug", JBool false)].

Fixpoint indexed (i : nat) (xs : list JValue) : list (string * JValue) :=
  match xs with
  | [] => []
  | x :: rest => (JS.nat_to_string i, x) :: indexed (S i) rest
  end.

Fixpoint characters (i : nat) (s : string) : list (string * JValue) :=
  match s with
  | EmptyString => []
  | String c rest =>
      (JS.nat_to_string i, JStr (String c "")) :: characters (S i) rest
  end.

(** The own enumerable properties a spread copies. *)
Definition own_properties (v : JValue) : list (string * JValue) :=
  match v with
  | JObj fields => fields
  | JArr xs => indexed 0 xs
  | JStr s => characters 0 s
  | _ => []
  end.

(** [{ ...target, ...source }] *)
Definition spread (target : list (string * JValue)) (source : JValue)
  : list (string * JValue) :=
  List.fold_left (fun fields field => Json.set_field (fst field) (snd field) fields)
                 (own_properties source) target.

(** [s.split(',').map(k => k.trim()).filter(Boolean)] *)
Definition pool (s : string) : list string :=
  List.filter (fun k => JS.truthy (JStr k))
              (List.map JS.trim (JS.split ","%char s)).

(** The [if (fs.existsSync(configPath)) { try { ... } catch { ... } }]
    block. *)
Definition from_file (host : Host) (file : File) : list (string * JValue) :=
  match file with
  | None => DEFAULT_CONFIG
  | Some read =>
      match (let* text := read in JSON_parse host text) with
      | Throw _ => DEFAULT_CONFIG
      | Ok fileConfig =>
          let config := spread DEFAULT_CONFIG fileConfig in
          if JS.truthy (JS.lookup "apiKey" config)
             && negb (JS.truthy (JS.opt (JS.lookup "apiKeys" config) "length"))
          then Json.set_field "apiKeys" (JArr [JS.lookup "apiKey" config]) config
          else config
      end
  end.

(** [if (process.env.X) this.config.k = f(process.env.X)] *)
Definition override (variable : option string) (k : string)
           (f : string -> JValue) (config : list (string * JValue))
  : list (string * JValue) :=
  match variable with
  | Some s => if JS.truthy (JStr s) then Json.set_field k (f s) config else config
  | None => config
  end.

Definition loadConfig (host : Host) (file : File) (env : Env)
  : list (string * JValue) :=
  let config := from_file host file in
  let config := override (PORT env) "port" JS.parseInt config in
  let config := override (HOST env) "host" JStr config in
  let config := override (OLLAMA_BASE_URL env) "ollamaBaseUrl" JStr config in
  let config :=
    override (OLLAMA_API_KEY env) "apiKeys"
             (fun s => JArr (List.map JStr (pool s))) config in
  let config :=
    override (ANTHROPIC_API_KEY env) "apiKeys"
             (fun s => JArr (List.map JStr (pool s))) config in
  let config := override (DEFAULT_MODEL env) "defaultModel" JStr config in
  match DEBUG env with
  | Some s => if s =? "true" then Json.set_field "debug" (JBool true) config
              else config
  | None => config
  end.

(** [get(key)] *)
Definition get (config : list (string * JValue)) (key : string) : JValue :=
  JS.lookup key config.

(** [getApiKeys()] on the loaded object: [this.config.apiKeys || []]. *)
Definition getApiKeys (config : list (string * JValue)) : JValue :=
  JS.or (get config "apiKeys") (JArr []).

End Loader.

(* ================================================================== *)
(** ** src/ollama/client.js: the model listing, and its endpoint in
    src/server.js *)

Section Listing.

Variable host : Host.
Variable upstream : Upstream.

(** [new Date(x).getTime() / 1000] *)
Variable seconds_of : JValue -> JValue.

(** The callback of [data.models.map(...)]: the entry, and the number of
    clock readings after it. *)
Definition model_entry (readings : nat) (model : JValue)
  : Result (JValue * nat) :=
  let* name := JS.get model "name" in
  let modified_at := JS.prop model "modified_at" in
  let created :=
    if JS.truthy modified_at then seconds_of modified_at
    else JNum (JSOps.seconds (Date_now host readings)) in
  Ok (JObj [("id", name);
            ("object", JStr "model");
            ("created", created);
            ("owned_by", JStr "ollama");
            ("permission", JArr []);
            ("root", name);
            ("parent_model", JNull);
            ("freeze", JBool false);
            ("digest", JS.or (JS.prop model "digest") JNull);
            ("size", JS.or (JS.prop model "size") JNull)],
      if JS.truthy modified_at then readings else S readings).

Fixpoint model_entries (readings : nat) (models : list JValue)
  : Result (list JValue) :=
  match models with
  | [] => Ok []
  | model :: rest =>
      let* made := model_entry readings model in
      let* entries := model_entries (snd made) rest in
      Ok (fst made :: entries)
  end.

Definition listModels (w : World) : Result JValue * World :=
  match fetchWithKeyRotation upstream w with
  | (Throw error, w) => (Throw error, w)
  | (Ok response, w) =>
      if negb (ok response) then
        (Throw (mkError ("Failed to list models: "
                         ++ JS.Z_to_string (status response) ++ " - "
                         ++ text response)), w)
      else
        (let* data := JSON_parse host (text response) in
         let* models := JS.get data "models" in
         let* map := JS.get models "map" in
         match models with
         | JArr ms =>
             let* entries := model_entries 0 ms in
             Ok (JObj [("object", JStr "list"); ("data", JArr entries)])
         | _ => Throw (mkError "data.models.map is not a function")
         end, w)
  end.

(** [try { ... return models.data.some(m => m.id === modelId) }
     catch { return false }] *)
Definition isValidModel (modelId : string) (w : World) : bool * World :=
  match listModels w with
  | (Ok models, w) =>
      (match JS.prop models "data" with
       | JArr entries =>
           List.existsb (fun m => JSOps.equals (JS.prop m "id") modelId) entries
       | _ => false
       end, w)
  | (Throw error, w) => (false, w)
  end.

(** What an endpoint answers: the status and the JSON body. *)
Record Reply : Type := mkReply {
  code : Z;
  payload : JValue
}.

(** [app.get('/v1/models', ...)], over the loaded configuration. *)
Definition models_endpoint (settings : list (string * JValue)) (w : World)
  : Reply * World :=
  let apiKey := Loader.get settings "apiKey" in
  if negb (JS.truthy apiKey) then
    (mkReply 401
       (JObj [("error",
                JObj [("message",
                        JStr "API key required. Set OLLAMA_API_KEY environment variable.");
                      ("type", JStr "authentication_error");
                      ("code", JStr "missing_api_key")])]), w)
  else
    match listModels w with
    | (Ok models, w) => (mkReply 200 models, w)
    | (Throw error, w) =>
        let parsed := parseError error in
        (mkReply (statusCode parsed)
           (JObj [("error",
                    JObj [("type", JStr (errorType parsed));
                          ("message", JStr (errorMessage parsed))])]), w)
    end.

End Listing.


(* ================================================================== *)
(** * Properties *)

(* ------------------------------------------------------------------ *)
(** ** The key pool *)

Section KeyPool.

Variable keys : list string.
Hypothesis non_empty : keys <> [].

Let k := List.length keys.

Lemma pool_size_positive : k <> 0.
Proof.
  unfold k. destruct keys; [contradiction | discriminate].
Qed.

(** One rotation moves a valid cursor to its successor modulo the pool
    size, also over a pool of one key, where the source leaves the cursor
    alone. *)
Lemma rotate_valid_cursor (c : Config.t) :
  Config.apiKeys c = keys ->
  Config.currentKeyIndex c < k ->
  Config.apiKeys (fst (Config.rotateApiKey c)) = keys
  /\ Config.currentKeyIndex (fst (Config.rotateApiKey c))
     = (Config.currentKeyIndex c + 1) mod k.
Proof.
  intros Hkeys Hlt. unfold Config.rotateApiKey; cbn [fst].
  rewrite Hkeys. fold k.
  destruct (Nat.ltb_spec 1 k) as [Hk | Hk]; cbn.
  - split; reflexivity.
  - split; [assumption |].
    assert (k = 1) by (pose proof pool_size_positive; lia).
    replace (Config.currentKeyIndex c) with 0 by lia.
    rewrite H. reflexivity.
Qed.

Lemma run_from_valid_cursor (ops : list Config.op) :
  forall c : Config.t,
    Config.apiKeys c = keys ->
    Config.currentKeyIndex c < k ->
    Config.apiKeys (Config.run c ops) = keys
    /\ Config.currentKeyIndex (Config.run c ops)
       = (Config.currentKeyIndex c + Config.rotations ops) mod k.
Proof.
  induction ops as [| o ops IH]; intros c Hkeys Hlt.
  - cbn. split; [assumption |].
    rewrite Nat.add_0_r, Nat.mod_small; [reflexivity | assumption].
  - change (Config.run c (o :: ops)) with (Config.run (Config.step c o) ops).
    destruct o; cbn [Config.step];
      try (destruct (IH c Hkeys Hlt) as [IHk IHc]; split;
           [exact IHk | rewrite IHc; reflexivity]).
    destruct (rotate_valid_cursor c Hkeys Hlt) as [Rk Rc].
    assert (Hlt' : Config.currentKeyIndex (fst (Config.rotateApiKey c)) < k).
    { rewrite Rc. apply Nat.mod_upper_bound, pool_size_positive. }
    destruct (IH _ Rk Hlt') as [IHk IHc]. split; [exact IHk |].
    rewrite IHc, Rc.
    change (Config.rotations (Config.RotateApiKey :: ops))
      with (S (Config.rotations ops)).
    rewrite Nat.Div0.add_mod_idemp_l. f_equal. lia.
Qed.

End KeyPool.

(** C5.  Over a non-empty pool of [k] keys, whatever sequence of
    operations is applied to the configuration as constructed (cursor 0),
    the pool is unchanged, the cursor is a valid index, and after [n]
    rotations both the cursor and the index [getApiKey] reads from are
    [n mod k]. *)
Theorem rotation_is_a_modulo_cycle (keys : list string) (ops : list Config.op) :
  keys <> [] ->
  let c := Config.run (Config.create keys) ops in
  let n := Config.rotations ops in
  let k := List.length keys in
  Config.apiKeys c = keys
  /\ Config.currentKeyIndex c < k
  /\ Config.currentKeyIndex c = n mod k
  /\ Config.getApiKey c = List.nth_error keys (n mod k).
Proof.
  intros Hne c n k.
  assert (Hk : k <> 0) by (apply pool_size_positive; assumption).
  destruct (@run_from_valid_cursor keys Hne ops (Config.create keys))
    as [Hkeys Hcur].
  - reflexivity.
  - cbn. fold k. lia.
  - cbn in Hcur. fold c n k in Hkeys, Hcur.
    assert (Hlt : Config.currentKeyIndex c < k).
    { rewrite Hcur. apply Nat.mod_upper_bound, Hk. }
    repeat split; try assumption.
    unfold Config.getApiKey. rewrite Hkeys. fold k.
    destruct k as [| k']; [contradiction |].
    rewrite Hcur. rewrite Nat.Div0.mod_mod. reflexivity.
Qed.

Lemma rotation_is_a_modulo_cycle_witness :
  let keys := ["k1"; "k2"; "k3"] in
  let ops := [Config.RotateApiKey; Config.GetApiKey; Config.RotateApiKey;
              Config.RotateApiKey; Config.GetCurrentKeyIndex;
              Config.RotateApiKey] in
  Config.currentKeyIndex (Config.run (Config.create keys) ops) = 1
  /\ Config.getApiKey (Config.run (Config.create keys) ops) = Some "k2".
Proof.
  pose proof (@rotation_is_a_modulo_cycle ["k1"; "k2"; "k3"]
                [Config.RotateApiKey; Config.GetApiKey; Config.RotateApiKey;
                 Config.RotateApiKey; Config.GetCurrentKeyIndex;
                 Config.RotateApiKey]
                ltac:(discriminate)) as H.
  cbv zeta in H. destruct H as (_ & _ & Hc & Hk).
  split; [exact Hc | exact Hk].
Defined.

(* ------------------------------------------------------------------ *)
(** ** Schema-A request translation *)

Lemma append_empty_r (s : string) : s ++ "" = s.
Proof.
  induction s as [| c s IH]; cbn; [reflexivity | now rewrite IH].
Qed.

Lemma append_associative (a b c : string) : (a ++ b) ++ c = a ++ (b ++ c).
Proof.
  induction a as [| x a IH]; cbn; [reflexivity | now rewrite IH].
Qed.

Lemma get_of_object (v : JValue) (k : string) :
  JS.nullish v = false -> JS.get v k = Ok (JS.prop v k).
Proof.
  intros H. unfold JS.get. now rewrite H.
Qed.

Section RequestTranslation.

Variable host : Host.

Lemma flatten_text_blocks (blocks : list JValue) (texts : list string) :
  Forall2 text_block blocks texts ->
  forall content,
    flatten_blocks host content blocks = Ok (content ++ concatenation texts).
Proof.
  induction 1 as [| block text blocks texts [Htype Htext] _ IH]; intros content.
  - cbn. now rewrite append_empty_r.
  - cbn [flatten_blocks]. rewrite Htype. cbn [bind JSOps.equals].
    rewrite String.eqb_refl, Htext. cbn [JS.toString].
    rewrite IH. cbn [concatenation List.fold_right].
    now rewrite append_associative.
Qed.

Lemma flatten_unrendered_blocks (blocks : list JValue) :
  Forall (fun block => text_block block "" \/ unrecognized_block block) blocks ->
  forall content, flatten_blocks host content blocks = Ok content.
Proof.
  induction 1 as [| block blocks Hblock _ IH]; intros content.
  - reflexivity.
  - cbn [flatten_blocks].
    destruct Hblock as [[Htype Htext] | (type & Htype & H1 & H2 & H3)].
    + rewrite Htype. cbn [bind JSOps.equals]. rewrite String.eqb_refl, Htext.
      cbn [JS.toString]. rewrite append_empty_r. apply IH.
    + rewrite Htype. cbn [bind]. rewrite H1, H2, H3. apply IH.
Qed.

Lemma convert_text_message (msg : JValue) (texts : list string) :
  text_message msg texts ->
  convert_message host msg
  = Ok (if concatenation texts =? "" then []
        else [target_message msg (concatenation texts)]).
Proof.
  intros [Hmsg (blocks & Hcontent & Hblocks)].
  unfold convert_message. rewrite (get_of_object _ "role" Hmsg). cbn [bind].
  rewrite Hcontent. cbn [JS.typeof]. cbn [String.eqb Ascii.eqb Bool.eqb].
  rewrite (flatten_text_blocks _ _ Hblocks). cbn [bind append JS.truthy].
  destruct (concatenation texts =? ""); reflexivity.
Qed.

Lemma convert_messages_app (before after : list JValue) :
  forall ollamaMessages,
    convert_messages host ollamaMessages (before ++ after)%list
    = (let* pushed := convert_messages host ollamaMessages before in
       convert_messages host pushed after).
Proof.
  induction before as [| msg before IH]; intros acc.
  - reflexivity.
  - cbn [convert_messages List.app].
    destruct (convert_message host msg) as [pushed | e]; cbn [bind];
      [apply IH | reflexivity].
Qed.

Lemma convert_text_messages (msgs : list JValue) (textss : list (list string)) :
  Forall2 text_message msgs textss ->
  forall ollamaMessages,
    convert_messages host ollamaMessages msgs
    = Ok (ollamaMessages
          ++ List.flat_map
               (fun mt => if concatenation (snd mt) =? "" then []
                          else [target_message (fst mt) (concatenation (snd mt))])
               (List.combine msgs textss))%list.
Proof.
  induction 1 as [| msg texts msgs textss Hmsg _ IH]; intros acc.
  - cbn. now rewrite List.app_nil_r.
  - cbn [convert_messages]. rewrite (convert_text_message _ _ Hmsg). cbn [bind].
    rewrite IH. cbn [List.combine List.flat_map fst snd].
    now rewrite List.app_assoc.
Qed.

End RequestTranslation.

(** C7.  When every message of a schema-A request has an array of text
    blocks as content, the translation succeeds and its message list is
    the system message, if any, followed by one target message per source
    message in order, whose content is the block texts one after the other
    with nothing in between (a message whose texts add up to the empty
    string contributes no target message). *)
Theorem text_blocks_concatenate_in_order
        (host : Host) (request : AnthropicRequest.t)
        (textss : list (list string)) :
  Forall2 text_message (AnthropicRequest.messages request) textss ->
  exists ollamaRequest,
    convertAnthropicToOllama host request = Ok ollamaRequest
    /\ JS.prop ollamaRequest "messages"
       = JArr (system_message (AnthropicRequest.system request)
               ++ List.flat_map
                    (fun mt =>
                       if concatenation (snd mt) =? "" then []
                       else [target_message (fst mt) (concatenation (snd mt))])
                    (List.combine (AnthropicRequest.messages request) textss))%list.
Proof.
  intros Hmsgs. unfold convertAnthropicToOllama.
  rewrite (convert_text_messages host _ _ Hmsgs). cbn [bind].
  eexists. split; reflexivity.
Qed.

Lemma text_blocks_concatenate_in_order_witness :
  let hello := JObj [("type", JStr "text"); ("text", JStr "Hello, ")] in
  let world := JObj [("type", JStr "text"); ("text", JStr "world")] in
  let msg := JObj [("role", JStr "user"); ("content", JArr [hello; world])] in
  let request :=
    AnthropicRequest.mk (JStr "glm-5") [msg] (JNum 4096) JUndefined
                        JUndefined JUndefined JUndefined in
  exists ollamaRequest,
    convertAnthropicToOllama node request = Ok ollamaRequest
    /\ JS.prop ollamaRequest "messages"
       = JArr [JObj [("role", JStr "user"); ("content", JStr "Hello, world")]].
Proof.
  cbv zeta.
  refine (text_blocks_concatenate_in_order node _ [["Hello, "; "world"]] _).
  repeat first [ apply Forall2_cons | apply Forall2_nil ].
  split; [reflexivity |].
  eexists. split; [reflexivity |].
  repeat first [ apply Forall2_cons | apply Forall2_nil ]; split; reflexivity.
Defined.

(** C10.  In the schema-A request translation, a message (an object) whose
    content is an array that flattens to the empty string, or is neither a
    string nor an array, leaves the translation what it is without that
    message; arrays of nothing but empty text blocks and unrecognized
    blocks flatten to the empty string; and a message whose content is a
    string, empty or not, always becomes a target message at its place in
    the list. *)
Theorem empty_messages_are_omitted_strings_kept
        (host : Host) (request : AnthropicRequest.t)
        (before after : list JValue) (msg : JValue) :
  JS.nullish msg = false ->
  let translate msgs := convertAnthropicToOllama host (with_messages request msgs) in
  let content := JS.prop msg "content" in
  ((exists blocks, content = JArr blocks /\ flatten_blocks host "" blocks = Ok "")
   \/ (JS.typeof content <> "string" /\ JS.isArray content = false) ->
   translate (before ++ msg :: after)%list = translate (before ++ after)%list)
  /\ (forall blocks,
        Forall (fun block => text_block block "" \/ unrecognized_block block)
               blocks ->
        flatten_blocks host "" blocks = Ok "")
  /\ (forall s ollamaMessages,
        content = JStr s ->
        convert_messages host ollamaMessages (before ++ msg :: after)%list
        = (let* pushed := convert_messages host ollamaMessages before in
           convert_messages host
             (pushed ++ [ollama_message (JStr (ollama_role (JS.prop msg "role")))
                                        (JStr s)])%list
             after)).
Proof.
  intros Hmsg translate content.
  assert (Hrole : JS.get msg "role" = Ok (JS.prop msg "role"))
    by (apply get_of_object; exact Hmsg).
  split; [| split].
  - intros Hempty.
    assert (Hnone : convert_message host msg = Ok []).
    { unfold convert_message. rewrite Hrole. cbn [bind]. fold content.
      destruct Hempty as [(blocks & -> & Hflat) | [Hstring Harray]].
      - cbn [JS.typeof]. cbn [String.eqb Ascii.eqb Bool.eqb].
        rewrite Hflat. reflexivity.
      - destruct (String.eqb_spec (JS.typeof content) "string") as [E | _];
          [contradiction |].
        destruct content; try reflexivity. discriminate Harray. }
    unfold translate, convertAnthropicToOllama, with_messages.
    cbn [AnthropicRequest.messages AnthropicRequest.system
         AnthropicRequest.model AnthropicRequest.temperature
         AnthropicRequest.top_p AnthropicRequest.max_tokens].
    rewrite !convert_messages_app. cbn [convert_messages].
    rewrite Hnone. cbn [bind].
    destruct (convert_messages host _ before) as [pushed | e]; cbn [bind];
      [| reflexivity].
    now rewrite List.app_nil_r.
  - intros blocks Hblocks. exact (flatten_unrendered_blocks host blocks Hblocks "").
  - intros s acc Hcontent.
    rewrite convert_messages_app. cbn [convert_messages].
    unfold convert_message. rewrite Hrole. cbn [bind]. fold content.
    rewrite Hcontent. cbn [JS.typeof]. rewrite String.eqb_refl.
    reflexivity.
Qed.

Lemma empty_messages_are_omitted_strings_kept_witness :
  let request msgs :=
    AnthropicRequest.mk (JStr "glm-5") msgs (JNum 4096) JUndefined
                        JUndefined JUndefined JUndefined in
  let hi := JObj [("role", JStr "user"); ("content", JStr "hi")] in
  let image :=
    JObj [("role", JStr "user");
          ("content", JArr [JObj [("type", JStr "image")];
                            JObj [("type", JStr "text"); ("text", JStr "")]])] in
  let silent := JObj [("role", JStr "assistant"); ("content", JStr "")] in
  convertAnthropicToOllama node (request [hi; image; silent])
  = convertAnthropicToOllama node (request [hi; silent])
  /\ convert_messages node [] [hi; silent]
     = Ok [JObj [("role", JStr "user"); ("content", JStr "hi")];
           JObj [("role", JStr "assistant"); ("content", JStr "")]].
Proof.
  cbv zeta. split.
  - refine (proj1 (empty_messages_are_omitted_strings_kept node
                     (AnthropicRequest.mk (JStr "glm-5") [] (JNum 4096) JUndefined
                                          JUndefined JUndefined JUndefined)
                     [JObj [("role", JStr "user"); ("content", JStr "hi")]]
                     [JObj [("role", JStr "assistant"); ("content", JStr "")]]
                     _ _) _).
    + reflexivity.
    + left. eexists. split; reflexivity.
  - refine (proj2 (proj2 (empty_messages_are_omitted_strings_kept node
                     (AnthropicRequest.mk (JStr "glm-5") [] (JNum 4096) JUndefined
                                          JUndefined JUndefined JUndefined)
                     [JObj [("role", JStr "user"); ("content", JStr "hi")]] []
                     (JObj [("role", JStr "assistant"); ("content", JStr "")])
                     _)) "" [] _); reflexivity.
Defined.

(* ------------------------------------------------------------------ *)
(** ** Reasoning-model responses *)

Section Thinking.

Variables (now : Z) (rnd : string) (model : JValue).

(** The composition step on strings. *)
Lemma with_thinking_of_strings (thinking content : string) :
  thinking <> "" ->
  with_thinking (JStr thinking) (JStr content)
  = JStr (thinking_then_content thinking content).
Proof.
  intros Hthinking. apply String.eqb_neq in Hthinking.
  unfold with_thinking, thinking_then_content. cbn [JS.truthy].
  rewrite Hthinking. cbn [negb].
  destruct (content =? ""); cbn [negb]; [| reflexivity].
  unfold JSOps.add. cbn [JSOps.prim JS.toString].
  now rewrite append_empty_r.
Qed.

(** The schema-B converters follow the composition rule whenever the
    reasoning is not empty. *)
Lemma openai_renders_thinking (thinking content : string) (done : bool) :
  thinking <> "" ->
  text_of (convertOllamaToOpenAI now rnd
             (thinking_response thinking content done) model) openai_text
  = JStr (thinking_then_content thinking content).
Proof.
  intros Hthinking.
  rewrite <- (with_thinking_of_strings thinking content Hthinking).
  reflexivity.
Qed.

Lemma openai_stream_renders_thinking (thinking content : string) :
  thinking <> "" ->
  text_of (convertOllamaStreamToOpenAI now rnd
             (thinking_response thinking content false) model) openai_delta_text
  = JStr (thinking_then_content thinking content).
Proof.
  intros Hthinking.
  assert (Htext :
            text_of (convertOllamaStreamToOpenAI now rnd
                       (thinking_response thinking content false) model)
                    openai_delta_text
            = let text :=
                with_thinking (JStr thinking)
                  (if JS.truthy (JStr content) then JStr content else JStr "") in
              if negb (JS.truthy text) then JUndefined else text).
  { unfold convertOllamaStreamToOpenAI, thinking_response, thinking_message.
    cbn [JS.get JS.nullish bind JS.prop JS.lookup String.eqb Ascii.eqb Bool.eqb
         JS.truthy negb JS.typeof].
    cbv zeta.
    destruct (negb (JS.truthy
                      (with_thinking (JStr thinking)
                         (if negb (content =? "") then JStr content else JStr ""))));
      reflexivity. }
  rewrite Htext. cbv zeta.
  replace (if JS.truthy (JStr content) then JStr content else JStr "")
    with (JStr content)
    by (cbn [JS.truthy]; destruct (String.eqb_spec content ""); subst; reflexivity).
  rewrite (with_thinking_of_strings thinking content Hthinking).
  unfold thinking_then_content.
  destruct (content =? ""); cbn [JS.truthy].
  - apply String.eqb_neq in Hthinking. now rewrite Hthinking.
  - destruct thinking; [contradiction | reflexivity].
Qed.

End Thinking.

(* ------------------------------------------------------------------ *)
(** ** Line assembly *)

Lemma split_is_not_empty (s : string) : JS.split JS.LF s <> [].
Proof.
  destruct s as [| c s]; cbn; [discriminate |].
  destruct (Ascii.eqb c JS.LF); [discriminate |].
  destruct (JS.split JS.LF s); discriminate.
Qed.

Lemma pop_cons {A} (x : A) (xs : list A) :
  xs <> [] -> JS.pop (x :: xs) = (x :: fst (JS.pop xs), snd (JS.pop xs)).
Proof.
  destruct xs as [| y ys]; [contradiction |]. intros _.
  change (JS.pop (x :: y :: ys))
    with (let (front, last) := JS.pop (y :: ys) in (x :: front, last)).
  destruct (JS.pop (y :: ys)); reflexivity.
Qed.

(** [buffer.split('\n')] followed by [lines.pop()] is [cut]. *)
Lemma pop_split_is_cut (s : string) :
  JS.pop (JS.split JS.LF s) = (fst (cut s), Some (snd (cut s))).
Proof.
  induction s as [| c s IH]; [reflexivity |].
  cbn [JS.split cut].
  pose proof (split_is_not_empty s) as Hne.
  destruct (cut s) as [lines fragment]; cbn [fst snd] in IH.
  destruct (Ascii.eqb c JS.LF).
  - rewrite pop_cons by assumption. now rewrite IH.
  - destruct (JS.split JS.LF s) as [| first others]; [contradiction |].
    destruct others as [| second others].
    + cbn in IH. injection IH as Hlines Hfragment. subst lines fragment.
      reflexivity.
    + rewrite pop_cons by discriminate.
      rewrite pop_cons in IH by discriminate.
      destruct (JS.pop (second :: others)) as [front last].
      cbn [fst snd] in *.
      injection IH as Hlines Hfragment. subst lines last. reflexivity.
Qed.

Lemma cut_app (a b : string) :
  cut (a ++ b)
  = ((fst (cut a) ++ fst (cut (snd (cut a) ++ b)))%list,
     snd (cut (snd (cut a) ++ b))).
Proof.
  induction a as [| c a IH].
  - cbn. now destruct (cut b).
  - cbn [append cut]. rewrite IH.
    destruct (cut a) as [lines fragment]; cbn [fst snd].
    destruct (Ascii.eqb c JS.LF) eqn:Hc.
    + reflexivity.
    + destruct lines as [| first others]; cbn [fst snd List.app].
      * cbn [append cut]. rewrite Hc.
        destruct (cut (fragment ++ b)) as [lines' fragment'].
        destruct lines'; reflexivity.
      * reflexivity.
Qed.

(** What is left in the buffer holds no line feed. *)
Lemma cut_fragment (s : string) : cut (snd (cut s)) = ([], snd (cut s)).
Proof.
  induction s as [| c s IH]; [reflexivity |].
  cbn [cut]. destruct (cut s) as [lines fragment]; cbn [snd] in IH.
  destruct (Ascii.eqb c JS.LF) eqn:Hc; [exact IH |].
  destruct lines; cbn [snd]; [| exact IH].
  cbn [cut]. now rewrite IH, Hc.
Qed.

Section LineAssembly.

Variable State : Type.
Variable on_line : State -> string -> list JValue * list string * State.

Lemma each_line_app (before after : list string) :
  forall st,
    each_line State on_line st (before ++ after)%list
    = (let '(ev, lg, st1) := each_line State on_line st before in
       let '(ev', lg', st2) := each_line State on_line st1 after in
       ((ev ++ ev')%list, (lg ++ lg')%list, st2)).
Proof.
  induction before as [| line before IH]; intros st.
  - cbn. destruct (each_line State on_line st after) as [[ev lg] st2].
    reflexivity.
  - cbn [List.app each_line].
    destruct (on_line st line) as [[ev0 lg0] st0].
    rewrite IH.
    destruct (each_line State on_line st0 before) as [[ev1 lg1] st1].
    destruct (each_line State on_line st1 after) as [[ev2 lg2] st2].
    now rewrite !List.app_assoc.
Qed.

(** However the text is cut into chunks, the loop handles the complete
    lines of what has been received, in order; a fragment left after the
    last line feed is never handled. *)
Lemma read_loop_handles_complete_lines (values : list string) :
  forall buffer st,
    cut buffer = ([], buffer) ->
    read_loop State on_line buffer st values
    = each_line State on_line st (fst (cut (buffer ++ received values))).
Proof.
  induction values as [| value values IH]; intros buffer st Hbuffer.
  - cbn [read_loop received List.fold_right].
    rewrite append_empty_r, Hbuffer. reflexivity.
  - cbn [read_loop received List.fold_right].
    rewrite pop_split_is_cut.
    fold (received values).
    rewrite <- (append_associative buffer value (received values)).
    rewrite (cut_app (buffer ++ value) (received values)). cbn [fst].
    rewrite each_line_app.
    destruct (each_line State on_line st (fst (cut (buffer ++ value))))
      as [[ev lg] st1].
    rewrite (IH _ st1 (cut_fragment (buffer ++ value))).
    reflexivity.
Qed.

Lemma drain_handles_complete_lines (st : State) (body : Body) :
  drain State on_line st body
  = (let '(ev, lg, _) :=
       each_line State on_line st (fst (cut (received (chunks body)))) in
     mkDrained ev lg (failure body)).
Proof.
  unfold drain.
  now rewrite (read_loop_handles_complete_lines (chunks body) "" st eq_refl).
Qed.

End LineAssembly.

(* ------------------------------------------------------------------ *)
(** ** The stream readers *)

Lemma string_content_has_a_truthy_holder (message : JValue) (c : string) :
  JS.prop message "content" = JStr c -> JS.truthy message = true.
Proof.
  destruct message as [| | b | n | | inf | s | xs | fs]; try discriminate;
    try reflexivity.
  destruct s; [discriminate | reflexivity].
Qed.

Section StreamLines.

Variable host : Host.
Variable model : JValue.

(** A line that parses to an object goes through both tests of the
    Anthropic reader. *)
Lemma anthropic_line_of_object (st : Reader) (line : string) (data : JValue) :
  skipped line = false ->
  JSON_parse host line = Ok data ->
  JS.nullish data = false ->
  anthropic_line host model st line
  = (let delta := JS.opt (JS.prop data "message") "content" in
     let content1 :=
       if JS.truthy delta then content st ++ JS.toString delta else content st in
     let yielded1 :=
       if JS.truthy delta then [content_block_delta delta] else [] in
     if JS.truthy (JS.prop data "done") then
       ((yielded1
         ++ [message_stop (Date_now host (readings st)) content1 model data])%list,
        [], mkReader content1 (S (readings st)))
     else (yielded1, [], mkReader content1 (readings st))).
Proof.
  intros Hskip Hparse Hdata. unfold anthropic_line.
  rewrite Hskip, Hparse, (get_of_object _ "message" Hdata). reflexivity.
Qed.

(** A line the parser rejects yields nothing and leaves the state of
    either reader as it was. *)
Lemma anthropic_line_rejected (st : Reader) (line : string) (e : Error) :
  JSON_parse host line = Throw e ->
  yielded (anthropic_line host model st line) = []
  /\ snd (anthropic_line host model st line) = st.
Proof.
  intros Hparse. unfold anthropic_line.
  destruct (skipped line); [split; reflexivity |].
  rewrite Hparse. split; reflexivity.
Qed.

Lemma openai_line_rejected (st : nat) (line : string) (e : Error) :
  JSON_parse host line = Throw e ->
  yielded (openai_line host model st line) = []
  /\ snd (openai_line host model st line) = st.
Proof.
  intros Hparse. unfold openai_line.
  destruct (skipped line); [split; reflexivity |].
  rewrite Hparse. split; reflexivity.
Qed.

(** A line that is handed to the parser and rejected is logged, once, and
    nothing else happens. *)
Lemma anthropic_line_logs (st : Reader) (line : string) (e : Error) :
  skipped line = false ->
  JSON_parse host line = Throw e ->
  anthropic_line host model st line
  = ([], ["[OllamaClient] Failed to parse SSE line: " ++ line], st).
Proof.
  intros Hskip Hparse. unfold anthropic_line. now rewrite Hskip, Hparse.
Qed.

Lemma openai_line_logs (st : nat) (line : string) (e : Error) :
  skipped line = false ->
  JSON_parse host line = Throw e ->
  openai_line host model st line
  = ([], ["[OpenAIClient] Failed to parse stream line: " ++ line], st).
Proof.
  intros Hskip Hparse. unfold openai_line. now rewrite Hskip, Hparse.
Qed.

Lemma holder_is_not_nullish (v : JValue) (k : string) (text : string) :
  JS.prop v k = JStr text -> JS.nullish v = false.
Proof.
  destruct v; try discriminate; reflexivity.
Qed.

(** A line that carries a non-empty text and no [done] yields the delta
    of that text, in either reader. *)
Lemma anthropic_line_of_text (st : Reader) (line : string) (data : JValue)
      (text : string) :
  skipped line = false ->
  JSON_parse host line = Ok data ->
  JS.prop (JS.prop data "message") "content" = JStr text ->
  text <> "" ->
  JS.truthy (JS.prop data "done") = false ->
  anthropic_line host model st line
  = ([content_block_delta (JStr text)], [],
     mkReader (content st ++ text) (readings st)).
Proof.
  intros Hskip Hparse Htext Hsome Hdone.
  assert (Hmessage : JS.nullish (JS.prop data "message") = false)
    by exact (holder_is_not_nullish _ _ _ Htext).
  assert (Hdata : JS.nullish data = false).
  { destruct data; try reflexivity; discriminate. }
  rewrite (anthropic_line_of_object st line data Hskip Hparse Hdata).
  unfold JS.opt. rewrite Hmessage, Htext, Hdone. cbn [JS.truthy JS.toString].
  apply String.eqb_neq in Hsome. rewrite Hsome. reflexivity.
Qed.

Lemma openai_line_of_text (st : nat) (line : string) (data : JValue)
      (text : string) :
  skipped line = false ->
  JSON_parse host line = Ok data ->
  JS.prop (JS.prop data "message") "content" = JStr text ->
  text <> "" ->
  JS.truthy (JS.prop data "done") = false ->
  JS.truthy (JS.prop (JS.prop data "message") "thinking") = false ->
  exists chunk,
    openai_line host model st line = ([chunk], [], S st)
    /\ openai_delta_text chunk = JStr text
    /\ is_stop_chunk chunk = false.
Proof.
  intros Hskip Hparse Htext Hsome Hdone Hthinking.
  assert (Hmessage : JS.truthy (JS.prop data "message") = true)
    by exact (string_content_has_a_truthy_holder _ _ Htext).
  assert (Hdata : JS.nullish data = false).
  { destruct data; try reflexivity; discriminate. }
  assert (Htruthy : JS.truthy (JStr text) = true).
  { cbn [JS.truthy]. apply String.eqb_neq in Hsome. now rewrite Hsome. }
  unfold openai_line. rewrite Hskip, Hparse.
  unfold convertOllamaStreamToOpenAI.
  rewrite (get_of_object _ "done" Hdata). cbn [bind].
  rewrite Hdone, Hmessage. cbn [negb].
  rewrite Htext, Htruthy. cbn [JS.typeof].
  replace ("string" =? "string") with true by reflexivity.
  unfold with_thinking. rewrite Hthinking, Htruthy. cbn [negb].
  eexists. split; [reflexivity |]. split; reflexivity.
Qed.

End StreamLines.

(** C8.  Whatever the chunks in which they arrive, the two lines
    [{"message":{"content":"Hi"},"done":false}] and
    [{"done":true,"eval_count":3}], each ended by a line feed, make
    [sendMessageStream] yield exactly two events: a content delta carrying
    "Hi", then the terminal event, whose usage reports 3 output tokens; the
    stream then ends without an error. *)
Theorem hi_then_done_yields_two_events
        (host : Host) (model : JValue) (values : list string) :
  JSON_parse host line_hi = Ok data_hi ->
  JSON_parse host line_done = Ok data_done ->
  received values = line_hi ++ newline ++ line_done ++ newline ->
  let run := sendMessageStream host model (mkBody values None) in
  events run
  = [content_block_delta (JStr "Hi");
     message_stop (Date_now host 0) "Hi" model data_done]
  /\ List.map event_type (events run)
     = [JStr "content_block_delta"; JStr "message_stop"]
  /\ List.map anthropic_delta_text (events run) = [JStr "Hi"; JUndefined]
  /\ List.map output_tokens (events run) = [JUndefined; JNum 3]
  /\ ended run = None.
Proof.
  intros Hhi Hdone Hreceived run.
  assert (Hrun : events run
                 = [content_block_delta (JStr "Hi");
                    message_stop (Date_now host 0) "Hi" model data_done]
                 /\ ended run = None).
  { unfold run, sendMessageStream.
    rewrite drain_handles_complete_lines. cbn [chunks failure].
    rewrite Hreceived.
    replace (fst (cut (line_hi ++ newline ++ line_done ++ newline)))
      with [line_hi; line_done] by (vm_compute; reflexivity).
    cbn [each_line].
    rewrite (anthropic_line_of_object host model _ line_hi data_hi
               ltac:(vm_compute; reflexivity) Hhi eq_refl).
    cbn -[line_done].
    rewrite (anthropic_line_of_object host model _ line_done data_done
               ltac:(vm_compute; reflexivity) Hdone eq_refl).
    cbn. split; reflexivity. }
  destruct Hrun as [Hevents Hended].
  rewrite Hevents. repeat split; try reflexivity. exact Hended.
Qed.

Lemma hi_then_done_yields_two_events_witness :
  let run :=
    sendMessageStream node (JStr "glm-5")
      (mkBody ["{"; dq ++ "message" ++ dq ++ ":{" ++ dq ++ "content" ++ dq ++ ":"
                       ++ dq ++ "Hi" ++ dq ++ "}," ++ dq ++ "done" ++ dq
                       ++ ":false}" ++ newline ++ "{" ++ dq ++ "done" ++ dq;
               ":true," ++ dq ++ "eval_count" ++ dq ++ ":3}" ++ newline]
              None) in
  List.map event_type (events run)
  = [JStr "content_block_delta"; JStr "message_stop"]
  /\ List.map anthropic_delta_text (events run) = [JStr "Hi"; JUndefined]
  /\ List.map output_tokens (events run) = [JUndefined; JNum 3].
Proof.
  cbv zeta.
  pose proof (hi_then_done_yields_two_events node (JStr "glm-5")
                ["{"; dq ++ "message" ++ dq ++ ":{" ++ dq ++ "content" ++ dq ++ ":"
                       ++ dq ++ "Hi" ++ dq ++ "}," ++ dq ++ "done" ++ dq
                       ++ ":false}" ++ newline ++ "{" ++ dq ++ "done" ++ dq;
                 ":true," ++ dq ++ "eval_count" ++ dq ++ ":3}" ++ newline]
                ltac:(vm_compute; reflexivity) ltac:(vm_compute; reflexivity)
                ltac:(vm_compute; reflexivity)) as H.
  cbv zeta in H. destruct H as (_ & Htypes & Htexts & Htokens & _).
  split; [exact Htypes | split; [exact Htexts | exact Htokens]].
Defined.

Lemma cut_line_then_rest (line rest : string) :
  cut line = ([], line) ->
  cut (line ++ newline ++ rest) = (line :: fst (cut rest), snd (cut rest)).
Proof.
  induction line as [| c line IH]; intros Hline.
  - cbn. now destruct (cut rest).
  - cbn [cut] in Hline. cbn [append cut].
    destruct (cut line) as [lines fragment].
    destruct (Ascii.eqb c JS.LF); [discriminate |].
    destruct lines; [| discriminate].
    injection Hline as ->. rewrite (IH eq_refl). reflexivity.
Qed.

Section Skipping.

Variable State : Type.
Variable on_line : State -> string -> list JValue * list string * State.
Variable bad : string.

Hypothesis nothing_happens :
  forall st, yielded (on_line st bad) = [] /\ snd (on_line st bad) = st.

Lemma each_line_skips (before after : list string) :
  forall st,
    yielded (each_line State on_line st (before ++ bad :: after)%list)
    = yielded (each_line State on_line st (before ++ after)%list)
    /\ snd (each_line State on_line st (before ++ bad :: after)%list)
       = snd (each_line State on_line st (before ++ after)%list).
Proof.
  intros st. rewrite !each_line_app.
  destruct (each_line State on_line st before) as [[ev lg] st1].
  cbn [each_line].
  destruct (nothing_happens st1) as [Hnone Hsame].
  destruct (on_line st1 bad) as [[ev0 lg0] st0].
  cbn in Hnone, Hsame. subst ev0 st0.
  destruct (each_line State on_line st1 after) as [[ev2 lg2] st2].
  split; reflexivity.
Qed.

Lemma drain_skips (st : State) (before after : string)
      (values values' : list string) (rejection : option Error) :
  cut bad = ([], bad) ->
  snd (cut before) = "" ->
  received values = before ++ bad ++ newline ++ after ->
  received values' = before ++ after ->
  events (drain State on_line st (mkBody values rejection))
  = events (drain State on_line st (mkBody values' rejection))
  /\ ended (drain State on_line st (mkBody values rejection)) = rejection.
Proof.
  intros Hbad Hbefore Hvalues Hvalues'.
  rewrite !drain_handles_complete_lines. cbn [chunks failure].
  rewrite Hvalues, Hvalues'.
  rewrite (cut_app before (bad ++ newline ++ after)), (cut_app before after).
  rewrite Hbefore. cbn [fst append].
  rewrite (cut_line_then_rest bad after Hbad). cbn [fst].
  destruct (each_line_skips (fst (cut before)) (fst (cut after)) st)
    as [Hevents _].
  unfold yielded in Hevents.
  destruct (each_line State on_line st (fst (cut before) ++ bad :: fst (cut after)))
    as [[ev lg] st1].
  destruct (each_line State on_line st (fst (cut before) ++ fst (cut after)))
    as [[ev' lg'] st1'].
  cbn in Hevents. subst ev'. split; reflexivity.
Qed.

End Skipping.

Section Logging.

Variable State : Type.
Variable on_line : State -> string -> list JValue * list string * State.
Variable bad : string.
Variable note : string.

Hypothesis logged : forall st, on_line st bad = ([], [note], st).

(** A line that is only logged adds its one note to the log, at its
    place, and nothing to the events or to the state. *)
Lemma each_line_logs_once (before after : list string) (st : State) :
  exists ev l1 l2 st',
    each_line State on_line st (before ++ after)%list = (ev, (l1 ++ l2)%list, st')
    /\ each_line State on_line st (before ++ bad :: after)%list
       = (ev, (l1 ++ note :: l2)%list, st').
Proof.
  rewrite !each_line_app.
  destruct (each_line State on_line st before) as [[ev1 lg1] st1].
  cbn [each_line]. rewrite logged.
  destruct (each_line State on_line st1 after) as [[ev2 lg2] st2].
  exists (ev1 ++ ev2)%list, lg1, lg2, st2. split; reflexivity.
Qed.

Lemma drain_logs_once (st : State) (before after : string)
      (values values' : list string) (rejection : option Error) :
  cut bad = ([], bad) ->
  snd (cut before) = "" ->
  received values = before ++ bad ++ newline ++ after ->
  received values' = before ++ after ->
  exists ev l1 l2,
    drain State on_line st (mkBody values' rejection)
    = mkDrained ev (l1 ++ l2)%list rejection
    /\ drain State on_line st (mkBody values rejection)
       = mkDrained ev (l1 ++ note :: l2)%list rejection.
Proof.
  intros Hbad Hbefore Hvalues Hvalues'.
  rewrite !drain_handles_complete_lines. cbn [chunks failure].
  rewrite Hvalues, Hvalues'.
  rewrite (cut_app before (bad ++ newline ++ after)), (cut_app before after).
  rewrite Hbefore. cbn [fst append].
  rewrite (cut_line_then_rest bad after Hbad). cbn [fst].
  destruct (each_line_logs_once (fst (cut before)) (fst (cut after)) st)
    as (ev & l1 & l2 & st' & -> & ->).
  exists ev, l1, l2. split; reflexivity.
Qed.

End Logging.

(** The two lines [bad] and [good], each ended by a line feed. *)
Lemma cut_two_lines (bad good : string) :
  cut bad = ([], bad) ->
  cut good = ([], good) ->
  fst (cut (bad ++ newline ++ good ++ newline)) = [bad; good].
Proof.
  intros Hbad Hgood.
  rewrite (cut_line_then_rest bad (good ++ newline) Hbad). cbn [fst].
  replace (good ++ newline) with (good ++ newline ++ "")
    by now rewrite append_empty_r.
  now rewrite (cut_line_then_rest good "" Hgood).
Qed.

(** C9.  In both stream readers, a line that is handed to [JSON.parse]
    and fails there is skipped and logged only: the stream that holds it
    between complete lines yields exactly the events of the stream without
    it, its log is the log of the stream without it with the one debug
    line of the reader added at that place, and the stream ends as the
    connection does, without an error of its own.  The lines after it are
    still translated: a line that follows it and carries a non-empty text
    yields the content delta of that text. *)
Theorem malformed_line_is_skipped
        (host : Host) (model : JValue) (bad before after : string)
        (values values' : list string) (rejection : option Error) (e : Error) :
  skipped bad = false ->
  JSON_parse host bad = Throw e ->
  cut bad = ([], bad) ->
  snd (cut before) = "" ->
  received values = before ++ bad ++ newline ++ after ->
  received values' = before ++ after ->
  (events (sendMessageStream host model (mkBody values rejection))
   = events (sendMessageStream host model (mkBody values' rejection))
   /\ ended (sendMessageStream host model (mkBody values rejection)) = rejection
   /\ exists l1 l2,
        logs (sendMessageStream host model (mkBody values' rejection))
        = (l1 ++ l2)%list
        /\ logs (sendMessageStream host model (mkBody values rejection))
           = (l1 ++ [("[OllamaClient] Failed to parse SSE line: " ++ bad)%string]
                 ++ l2)%list)
  /\ (events (sendOpenAIMessageStream host model (mkBody values rejection))
      = events (sendOpenAIMessageStream host model (mkBody values' rejection))
      /\ ended (sendOpenAIMessageStream host model (mkBody values rejection))
         = rejection
      /\ exists l1 l2,
           logs (sendOpenAIMessageStream host model (mkBody values' rejection))
           = (l1 ++ l2)%list
           /\ logs (sendOpenAIMessageStream host model (mkBody values rejection))
              = (l1 ++ [("[OpenAIClient] Failed to parse stream line: "
                           ++ bad)%string]
                    ++ l2)%list)
  /\ (forall good data text later,
         skipped good = false ->
         cut good = ([], good) ->
         JSON_parse host good = Ok data ->
         JS.prop (JS.prop data "message") "content" = JStr text ->
         text <> "" ->
         JS.truthy (JS.prop data "done") = false ->
         JS.truthy (JS.prop (JS.prop data "message") "thinking") = false ->
         received later = bad ++ newline ++ good ++ newline ->
         events (sendMessageStream host model (mkBody later rejection))
         = [content_block_delta (JStr text)]
         /\ exists chunk,
              events (sendOpenAIMessageStream host model (mkBody later rejection))
              = [chunk]
              /\ openai_delta_text chunk = JStr text
              /\ is_stop_chunk chunk = false).
Proof.
  intros Hskip Hparse Hbad Hbefore Hvalues Hvalues'. split; [| split].
  - destruct (drain_logs_once Reader (anthropic_line host model) bad
                ("[OllamaClient] Failed to parse SSE line: " ++ bad)
                (fun st => anthropic_line_logs host model st bad e Hskip Hparse)
                (mkReader "" 0) before after values values' rejection
                Hbad Hbefore Hvalues Hvalues') as (ev & l1 & l2 & Hclean & Hnoisy).
    unfold sendMessageStream. rewrite Hclean, Hnoisy. cbn [events ended logs].
    split; [reflexivity | split; [reflexivity |]].
    exists l1, l2. split; reflexivity.
  - destruct (drain_logs_once nat (openai_line host model) bad
                ("[OpenAIClient] Failed to parse stream line: " ++ bad)
                (fun st => openai_line_logs host model st bad e Hskip Hparse)
                0 before after values values' rejection
                Hbad Hbefore Hvalues Hvalues') as (ev & l1 & l2 & Hclean & Hnoisy).
    unfold sendOpenAIMessageStream. rewrite Hclean, Hnoisy.
    cbn [events ended logs].
    split; [reflexivity | split; [reflexivity |]].
    exists l1, l2. split; reflexivity.
  - intros good data text later Hgood Hline Hdata Htext Hsome Hdone Hthinking
           Hlater.
    unfold sendMessageStream, sendOpenAIMessageStream.
    rewrite !drain_handles_complete_lines. cbn [chunks failure].
    rewrite Hlater, (cut_two_lines bad good Hbad Hline).
    cbn [each_line].
    rewrite (anthropic_line_logs host model _ bad e Hskip Hparse).
    rewrite (anthropic_line_of_text host model _ good data text
               Hgood Hdata Htext Hsome Hdone).
    rewrite (openai_line_logs host model _ bad e Hskip Hparse).
    destruct (openai_line_of_text host model 0 good data text
                Hgood Hdata Htext Hsome Hdone Hthinking)
      as (chunk & -> & Hdelta & Hstop).
    cbn [List.app events]. split; [reflexivity |].
    exists chunk. now repeat split.
Qed.

Lemma malformed_line_is_skipped_witness :
  let broken := "{" ++ dq ++ "message" ++ dq ++ ":{" in
  let noisy :=
    mkBody [line_hi ++ newline ++ broken; newline ++ line_done ++ newline] None in
  let clean := mkBody [line_hi ++ newline ++ line_done ++ newline] None in
  let later := mkBody [broken ++ newline ++ line_hi ++ newline] None in
  (List.map event_type (events (sendMessageStream node (JStr "glm-5") noisy))
   = [JStr "content_block_delta"; JStr "message_stop"]
   /\ events (sendMessageStream node (JStr "glm-5") noisy)
      = events (sendMessageStream node (JStr "glm-5") clean)
   /\ logs (sendMessageStream node (JStr "glm-5") noisy)
      = ["[OllamaClient] Failed to parse SSE line: " ++ broken]
   /\ ended (sendMessageStream node (JStr "glm-5") noisy) = None)
  /\ (List.map finish_reason
               (events (sendOpenAIMessageStream node (JStr "glm-5") noisy))
      = [JNull; JStr "stop"]
      /\ events (sendOpenAIMessageStream node (JStr "glm-5") noisy)
         = events (sendOpenAIMessageStream node (JStr "glm-5") clean)
      /\ logs (sendOpenAIMessageStream node (JStr "glm-5") noisy)
         = ["[OpenAIClient] Failed to parse stream line: " ++ broken]
      /\ ended (sendOpenAIMessageStream node (JStr "glm-5") noisy) = None)
  /\ events (sendMessageStream node (JStr "glm-5") later)
     = [content_block_delta (JStr "Hi")]
  /\ List.map openai_delta_text
              (events (sendOpenAIMessageStream node (JStr "glm-5") later))
     = [JStr "Hi"].
Proof.
  cbv zeta.
  pose proof (malformed_line_is_skipped node (JStr "glm-5")
                ("{" ++ dq ++ "message" ++ dq ++ ":{")
                (line_hi ++ newline) (line_done ++ newline)
                [line_hi ++ newline ++ "{" ++ dq ++ "message" ++ dq ++ ":{";
                 newline ++ line_done ++ newline]
                [line_hi ++ newline ++ line_done ++ newline]
                None (mkError "Unexpected token in JSON")
                ltac:(vm_compute; reflexivity)
                ltac:(vm_compute; reflexivity) ltac:(vm_compute; reflexivity)
                ltac:(vm_compute; reflexivity) ltac:(vm_compute; reflexivity)
                ltac:(vm_compute; reflexivity))
    as ((HA & EA & _) & (HB & EB & _) & Hlater).
  destruct (Hlater line_hi data_hi "Hi"
              [("{" ++ dq ++ "message" ++ dq ++ ":{") ++ newline ++ line_hi
               ++ newline]
              ltac:(vm_compute; reflexivity) ltac:(vm_compute; reflexivity)
              ltac:(vm_compute; reflexivity) eq_refl ltac:(discriminate)
              eq_refl eq_refl ltac:(vm_compute; reflexivity))
    as (LA & chunk & LB & Hdelta & _).
  split; [| split; [| split]].
  - split; [vm_compute; reflexivity |].
    split; [exact HA |]. split; [vm_compute; reflexivity | exact EA].
  - split; [vm_compute; reflexivity |].
    split; [exact HB |]. split; [vm_compute; reflexivity | exact EB].
  - exact LA.
  - rewrite LB. cbn [List.map]. now rewrite Hdelta.
Defined.

(* ------------------------------------------------------------------ *)
(** ** Events per line *)

Section EventsPerLine.

Variable host : Host.
Variable model : JValue.

Lemma anthropic_converter_returns_one_kind
      (now : Z) (rnd : string) (chunk event : JValue) :
  convertOllamaStreamToAnthropic now rnd chunk model = Ok event ->
  event = JNull
  \/ (is_delta event = true /\ is_stop event = false)
  \/ (is_delta event = false /\ is_stop event = true).
Proof.
  unfold convertOllamaStreamToAnthropic.
  destruct (JS.get chunk "message") as [message | e]; cbn [bind];
    [| discriminate].
  destruct (JSOps.defined (JS.opt message "content")).
  - intros [= <-]. right; left. split; reflexivity.
  - destruct (JS.truthy (JS.prop chunk "done")); intros [= <-].
    + right; right. split; reflexivity.
    + left; reflexivity.
Qed.

Lemma openai_converter_returns_one_kind
      (now : Z) (rnd : string) (chunk event : JValue) :
  convertOllamaStreamToOpenAI now rnd chunk model = Ok event ->
  event = JNull
  \/ (is_delta_chunk event = true /\ is_stop_chunk event = false)
  \/ (is_delta_chunk event = false /\ is_stop_chunk event = true).
Proof.
  unfold convertOllamaStreamToOpenAI.
  destruct (JS.get chunk "done") as [done | e]; cbn [bind]; [| discriminate].
  destruct (JS.truthy done).
  - intros [= <-]. right; right. split; reflexivity.
  - destruct (JS.truthy (JS.prop chunk "message")); cbn [negb];
      [| intros [= <-]; left; reflexivity].
    match goal with
    | |- context [negb (JS.truthy ?t)] =>
        set (text := t); destruct (JS.truthy text) eqn:Htext
    end; cbn [negb]; intros [= <-]; [| left; reflexivity].
    right; left. split; [exact Htext | reflexivity].
Qed.

Lemma openai_line_yields_at_most_one (st : nat) (line : string) :
  List.length (yielded (openai_line host model st line)) <= 1.
Proof.
  unfold openai_line.
  destruct (skipped line); [cbn; lia |].
  destruct (JSON_parse host line) as [data | e]; [| cbn; lia].
  destruct (convertOllamaStreamToOpenAI _ _ data model) as [chunk | e];
    [| cbn; lia].
  destruct (JS.truthy chunk); cbn; lia.
Qed.

Lemma anthropic_line_yields_at_most_one_of_each (st : Reader) (line : string) :
  let ev := yielded (anthropic_line host model st line) in
  List.length ev <= 2
  /\ List.length (List.filter is_delta ev) <= 1
  /\ List.length (List.filter is_stop ev) <= 1.
Proof.
  unfold anthropic_line.
  destruct (skipped line); [cbn; lia |].
  destruct (JSON_parse host line) as [data | e]; [| cbn; lia].
  destruct (JS.get data "message") as [message | e]; [| cbn; lia].
  destruct (JS.truthy (JS.opt message "content"));
    destruct (JS.truthy (JS.prop data "done")); cbn; lia.
Qed.

End EventsPerLine.

(** C3, as the code has it.  Each converter returns one value per parsed
    line: [null], a content delta or a terminal event, never both, so the
    schema-B reader yields at most one event per line.  The schema-A
    reader, which translates inline, yields at most one content delta and
    at most one terminal event per line, and it yields both, the delta
    first, when the line carries truthy message content and a truthy
    [done]. *)
Theorem events_of_one_line
        (host : Host) (model : JValue) (now : Z) (rnd : string)
        (st : Reader) (n : nat) (line : string) (data : JValue) :
  skipped line = false ->
  JSON_parse host line = Ok data ->
  JS.nullish data = false ->
  (forall event,
      convertOllamaStreamToAnthropic now rnd data model = Ok event ->
      event = JNull
      \/ (is_delta event = true /\ is_stop event = false)
      \/ (is_delta event = false /\ is_stop event = true))
  /\ (forall event,
        convertOllamaStreamToOpenAI now rnd data model = Ok event ->
        event = JNull
        \/ (is_delta_chunk event = true /\ is_stop_chunk event = false)
        \/ (is_delta_chunk event = false /\ is_stop_chunk event = true))
  /\ List.length (yielded (openai_line host model n line)) <= 1
  /\ (let ev := yielded (anthropic_line host model st line) in
      List.length ev <= 2
      /\ List.length (List.filter is_delta ev) <= 1
      /\ List.length (List.filter is_stop ev) <= 1)
  /\ (JS.truthy (JS.opt (JS.prop data "message") "content") = true ->
      JS.truthy (JS.prop data "done") = true ->
      List.map event_type (yielded (anthropic_line host model st line))
      = [JStr "content_block_delta"; JStr "message_stop"]).
Proof.
  intros Hskip Hparse Hdata.
  split; [| split; [| split; [| split]]].
  - intros event. apply anthropic_converter_returns_one_kind.
  - intros event. apply openai_converter_returns_one_kind.
  - apply openai_line_yields_at_most_one.
  - apply anthropic_line_yields_at_most_one_of_each.
  - intros Hcontent Hdone.
    rewrite (anthropic_line_of_object host model st line data Hskip Hparse Hdata).
    cbv zeta. rewrite Hcontent, Hdone. reflexivity.
Qed.

Lemma events_of_one_line_witness :
  List.length (yielded (openai_line node (JStr "glm-5") 0 line_hi_done)) <= 1
  /\ List.map event_type
       (yielded (anthropic_line node (JStr "glm-5") (mkReader "" 0) line_hi_done))
     = [JStr "content_block_delta"; JStr "message_stop"].
Proof.
  pose proof (events_of_one_line node (JStr "glm-5") 0 "r" (mkReader "" 0) 0
                line_hi_done data_hi_done
                ltac:(vm_compute; reflexivity) ltac:(vm_compute; reflexivity)
                ltac:(reflexivity)) as (_ & _ & Hopenai & _ & Hboth).
  split; [exact Hopenai | apply Hboth; reflexivity].
Defined.

(** C3, as stated, fails: the single line
    [{"message":{"content":"Hi"},"done":true}] makes [sendMessageStream]
    yield a content delta and a terminal event. *)
Lemma one_line_yields_delta_and_stop :
  let ev :=
    events (sendMessageStream node (JStr "glm-5")
              (mkBody [line_hi_done ++ newline] None)) in
  List.map event_type ev = [JStr "content_block_delta"; JStr "message_stop"]
  /\ ~ List.length ev <= 1.
Proof.
  split; [vm_compute; reflexivity |].
  vm_compute. intros H. inversion H as [| ? H']. inversion H'.
Qed.

(* ------------------------------------------------------------------ *)
(** ** The non-streaming transport *)

Lemma conversion_of_an_object_succeeds
      (now : Z) (rnd : string) (data model : JValue) :
  JS.nullish data = false ->
  exists response, convertOllamaToAnthropic now rnd data model = Ok response.
Proof.
  intros Hdata. unfold convertOllamaToAnthropic, destructure.
  rewrite Hdata. cbn [bind]. eexists. reflexivity.
Qed.

Section RetryLoop.

Variable host : Host.
Variable upstream : Upstream.
Variable convert : JValue -> Result JValue.

Lemma loop_returns (remaining attempt : nat) (lastError : option Error)
      (w w' : World) (converted : JValue) :
  try_block host upstream convert attempt w = (Returned converted, w') ->
  attempts host upstream convert (S remaining) attempt lastError w
  = (Ok converted, w').
Proof.
  intros Hturn. cbn [attempts]. now rewrite Hturn.
Qed.

Lemma loop_continues (remaining attempt : nat) (lastError : option Error)
      (w w' : World) :
  try_block host upstream convert attempt w = (Continued, w') ->
  attempts host upstream convert (S remaining) attempt lastError w
  = attempts host upstream convert remaining (S attempt) lastError w'.
Proof.
  intros Hturn. cbn [attempts]. now rewrite Hturn.
Qed.

(** An error that [isNetworkError] does not recognize is recorded, and
    the loop goes on to its next turn without a pause. *)
Lemma loop_goes_on_after_other_error
      (remaining attempt : nat) (lastError : option Error)
      (w w' : World) (e : Error) :
  try_block host upstream convert attempt w = (Thrown e, w') ->
  isNetworkError e = false ->
  attempts host upstream convert (S remaining) attempt lastError w
  = attempts host upstream convert remaining (S attempt) (Some e) w'.
Proof.
  intros Hturn Hother. cbn [attempts]. now rewrite Hturn, Hother.
Qed.

(** On the last turn every error is recorded, recognized or not. *)
Lemma last_turn_records_the_error
      (remaining attempt : nat) (lastError : option Error)
      (w w' : World) (e : Error) :
  (attempt <? MAX_RETRIES - 1)%nat = false ->
  try_block host upstream convert attempt w = (Thrown e, w') ->
  attempts host upstream convert (S remaining) attempt lastError w
  = attempts host upstream convert remaining (S attempt) (Some e) w'.
Proof.
  intros Hlast Hturn. cbn [attempts]. rewrite Hturn, Hlast.
  now rewrite Bool.andb_false_r.
Qed.

Lemma three_failed_attempts (w0 w1 w2 w3 : World) (e0 e1 e2 : Error) :
  try_block host upstream convert 0 w0 = (Thrown e0, w1) ->
  isNetworkError e0 = false ->
  try_block host upstream convert 1 w1 = (Thrown e1, w2) ->
  isNetworkError e1 = false ->
  try_block host upstream convert 2 w2 = (Thrown e2, w3) ->
  attempts host upstream convert MAX_RETRIES 0 None w0 = (Throw e2, w3).
Proof.
  intros H0 N0 H1 N1 H2. unfold MAX_RETRIES.
  rewrite (loop_goes_on_after_other_error 2 0 None w0 w1 e0 H0 N0).
  rewrite (loop_goes_on_after_other_error 1 1 (Some e0) w1 w2 e1 H1 N1).
  rewrite (last_turn_records_the_error 0 2 (Some e1) w2 w3 e2 eq_refl H2).
  reflexivity.
Qed.

End RetryLoop.

Section OneAnswer.

Variable host : Host.
Variable upstream : Upstream.
Variable key : string.
Variable answer : Response.
Variable w : World.

Hypothesis key_is_current : Config.getApiKey (config w) = Some key.
Hypothesis key_is_set : key <> "".
Hypothesis answered : upstream (calls w) key = Resolves answer.

Lemma pool_is_not_empty : List.length (Config.apiKeys (config w)) <> 0.
Proof.
  intros Hnone. unfold Config.getApiKey in key_is_current.
  rewrite Hnone in key_is_current. discriminate.
Qed.

(** A response that is neither 401 nor a 429 met with keys to spare is
    handed back at once, the cursor where it was. *)
Lemma fetch_hands_back :
  status answer <> 401%Z ->
  status answer <> 429%Z
  \/ (List.length (Config.apiKeys (config w)) <= 1)%nat ->
  fetchWithKeyRotation upstream w = (Ok answer, fetched key w).
Proof.
  intros H401 H429. pose proof pool_is_not_empty as Hpool.
  unfold fetchWithKeyRotation, Config.getApiKeys.
  destruct (List.length (Config.apiKeys (config w))) as [| n] eqn:Hn;
    [contradiction |].
  cbn [key_attempts]. rewrite key_is_current, answered.
  destruct key as [| c rest]; [contradiction |].
  apply Z.eqb_neq in H401. rewrite H401.
  replace ((status answer =? 429)%Z
           && (1 <? List.length (Config.apiKeys (config w)))%nat) with false;
    [reflexivity |].
  symmetry. apply Bool.andb_false_iff.
  destruct H429 as [H429 | Hone].
  - left. now apply Z.eqb_neq.
  - right. apply Nat.ltb_ge. rewrite Hn. exact Hone.
Qed.

Variable convert : JValue -> Result JValue.

Lemma try_block_on_429 (attempt : nat) :
  status answer = 429%Z ->
  (List.length (Config.apiKeys (config w)) <= 1)%nat ->
  try_block host upstream convert attempt w
  = (Continued, sleep (waitMs answer attempt) (fetched key w)).
Proof.
  intros H429 Hone. unfold try_block.
  rewrite fetch_hands_back;
    [| rewrite H429; discriminate | right; exact Hone].
  unfold ok. rewrite H429. reflexivity.
Qed.

Lemma try_block_on_failing_status (attempt : nat) :
  ok answer = false ->
  status answer <> 401%Z ->
  status answer <> 429%Z ->
  try_block host upstream convert attempt w
  = (Thrown (mkError ("API error " ++ JS.Z_to_string (status answer) ++ ": "
                      ++ text answer)),
     fetched key w).
Proof.
  intros Hok H401 H429. unfold try_block.
  rewrite fetch_hands_back; [| exact H401 | left; exact H429].
  rewrite Hok. cbn [negb].
  apply Z.eqb_neq in H401, H429. now rewrite H401, H429.
Qed.

End OneAnswer.

(** Over one key, an upstream that always answers 429 is asked three
    times; no error is ever recorded, so the fallback error surfaces. *)
Lemma rate_limit_exhausts_the_budget
      (host : Host) (upstream : Upstream) (convert : JValue -> Result JValue)
      (key : string) (answer : Response) (w : World) :
  key <> "" ->
  (forall n, upstream n key = Resolves answer) ->
  Config.apiKeys (config w) = [key] ->
  status answer = 429%Z ->
  let outcome := attempts host upstream convert MAX_RETRIES 0 None w in
  fst outcome = Throw (mkError "Max retries exceeded")
  /\ calls (snd outcome) = calls w + 3.
Proof.
  intros Hkey Hanswer Hkeys H429.
  assert (Hturn :
            forall attempt w',
              Config.apiKeys (config w') = [key] ->
              try_block host upstream convert attempt w'
              = (Continued, sleep (waitMs answer attempt) (fetched key w'))).
  { intros attempt w' Hkeys'.
    apply try_block_on_429; try assumption.
    - unfold Config.getApiKey. rewrite Hkeys'. cbn [List.length].
      now rewrite Nat.mod_1_r.
    - apply Hanswer.
    - rewrite Hkeys'. cbn. lia. }
  unfold MAX_RETRIES.
  set (w1 := sleep (waitMs answer 0) (fetched key w)).
  set (w2 := sleep (waitMs answer 1) (fetched key w1)).
  rewrite (loop_continues host upstream convert 2 0 None w w1 (Hturn 0 w Hkeys)).
  rewrite (loop_continues host upstream convert 1 1 None w1 w2
             (Hturn 1 w1 Hkeys)).
  rewrite (loop_continues host upstream convert 0 2 None w2 _
             (Hturn 2 w2 Hkeys)).
  cbn. split; [reflexivity | lia].
Qed.

(** C2, as the code has it.  In both non-streaming senders an attempt
    that fails with an error [isNetworkError] does not recognize does not
    end the call.  At whatever attempt it occurs and whatever was recorded
    before, the error is recorded as the last error and the loop goes on,
    without a pause, with the attempts that are left.  These decide how the
    call ends: an attempt that returns ends it with its result, an attempt
    left by [continue] (a 429) keeps the recorded error, and when no
    attempt is left the recorded error is raised unchanged.  So over the
    budget of three attempts the error of the third is raised when all
    three throw, the error of the first when the other two are
    rate-limited, and a result is returned when the second attempt
    succeeds. *)
Theorem other_error_leads_to_the_next_attempt
        (host : Host) (upstream : Upstream) (convert : JValue -> Result JValue) :
  (forall remaining attempt lastError w w' e,
      try_block host upstream convert attempt w = (Thrown e, w') ->
      isNetworkError e = false ->
      attempts host upstream convert (S remaining) attempt lastError w
      = attempts host upstream convert remaining (S attempt) (Some e) w')
  /\ (forall remaining attempt lastError w w' converted,
         try_block host upstream convert attempt w = (Returned converted, w') ->
         attempts host upstream convert (S remaining) attempt lastError w
         = (Ok converted, w'))
  /\ (forall remaining attempt lastError w w',
         try_block host upstream convert attempt w = (Continued, w') ->
         attempts host upstream convert (S remaining) attempt lastError w
         = attempts host upstream convert remaining (S attempt) lastError w')
  /\ (forall attempt e w,
         attempts host upstream convert 0 attempt (Some e) w = (Throw e, w))
  /\ (forall w0 w1 w2 w3 e0 e1 e2,
         try_block host upstream convert 0 w0 = (Thrown e0, w1) ->
         isNetworkError e0 = false ->
         try_block host upstream convert 1 w1 = (Thrown e1, w2) ->
         isNetworkError e1 = false ->
         try_block host upstream convert 2 w2 = (Thrown e2, w3) ->
         attempts host upstream convert MAX_RETRIES 0 None w0 = (Throw e2, w3))
  /\ (forall w0 w1 w2 w3 e0,
         try_block host upstream convert 0 w0 = (Thrown e0, w1) ->
         isNetworkError e0 = false ->
         try_block host upstream convert 1 w1 = (Continued, w2) ->
         try_block host upstream convert 2 w2 = (Continued, w3) ->
         attempts host upstream convert MAX_RETRIES 0 None w0 = (Throw e0, w3))
  /\ (forall w0 w1 w2 e0 converted,
         try_block host upstream convert 0 w0 = (Thrown e0, w1) ->
         isNetworkError e0 = false ->
         try_block host upstream convert 1 w1 = (Returned converted, w2) ->
         attempts host upstream convert MAX_RETRIES 0 None w0
         = (Ok converted, w2))
  /\ (forall request ollamaRequest w,
         convertAnthropicToOllama host request = Ok ollamaRequest ->
         convert = anthropic_reply host request ->
         sendMessage host upstream request w
         = attempts host upstream convert MAX_RETRIES 0 None w)
  /\ (forall request ollamaRequest w,
         convertOpenAIToOllama request = Ok ollamaRequest ->
         convert = openai_reply host request ->
         sendOpenAIMessage host upstream request w
         = attempts host upstream convert MAX_RETRIES 0 None w).
Proof.
  split; [| split; [| split; [| split; [| split; [| split; [| split;
    [| split]]]]]]].
  - intros remaining attempt lastError w w' e Hturn Hother.
    exact (loop_goes_on_after_other_error host upstream convert remaining
             attempt lastError w w' e Hturn Hother).
  - intros remaining attempt lastError w w' converted Hturn.
    exact (loop_returns host upstream convert remaining attempt lastError
             w w' converted Hturn).
  - intros remaining attempt lastError w w' Hturn.
    exact (loop_continues host upstream convert remaining attempt lastError
             w w' Hturn).
  - reflexivity.
  - intros w0 w1 w2 w3 e0 e1 e2 H0 N0 H1 N1 H2.
    exact (three_failed_attempts host upstream convert w0 w1 w2 w3 e0 e1 e2
             H0 N0 H1 N1 H2).
  - intros w0 w1 w2 w3 e0 H0 N0 H1 H2. unfold MAX_RETRIES.
    rewrite (loop_goes_on_after_other_error host upstream convert 2 0 None
               w0 w1 e0 H0 N0).
    rewrite (loop_continues host upstream convert 1 1 (Some e0) w1 w2 H1).
    rewrite (loop_continues host upstream convert 0 2 (Some e0) w2 w3 H2).
    reflexivity.
  - intros w0 w1 w2 e0 converted H0 N0 H1. unfold MAX_RETRIES.
    rewrite (loop_goes_on_after_other_error host upstream convert 2 0 None
               w0 w1 e0 H0 N0).
    exact (loop_returns host upstream convert 1 1 (Some e0) w1 w2 converted H1).
  - intros request ollamaRequest w Hrequest Hconvert.
    unfold sendMessage. now rewrite Hrequest, <- Hconvert.
  - intros request ollamaRequest w Hrequest Hconvert.
    unfold sendOpenAIMessage. now rewrite Hrequest, <- Hconvert.
Qed.

(** An upstream that answers 500 to the first fetch and 429 to the
    others. *)
Lemma other_error_leads_to_the_next_attempt_witness :
  let failing := always (mkResponse 500 None "boom") in
  let limited : Upstream :=
    fun n _ =>
      Resolves (match n with
                | 0 => mkResponse 500 None "boom"
                | _ => mkResponse 429 None "slow down"
                end) in
  let w := start (Config.create ["key-1"]) in
  (sendMessage node failing hello_anthropic w
   = (Throw (mkError "API error 500: boom"),
      mkWorld (Config.create ["key-1"]) 3
              [Fetch "key-1"; Fetch "key-1"; Fetch "key-1"]))
  /\ (sendMessage node limited hello_anthropic w
      = (Throw (mkError "API error 500: boom"),
         mkWorld (Config.create ["key-1"]) 3
                 [Fetch "key-1"; Fetch "key-1"; Sleep (JNum 2000);
                  Fetch "key-1"; Sleep (JNum 3000)])).
Proof.
  cbv zeta. split.
  - destruct (other_error_leads_to_the_next_attempt node
                (always (mkResponse 500 None "boom"))
                (anthropic_reply node hello_anthropic))
      as (_ & _ & _ & _ & Hthree & _ & _ & Hsend & _).
    rewrite (Hsend hello_anthropic _ (start (Config.create ["key-1"]))
                   eq_refl eq_refl).
    exact (Hthree (start (Config.create ["key-1"]))
                  (mkWorld (Config.create ["key-1"]) 1 [Fetch "key-1"])
                  (mkWorld (Config.create ["key-1"]) 2
                           [Fetch "key-1"; Fetch "key-1"])
                  (mkWorld (Config.create ["key-1"]) 3
                           [Fetch "key-1"; Fetch "key-1"; Fetch "key-1"])
                  (mkError "API error 500: boom") (mkError "API error 500: boom")
                  (mkError "API error 500: boom")
                  ltac:(vm_compute; reflexivity) ltac:(vm_compute; reflexivity)
                  ltac:(vm_compute; reflexivity) ltac:(vm_compute; reflexivity)
                  ltac:(vm_compute; reflexivity)).
  - destruct (other_error_leads_to_the_next_attempt node
                (fun n _ =>
                   Resolves (match n with
                             | 0 => mkResponse 500 None "boom"
                             | _ => mkResponse 429 None "slow down"
                             end))
                (anthropic_reply node hello_anthropic))
      as (_ & _ & _ & _ & _ & Hlimited & _ & Hsend & _).
    rewrite (Hsend hello_anthropic _ (start (Config.create ["key-1"]))
                   eq_refl eq_refl).
    exact (Hlimited (start (Config.create ["key-1"]))
                    (mkWorld (Config.create ["key-1"]) 1 [Fetch "key-1"])
                    (mkWorld (Config.create ["key-1"]) 2
                             [Fetch "key-1"; Fetch "key-1"; Sleep (JNum 2000)])
                    (mkWorld (Config.create ["key-1"]) 3
                             [Fetch "key-1"; Fetch "key-1"; Sleep (JNum 2000);
                              Fetch "key-1"; Sleep (JNum 3000)])
                    (mkError "API error 500: boom")
                    ltac:(vm_compute; reflexivity) ltac:(vm_compute; reflexivity)
                    ltac:(vm_compute; reflexivity) ltac:(vm_compute; reflexivity)).
Defined.

Section TwoKeys.

Variable host : Host.
Variable upstream : Upstream.
Variables key1 key2 : string.
Variables rejected accepted : Response.

Hypothesis key1_is_set : key1 <> "".
Hypothesis key2_is_set : key2 <> "".
Hypothesis key1_is_rejected : forall n, upstream n key1 = Resolves rejected.
Hypothesis key2_is_accepted : forall n, upstream n key2 = Resolves accepted.
Hypothesis rejected_is_401 : status rejected = 401%Z.
Hypothesis accepted_is_200 : status accepted = 200%Z.

(** The first key meets 401, the cursor moves on without a pause, the
    second key meets 200 and its response is handed back. *)
Lemma rotation_reaches_the_second_key :
  fetchWithKeyRotation upstream (start (Config.create [key1; key2]))
  = (Ok accepted,
     mkWorld (Config.mk [key1; key2] 1) 2 [Fetch key1; Fetch key2]).
Proof.
  unfold fetchWithKeyRotation, start, Config.create, Config.getApiKeys.
  cbn [config Config.apiKeys List.length key_attempts].
  unfold Config.getApiKey at 1.
  cbn [Config.apiKeys Config.currentKeyIndex List.length Nat.modulo
       Nat.divmod snd Nat.sub List.nth_error].
  destruct key1 as [| c1 s1] eqn:E1; [contradiction |].
  cbn [calls]. rewrite key1_is_rejected, rejected_is_401.
  cbn [Z.eqb Pos.eqb].
  cbn [key_attempts].
  unfold Config.getApiKey at 1.
  cbn [rotate fetched config Config.rotateApiKey fst Config.apiKeys
       Config.currentKeyIndex List.length Nat.ltb Nat.leb Nat.add
       Nat.modulo Nat.divmod snd Nat.sub List.nth_error calls trace List.app].
  destruct key2 as [| c2 s2] eqn:E2; [contradiction |].
  rewrite key2_is_accepted, accepted_is_200.
  cbn [Z.eqb Pos.eqb andb]. reflexivity.
Qed.

End TwoKeys.

(** C6.  Over the pool [key1; key2] with the cursor on the first key,
    when the upstream answers 401 to the first key and 200 with a JSON
    object to the second, [sendMessage] returns that object translated,
    after two fetches, and leaves the cursor on the second key. *)
Theorem rejected_key_gives_way_to_the_next
        (host : Host) (upstream : Upstream) (request : AnthropicRequest.t)
        (ollamaRequest data : JValue) (key1 key2 : string)
        (rejected accepted : Response) :
  key1 <> "" ->
  key2 <> "" ->
  (forall n, upstream n key1 = Resolves rejected) ->
  (forall n, upstream n key2 = Resolves accepted) ->
  status rejected = 401%Z ->
  status accepted = 200%Z ->
  JSON_parse host (text accepted) = Ok data ->
  JS.nullish data = false ->
  convertAnthropicToOllama host request = Ok ollamaRequest ->
  let outcome :=
    sendMessage host upstream request (start (Config.create [key1; key2])) in
  fst outcome
  = convertOllamaToAnthropic (Date_now host 0) (Math_random_id host 0) data
      (AnthropicRequest.model request)
  /\ (exists response, fst outcome = Ok response)
  /\ Config.getCurrentKeyIndex (config (snd outcome)) = 1
  /\ Config.getApiKey (config (snd outcome)) = Some key2
  /\ trace (snd outcome) = [Fetch key1; Fetch key2].
Proof.
  intros Hk1 Hk2 H1 H2 H401 H200 Hparse Hdata Hrequest outcome.
  destruct (conversion_of_an_object_succeeds (Date_now host 0)
              (Math_random_id host 0) data (AnthropicRequest.model request)
              Hdata) as [response Hresponse].
  assert (Houtcome :
            outcome
            = (Ok response,
               mkWorld (Config.mk [key1; key2] 1) 2 [Fetch key1; Fetch key2])).
  { unfold outcome, sendMessage. rewrite Hrequest. unfold MAX_RETRIES.
    apply loop_returns. unfold try_block.
    rewrite (rotation_reaches_the_second_key upstream key1 key2 rejected
               accepted Hk1 Hk2 H1 H2 H401 H200).
    unfold ok. rewrite H200.
    cbn [Z.leb Z.compare Pos.compare Pos.compare_cont andb negb].
    rewrite Hparse. unfold anthropic_reply. rewrite Hresponse. reflexivity. }
  rewrite Houtcome. cbn [fst snd config trace].
  repeat split.
  - symmetry. exact Hresponse.
  - exists response. reflexivity.
Qed.

Lemma rejected_key_gives_way_to_the_next_witness :
  let upstream : Upstream :=
    fun _ bearer =>
      if bearer =? "key-1" then Resolves (mkResponse 401 None "unauthorized")
      else Resolves (mkResponse 200 None
                       ("{" ++ dq ++ "message" ++ dq ++ ":{" ++ dq ++ "content"
                            ++ dq ++ ":" ++ dq ++ "Hi" ++ dq ++ "}," ++ dq
                            ++ "done" ++ dq ++ ":true}")) in
  let request :=
    AnthropicRequest.mk (JStr "glm-5")
      [JObj [("role", JStr "user"); ("content", JStr "Hello")]]
      (JNum 4096) JUndefined JUndefined JUndefined JUndefined in
  let outcome :=
    sendMessage node upstream request (start (Config.create ["key-1"; "key-2"])) in
  text_of (fst outcome) anthropic_text = JStr "Hi"
  /\ Config.getApiKey (config (snd outcome)) = Some "key-2".
Proof.
  cbv zeta.
  pose proof (rejected_key_gives_way_to_the_next node
                (fun _ bearer =>
                   if bearer =? "key-1"
                   then Resolves (mkResponse 401 None "unauthorized")
                   else Resolves (mkResponse 200 None line_hi_done))
                (AnthropicRequest.mk (JStr "glm-5")
                   [JObj [("role", JStr "user"); ("content", JStr "Hello")]]
                   (JNum 4096) JUndefined JUndefined JUndefined JUndefined)
                (JObj [("model", JStr "glm-5");
                       ("messages",
                         JArr [JObj [("role", JStr "user");
                                     ("content", JStr "Hello")]]);
                       ("stream", JBool false);
                       ("options", JObj [("num_predict", JNum 4096)])])
                data_hi_done "key-1" "key-2"
                (mkResponse 401 None "unauthorized")
                (mkResponse 200 None line_hi_done)
                ltac:(discriminate) ltac:(discriminate)
                ltac:(reflexivity) ltac:(reflexivity)
                ltac:(reflexivity) ltac:(reflexivity)
                ltac:(vm_compute; reflexivity) ltac:(reflexivity)
                ltac:(reflexivity)) as H.
  cbv zeta in H. destruct H as (Hfst & _ & _ & Hkey & _).
  split; [| exact Hkey].
  change (text_of
            (fst (sendMessage node
                    (fun _ bearer =>
                       if bearer =? "key-1"
                       then Resolves (mkResponse 401 None "unauthorized")
                       else Resolves (mkResponse 200 None line_hi_done))
                    (AnthropicRequest.mk (JStr "glm-5")
                       [JObj [("role", JStr "user"); ("content", JStr "Hello")]]
                       (JNum 4096) JUndefined JUndefined JUndefined JUndefined)
                    (start (Config.create ["key-1"; "key-2"]))))
            anthropic_text = JStr "Hi").
  rewrite Hfst. vm_compute. reflexivity.
Defined.

(* ------------------------------------------------------------------ *)
(** ** Where the code parts from the specification *)

(** C1.  The schema-A converters never read [message.thinking]: the text
    they render is the content alone, whatever the reasoning, and so is the
    delta of the schema-A stream reader.  For the reasoning "Let me add."
    and the content "4" the rule asks for the reasoning, a blank line and
    the content, which the schema-B converter renders and the schema-A
    converter does not. *)
Theorem anthropic_responses_leave_thinking_out
        (now : Z) (rnd : string) (model : JValue)
        (thinking content : string) (done : bool) :
  text_of (convertOllamaToAnthropic now rnd
             (thinking_response thinking content done) model) anthropic_text
  = JStr content
  /\ text_of (convertOllamaStreamToAnthropic now rnd
                (thinking_response thinking content done) model)
       anthropic_delta_text
     = JStr content
  /\ List.map anthropic_delta_text
       (events (sendMessageStream node model
                  (mkBody [wire (thinking_response "Let me add." "4" false)
                           ++ newline] None)))
     = [JStr "4"]
  /\ text_of (convertOllamaToOpenAI now rnd
                (thinking_response "Let me add." "4" true) model) openai_text
     = JStr (thinking_then_content "Let me add." "4")
  /\ text_of (convertOllamaToAnthropic now rnd
                (thinking_response "Let me add." "4" true) model) anthropic_text
     <> JStr (thinking_then_content "Let me add." "4").
Proof.
  split; [| split; [| split; [| split]]].
  - reflexivity.
  - reflexivity.
  - vm_compute. reflexivity.
  - apply openai_renders_thinking. discriminate.
  - cbn. discriminate.
Qed.

(** C2, as stated, fails: over one key, when the upstream answers 500 to
    every fetch, both non-streaming senders fetch three times, not once,
    before the error reaches the caller. *)
Lemma one_failed_attempt_is_not_the_end :
  let w := start (Config.create ["key-1"]) in
  let upstream := always (mkResponse 500 None "boom") in
  let anthropic := sendMessage node upstream hello_anthropic w in
  let openai := sendOpenAIMessage node upstream hello_openai w in
  (fst anthropic = Throw (mkError "API error 500: boom")
   /\ trace (snd anthropic) = [Fetch "key-1"; Fetch "key-1"; Fetch "key-1"]
   /\ calls (snd anthropic) <> 1)
  /\ (fst openai = Throw (mkError "API error 500: boom")
      /\ trace (snd openai) = [Fetch "key-1"; Fetch "key-1"; Fetch "key-1"]
      /\ calls (snd openai) <> 1).
Proof.
  vm_compute. repeat split; try reflexivity; discriminate.
Qed.

(** C4.  Over one key, when the upstream answers 429 to every fetch,
    [sendMessage] fetches three times, waiting one, two and three seconds,
    and then throws the fallback error "Max retries exceeded", which
    [parseError] reports as an [api_error] with status 500, not as a
    rate-limit error. *)
Theorem exhausted_rate_limit_surfaces_as_api_error :
  let w := start (Config.create ["key-1"]) in
  let upstream := always (mkResponse 429 None "slow down") in
  let outcome := sendMessage node upstream hello_anthropic w in
  fst outcome = Throw (mkError "Max retries exceeded")
  /\ calls (snd outcome) = 3
  /\ trace (snd outcome)
     = [Fetch "key-1"; Sleep (JNum 1000); Fetch "key-1"; Sleep (JNum 2000);
        Fetch "key-1"; Sleep (JNum 3000)]
  /\ errorType (parseError (mkError "Max retries exceeded")) = "api_error"
  /\ statusCode (parseError (mkError "Max retries exceeded")) = 500%Z
  /\ errorType (parseError (mkError "API error 429: slow down"))
     = "rate_limit_error".
Proof.
  vm_compute. repeat split; reflexivity.
Qed.

(* ================================================================== *)
(** * Further properties *)

(* ------------------------------------------------------------------ *)
(** ** Key rotation, whatever the upstream answers *)

Section AnyUpstream.

Variable upstream : Upstream.

Lemma rotate_keeps_the_pool (w : World) :
  Config.apiKeys (config (rotate w)) = Config.apiKeys (config w)
  /\ calls (rotate w) = calls w
  /\ (Config.currentKeyIndex (config (rotate w))
      = Config.currentKeyIndex (config w)
      \/ Config.currentKeyIndex (config (rotate w))
         < List.length (Config.apiKeys (config w))).
Proof.
  unfold rotate, Config.rotateApiKey. cbn [config calls fst].
  destruct (Nat.ltb_spec 1 (List.length (Config.apiKeys (config w))))
    as [Hlt | Hge]; cbn [Config.apiKeys Config.currentKeyIndex].
  - repeat split. right. apply Nat.mod_upper_bound. lia.
  - repeat split. left. reflexivity.
Qed.

Lemma key_attempts_hands_back (keys : list string) (remaining : nat) :
  forall lastError w response w',
    key_attempts upstream keys remaining lastError w = (Ok response, w') ->
    status response <> 401%Z
    /\ (status response = 429%Z -> List.length keys <= 1).
Proof.
  induction remaining as [| remaining IH]; intros lastError w response w' H;
    cbn [key_attempts] in H; [discriminate |].
  destruct (Config.getApiKey (config w)) as [[| c key] |];
    try discriminate.
  destruct (upstream (calls w) (String c key)) as [answer | error].
  - destruct (Z.eqb_spec (status answer) 401) as [E401 | N401].
    + exact (IH _ _ _ _ H).
    + destruct (Z.eqb_spec (status answer) 429) as [E429 | N429];
        cbn [andb] in H.
      * destruct (Nat.ltb_spec 1 (List.length keys)) as [Hlt | Hge].
        -- exact (IH _ _ _ _ H).
        -- injection H as <- <-. split; [exact N401 | intros _; exact Hge].
      * injection H as <- <-. split; [exact N401 | intros E; contradiction].
  - destruct (isNetworkError error && (1 <? List.length keys)%nat).
    + exact (IH _ _ _ _ H).
    + discriminate.
Qed.

Lemma key_attempts_effects (keys : list string) (remaining : nat) :
  forall lastError w,
    let w' := snd (key_attempts upstream keys remaining lastError w) in
    calls w <= calls w' <= calls w + remaining
    /\ Config.apiKeys (config w') = Config.apiKeys (config w)
    /\ (Config.currentKeyIndex (config w') = Config.currentKeyIndex (config w)
        \/ Config.currentKeyIndex (config w')
           < List.length (Config.apiKeys (config w))).
Proof.
  induction remaining as [| remaining IH]; intros lastError w;
    cbn [key_attempts].
  - cbn. repeat split; try lia; left; reflexivity.
  - destruct (Config.getApiKey (config w)) as [[| c key] |];
      try (cbn; repeat split; try lia; left; reflexivity).
    set (w1 := fetched (String c key) w).
    assert (H1 : calls w1 = S (calls w) /\ config w1 = config w)
      by (split; reflexivity).
    destruct H1 as [Hcalls Hconfig].
    destruct (rotate_keeps_the_pool w1) as (Rkeys & Rcalls & Rcursor).
    rewrite Hconfig in Rkeys, Rcursor.
    assert (Hnext :
              forall lastError' w2,
                calls w2 = S (calls w) ->
                Config.apiKeys (config w2) = Config.apiKeys (config w) ->
                (Config.currentKeyIndex (config w2)
                 = Config.currentKeyIndex (config w)
                 \/ Config.currentKeyIndex (config w2)
                    < List.length (Config.apiKeys (config w))) ->
                let w' :=
                  snd (key_attempts upstream keys remaining lastError' w2) in
                calls w <= calls w' <= calls w + S remaining
                /\ Config.apiKeys (config w') = Config.apiKeys (config w)
                /\ (Config.currentKeyIndex (config w')
                    = Config.currentKeyIndex (config w)
                    \/ Config.currentKeyIndex (config w')
                       < List.length (Config.apiKeys (config w)))).
    { intros lastError' w2 Hc Hk Hi.
      destruct (IH lastError' w2) as (Ic & Ik & Ii).
      rewrite Hk in Ik, Ii. rewrite Hc in Ic.
      split; [lia | split; [assumption |]].
      destruct Ii as [Ii | Ii]; [rewrite Ii; exact Hi | right; exact Ii]. }
    destruct (upstream (calls w) (String c key)) as [answer | error].
    + destruct (status answer =? 401)%Z.
      * apply Hnext; assumption.
      * destruct ((status answer =? 429)%Z && (1 <? List.length keys)%nat).
        -- apply (Hnext lastError (sleep (JNum 1000) (rotate w1)));
             assumption.
        -- cbn. repeat split; try lia; left; reflexivity.
    + destruct (isNetworkError error && (1 <? List.length keys)%nat).
      * apply (Hnext (Some error) (sleep (JNum RETRY_DELAY_MS) (rotate w1)));
          assumption.
      * cbn. repeat split; try lia; left; reflexivity.
Qed.

End AnyUpstream.

(** X1.  Whatever the upstream and the pool, the response
    [fetchWithKeyRotation] hands back is never a 401, and it is a 429 only
    when the pool holds at most one key: every other 401 or 429 has been
    answered by a rotation. *)
Theorem rotation_never_hands_back_401
        (upstream : Upstream) (w w' : World) (response : Response) :
  fetchWithKeyRotation upstream w = (Ok response, w') ->
  status response <> 401%Z
  /\ (status response = 429%Z
      -> List.length (Config.apiKeys (config w)) <= 1).
Proof.
  unfold fetchWithKeyRotation. apply key_attempts_hands_back.
Qed.

Lemma rotation_never_hands_back_401_witness :
  let upstream : Upstream :=
    fun n _ => Resolves (mkResponse (if (n <? 2)%nat then 401 else 200) None "") in
  exists response w',
    fetchWithKeyRotation upstream (start (Config.create ["a"; "b"; "c"]))
    = (Ok response, w')
    /\ status response <> 401%Z.
Proof.
  cbv zeta.
  exists (mkResponse 200 None ""),
         (mkWorld (Config.mk ["a"; "b"; "c"] 2) 3 [Fetch "a"; Fetch "b"; Fetch "c"]).
  assert (H : fetchWithKeyRotation
                (fun n _ =>
                   Resolves (mkResponse (if (n <? 2)%nat then 401 else 200)
                                        None ""))
                (start (Config.create ["a"; "b"; "c"]))
              = (Ok (mkResponse 200 None ""),
                 mkWorld (Config.mk ["a"; "b"; "c"] 2) 3
                         [Fetch "a"; Fetch "b"; Fetch "c"]))
    by (vm_compute; reflexivity).
  split; [exact H |].
  exact (proj1 (rotation_never_hands_back_401 _ _ _ _ H)).
Defined.

Lemma fetch_effects (upstream : Upstream) (w : World) :
  let w' := snd (fetchWithKeyRotation upstream w) in
  let k := List.length (Config.apiKeys (config w)) in
  calls w <= calls w' <= calls w + Nat.max 1 k
  /\ Config.apiKeys (config w') = Config.apiKeys (config w)
  /\ (Config.currentKeyIndex (config w') = Config.currentKeyIndex (config w)
      \/ Config.currentKeyIndex (config w') < k).
Proof.
  intros w' k. unfold w', fetchWithKeyRotation, Config.getApiKeys. fold k.
  replace (Nat.max 1 k) with (match k with 0 => 1 | S n => S n end)
    by (destruct k; lia).
  apply key_attempts_effects.
Qed.

(** X2.  One call of [fetchWithKeyRotation] issues at most as many
    fetches as the pool has keys (one when the pool is empty), leaves the
    pool as it is, and leaves the cursor either where it was or on a valid
    index. *)
Theorem rotation_fetches_at_most_once_per_key
        (upstream : Upstream) (w : World) :
  let w' := snd (fetchWithKeyRotation upstream w) in
  let k := List.length (Config.apiKeys (config w)) in
  calls w <= calls w' <= calls w + Nat.max 1 k
  /\ Config.apiKeys (config w') = Config.apiKeys (config w)
  /\ (Config.currentKeyIndex (config w') = Config.currentKeyIndex (config w)
      \/ Config.currentKeyIndex (config w') < k).
Proof.
  exact (fetch_effects upstream w).
Qed.

Section AnyDispatch.

Variable host : Host.
Variable upstream : Upstream.
Variable convert : JValue -> Result JValue.

Lemma try_block_effects (attempt : nat) (w : World) :
  let w' := snd (try_block host upstream convert attempt w) in
  let k := List.length (Config.apiKeys (config w)) in
  calls w <= calls w' <= calls w + Nat.max 1 k
  /\ Config.apiKeys (config w') = Config.apiKeys (config w).
Proof.
  intros w' k.
  destruct (fetch_effects upstream w) as (Hcalls & Hkeys & _).
  unfold w', try_block. fold k in Hcalls.
  destruct (fetchWithKeyRotation upstream w) as [[response | error] w1];
    cbn [snd] in *; [| split; assumption].
  destruct (negb (ok response)).
  - destruct (status response =? 429)%Z; [split; assumption |].
    destruct (status response =? 401)%Z; split; assumption.
  - destruct (JSON_parse host (text response)) as [data | error];
      [| split; assumption].
    destruct (convert data); split; assumption.
Qed.

Lemma attempts_effects (remaining : nat) :
  forall attempt lastError w,
    let w' := snd (attempts host upstream convert remaining attempt lastError w) in
    let k := List.length (Config.apiKeys (config w)) in
    calls w <= calls w' <= calls w + remaining * Nat.max 1 k
    /\ Config.apiKeys (config w') = Config.apiKeys (config w).
Proof.
  induction remaining as [| remaining IH]; intros attempt lastError w;
    cbn [attempts].
  - cbn. split; [lia | reflexivity].
  - destruct (try_block_effects attempt w) as [Hcalls Hkeys].
    assert (Hnext :
              forall lastError' w2,
                calls w2
                = calls (snd (try_block host upstream convert attempt w)) ->
                Config.apiKeys (config w2) = Config.apiKeys (config w) ->
                let w' :=
                  snd (attempts host upstream convert remaining (S attempt)
                         lastError' w2) in
                calls w <= calls w'
                <= calls w
                   + S remaining
                     * Nat.max 1 (List.length (Config.apiKeys (config w)))
                /\ Config.apiKeys (config w') = Config.apiKeys (config w)).
    { intros lastError' w2 Hc Hk.
      destruct (IH (S attempt) lastError' w2) as [Ic Ik].
      rewrite Hk in Ic, Ik. rewrite Hc in Ic.
      split; [cbn [Nat.mul]; lia | exact Ik]. }
    destruct (try_block host upstream convert attempt w)
      as [[converted | | error] w1]; cbn [snd] in *.
    + split; [cbn [Nat.mul]; lia | exact Hkeys].
    + apply Hnext; [reflexivity | exact Hkeys].
    + destruct (isNetworkError error && (attempt <? MAX_RETRIES - 1)%nat).
      * apply (Hnext lastError (sleep (JNum RETRY_DELAY_MS) w1));
          [reflexivity | exact Hkeys].
      * apply Hnext; [reflexivity | exact Hkeys].
Qed.

End AnyDispatch.

(** X3.  Whatever the upstream answers, a non-streaming call issues at
    most [MAX_RETRIES] times the pool size fetches (three for an empty
    pool or a pool of one key) and leaves the pool as it is. *)
Theorem a_call_fetches_at_most_thrice_per_key
        (host : Host) (upstream : Upstream) (w : World)
        (anthropicRequest : AnthropicRequest.t)
        (openaiRequest : OpenAIRequest.t) :
  let k := List.length (Config.apiKeys (config w)) in
  let a := snd (sendMessage host upstream anthropicRequest w) in
  let o := snd (sendOpenAIMessage host upstream openaiRequest w) in
  (calls w <= calls a <= calls w + MAX_RETRIES * Nat.max 1 k
   /\ Config.apiKeys (config a) = Config.apiKeys (config w))
  /\ (calls w <= calls o <= calls w + MAX_RETRIES * Nat.max 1 k
      /\ Config.apiKeys (config o) = Config.apiKeys (config w)).
Proof.
  intros k a o. unfold a, o, sendMessage, sendOpenAIMessage. split.
  - destruct (convertAnthropicToOllama host anthropicRequest);
      [apply attempts_effects | cbn; split; [lia | reflexivity]].
  - destruct (convertOpenAIToOllama openaiRequest);
      [apply attempts_effects | cbn; split; [lia | reflexivity]].
Qed.

(* ------------------------------------------------------------------ *)
(** ** Every key rejected *)

Lemma getApiKey_at_a_valid_cursor (c : Config.t) :
  Config.currentKeyIndex c < List.length (Config.apiKeys c) ->
  Config.getApiKey c = List.nth_error (Config.apiKeys c) (Config.currentKeyIndex c).
Proof.
  intros Hvalid. unfold Config.getApiKey.
  destruct (List.length (Config.apiKeys c)) as [| n] eqn:E; [lia |].
  rewrite <- E, Nat.mod_small by lia. reflexivity.
Qed.

Section AllRejected.

Variable upstream : Upstream.
Variable keys : list string.

Let k := List.length keys.

Hypothesis some_key : keys <> [].
Hypothesis keys_are_set : Forall (fun key => key <> "") keys.
Hypothesis all_rejected :
  forall n key, exists response,
    upstream n key = Resolves response /\ status response = 401%Z.

Let tried (cursor j : nat) : list Effect :=
  List.map Fetch (rotation_from keys cursor j).

Lemma rejected_keys_are_tried_in_turn (j : nat) :
  forall w,
    Config.apiKeys (config w) = keys ->
    Config.currentKeyIndex (config w) < k ->
    key_attempts upstream keys j None w
    = (Throw (mkError "All API keys exhausted"),
       mkWorld (Config.mk keys ((Config.currentKeyIndex (config w) + j) mod k))
               (calls w + j)
               (trace w ++ tried (Config.currentKeyIndex (config w)) j)).
Proof.
  assert (Hk : k <> 0) by (apply pool_size_positive; exact some_key).
  induction j as [| j IH]; intros w Hkeys Hcursor.
  - cbn [key_attempts last_or]. unfold tried, rotation_from.
    cbn [List.seq List.map].
    rewrite !Nat.add_0_r, List.app_nil_r.
    rewrite (Nat.mod_small _ k Hcursor).
    destruct w as [[ks c] n t]. cbn in *. subst ks. reflexivity.
  - cbn [key_attempts].
    set (c := Config.currentKeyIndex (config w)) in *.
    assert (Hcurrent : Config.getApiKey (config w) = Some (List.nth c keys "")
                       /\ List.nth c keys "" <> "").
    { rewrite getApiKey_at_a_valid_cursor by (rewrite Hkeys; exact Hcursor).
      rewrite Hkeys. fold c.
      assert (Hin : List.In (List.nth c keys "") keys)
        by (apply List.nth_In; exact Hcursor).
      split.
      - apply List.nth_error_nth'. exact Hcursor.
      - rewrite Forall_forall in keys_are_set. exact (keys_are_set _ Hin). }
    destruct Hcurrent as [Hcurrent Hset]. rewrite Hcurrent.
    destruct (List.nth c keys "") as [| a key] eqn:Ekey; [contradiction |].
    destruct (all_rejected (calls w) (String a key)) as (response & -> & ->).
    cbn [Z.eqb Pos.eqb].
    destruct (rotate_valid_cursor keys some_key (config w) Hkeys Hcursor)
      as [Rkeys Rcursor].
    fold k c in Rcursor.
    rewrite (IH (rotate (fetched (String a key) w)));
      [| exact Rkeys
       | cbn [rotate config fetched]; rewrite Rcursor;
         apply Nat.mod_upper_bound; exact Hk ].
    f_equal. cbn [rotate config fetched calls trace]. rewrite Rcursor.
    f_equal.
    + rewrite Nat.Div0.add_mod_idemp_l.
      replace (c + 1 + j) with (c + S j) by lia. reflexivity.
    + lia.
    + rewrite <- List.app_assoc. f_equal. unfold tried, rotation_from.
      fold k. cbn [List.seq List.map List.app].
      rewrite Nat.add_0_r, (Nat.mod_small c k) by assumption.
      rewrite Ekey. f_equal.
      rewrite <- List.seq_shift, !List.map_map.
      apply List.map_ext. intros i.
      rewrite Nat.Div0.add_mod_idemp_l.
      replace (c + 1 + i) with (c + S i) by lia. reflexivity.
Qed.

(** One call: once around the pool, and the cursor is back. *)
Lemma rejected_pool_is_tried_once (w : World) :
  Config.apiKeys (config w) = keys ->
  Config.currentKeyIndex (config w) < k ->
  fetchWithKeyRotation upstream w
  = (Throw (mkError "All API keys exhausted"),
     mkWorld (config w) (calls w + k)
             (trace w ++ tried (Config.currentKeyIndex (config w)) k)).
Proof.
  intros Hkeys Hcursor.
  assert (Hk : k <> 0) by (apply pool_size_positive; exact some_key).
  unfold fetchWithKeyRotation, Config.getApiKeys. rewrite Hkeys. fold k.
  replace (match k with 0 => 1 | S n => S n end) with k by (destruct k; lia).
  rewrite (rejected_keys_are_tried_in_turn k w Hkeys Hcursor).
  do 2 f_equal.
  replace (Config.currentKeyIndex (config w) + k)
    with (Config.currentKeyIndex (config w) + 1 * k) by lia.
  rewrite Nat.Div0.mod_add, Nat.mod_small by assumption.
  destruct w as [[ks c] n t]. cbn in *. now subst ks.
Qed.

Variable host : Host.
Variable convert : JValue -> Result JValue.

Lemma rejected_pool_fails_the_attempt (attempt : nat) (w : World) :
  Config.apiKeys (config w) = keys ->
  Config.currentKeyIndex (config w) < k ->
  try_block host upstream convert attempt w
  = (Thrown (mkError "All API keys exhausted"),
     mkWorld (config w) (calls w + k)
             (trace w ++ tried (Config.currentKeyIndex (config w)) k)).
Proof.
  intros Hkeys Hcursor. unfold try_block.
  now rewrite (rejected_pool_is_tried_once w Hkeys Hcursor).
Qed.

Lemma rejected_pool_fails_every_attempt (remaining : nat) :
  forall attempt lastError w,
    Config.apiKeys (config w) = keys ->
    Config.currentKeyIndex (config w) < k ->
    let out :=
      attempts host upstream convert (S remaining) attempt lastError w in
    fst out = Throw (mkError "All API keys exhausted")
    /\ calls (snd out) = calls w + S remaining * k
    /\ config (snd out) = config w.
Proof.
  induction remaining as [| remaining IH];
    intros attempt lastError w Hkeys Hcursor out; unfold out;
    rewrite (loop_goes_on_after_other_error host upstream convert _ attempt
               lastError w _ _
               (rejected_pool_fails_the_attempt attempt w Hkeys Hcursor)
               eq_refl).
  - cbn. repeat split. lia.
  - set (w1 := mkWorld _ _ _).
    destruct (IH (S attempt) (Some (mkError "All API keys exhausted")) w1
                 Hkeys Hcursor) as (R & C & G).
    rewrite R, C, G. cbn [w1 calls config]. repeat split. lia.
Qed.

End AllRejected.

(** X4.  When the upstream answers 401 to every key of a pool of [k]
    keys, one call of [fetchWithKeyRotation] tries each key once, in
    rotation order from the cursor and without a pause, throws "All API
    keys exhausted", and leaves the cursor where it started. *)
Theorem rejected_pool_is_tried_once_around
        (upstream : Upstream) (keys : list string) (w : World) :
  keys <> [] ->
  Forall (fun key => key <> "") keys ->
  (forall n key, exists response,
      upstream n key = Resolves response /\ status response = 401%Z) ->
  Config.apiKeys (config w) = keys ->
  Config.currentKeyIndex (config w) < List.length keys ->
  fetchWithKeyRotation upstream w
  = (Throw (mkError "All API keys exhausted"),
     mkWorld (config w) (calls w + List.length keys)
             (trace w
              ++ List.map Fetch
                   (rotation_from keys (Config.currentKeyIndex (config w))
                                  (List.length keys)))).
Proof.
  intros Hsome Hset Hrejected. apply rejected_pool_is_tried_once; assumption.
Qed.

Lemma rejected_pool_is_tried_once_around_witness :
  fetchWithKeyRotation (always (mkResponse 401 None "no"))
    (mkWorld (Config.mk ["a"; "b"; "c"] 1) 0 [])
  = (Throw (mkError "All API keys exhausted"),
     mkWorld (Config.mk ["a"; "b"; "c"] 1) 3 [Fetch "b"; Fetch "c"; Fetch "a"]).
Proof.
  refine (rejected_pool_is_tried_once_around
            (always (mkResponse 401 None "no")) ["a"; "b"; "c"]
            (mkWorld (Config.mk ["a"; "b"; "c"] 1) 0 []) _ _ _ eq_refl _).
  - discriminate.
  - repeat constructor; discriminate.
  - intros n key. eexists. split; reflexivity.
  - cbn. lia.
Defined.

(** X5.  When the upstream answers 401 to every key, both non-streaming
    senders go around the pool [MAX_RETRIES] times, raise "All API keys
    exhausted" (the error of the rotation, not the authentication error of
    the sender's own 401 branch) and leave the cursor where it started;
    [parseError] reports that error as an [api_error]. *)
Theorem rejected_pool_surfaces_as_api_error
        (host : Host) (upstream : Upstream) (keys : list string) (w : World)
        (anthropicRequest : AnthropicRequest.t) (openaiRequest : OpenAIRequest.t)
        (a o : JValue) :
  keys <> [] ->
  Forall (fun key => key <> "") keys ->
  (forall n key, exists response,
      upstream n key = Resolves response /\ status response = 401%Z) ->
  Config.apiKeys (config w) = keys ->
  Config.currentKeyIndex (config w) < List.length keys ->
  convertAnthropicToOllama host anthropicRequest = Ok a ->
  convertOpenAIToOllama openaiRequest = Ok o ->
  let sent := sendMessage host upstream anthropicRequest w in
  let sent' := sendOpenAIMessage host upstream openaiRequest w in
  (fst sent = Throw (mkError "All API keys exhausted")
   /\ calls (snd sent) = calls w + MAX_RETRIES * List.length keys
   /\ config (snd sent) = config w
   /\ reported_as (fst sent) = Some "api_error")
  /\ (fst sent' = Throw (mkError "All API keys exhausted")
      /\ calls (snd sent') = calls w + MAX_RETRIES * List.length keys
      /\ config (snd sent') = config w
      /\ reported_as (fst sent') = Some "api_error").
Proof.
  intros Hsome Hset Hrejected Hkeys Hcursor Ha Ho sent sent'.
  unfold sent, sent', sendMessage, sendOpenAIMessage. rewrite Ha, Ho.
  unfold MAX_RETRIES. split.
  - destruct (rejected_pool_fails_every_attempt upstream keys Hsome Hset
                Hrejected host (anthropic_reply host anthropicRequest)
                2 0 None w Hkeys Hcursor) as (R & C & G).
    rewrite R. repeat split; try assumption. 
  - destruct (rejected_pool_fails_every_attempt upstream keys Hsome Hset
                Hrejected host (openai_reply host openaiRequest)
                2 0 None w Hkeys Hcursor) as (R & C & G).
    rewrite R. repeat split; try assumption.
Qed.

Lemma rejected_pool_surfaces_as_api_error_witness :
  let sent :=
    sendMessage node (always (mkResponse 401 None "no")) hello_anthropic
                (start (Config.create ["a"; "b"])) in
  fst sent = Throw (mkError "All API keys exhausted")
  /\ calls (snd sent) = 6
  /\ reported_as (fst sent) = Some "api_error".
Proof.
  cbv zeta.
  destruct (rejected_pool_surfaces_as_api_error node
              (always (mkResponse 401 None "no")) ["a"; "b"]
              (start (Config.create ["a"; "b"])) hello_anthropic hello_openai
              (JObj [("model", JStr "glm-5");
                     ("messages",
                       JArr [JObj [("role", JStr "user");
                                   ("content", JStr "Hello")]]);
                     ("stream", JBool false);
                     ("options", JObj [("num_predict", JNum 4096)])])
              (JObj [("model", JStr "glm-5");
                     ("messages",
                       JArr [JObj [("role", JStr "user");
                                   ("content", JStr "Hello")]]);
                     ("stream", JBool false);
                     ("options", JObj [])])
              ltac:(discriminate)
              ltac:(repeat constructor; discriminate)
              ltac:(intros n key; eexists; split; reflexivity)
              eq_refl ltac:(cbn; lia) eq_refl eq_refl)
    as [(R & C & _ & P) _].
  split; [exact R | split; [exact C | exact P]].
Defined.

(* ------------------------------------------------------------------ *)
(** ** No key, and fetches that reject *)

(** X6.  With no key configured nothing is fetched: the rotation throws
    "No API key configured" at once, and both non-streaming senders raise
    it (unless the request itself cannot be translated) without a fetch or
    a pause, the world left as it was. *)
Theorem no_key_no_fetch
        (host : Host) (upstream : Upstream) (w : World)
        (anthropicRequest : AnthropicRequest.t)
        (openaiRequest : OpenAIRequest.t) :
  Config.apiKeys (config w) = [] ->
  let missing := mkError "No API key configured" in
  fetchWithKeyRotation upstream w = (Throw missing, w)
  /\ sendMessage host upstream anthropicRequest w
     = (Throw (match convertAnthropicToOllama host anthropicRequest with
               | Throw e => e
               | Ok _ => missing
               end), w)
  /\ sendOpenAIMessage host upstream openaiRequest w
     = (Throw (match convertOpenAIToOllama openaiRequest with
               | Throw e => e
               | Ok _ => missing
               end), w).
Proof.
  intros Hkeys missing.
  assert (Hfetch : fetchWithKeyRotation upstream w = (Throw missing, w)).
  { unfold fetchWithKeyRotation, Config.getApiKeys, Config.getApiKey.
    rewrite Hkeys. cbn [List.length key_attempts].
    unfold Config.getApiKey. rewrite Hkeys. reflexivity. }
  assert (Hturn : forall convert attempt,
             try_block host upstream convert attempt w = (Thrown missing, w)).
  { intros convert attempt. unfold try_block. now rewrite Hfetch. }
  assert (Hloop : forall convert,
             attempts host upstream convert MAX_RETRIES 0 None w
             = (Throw missing, w)).
  { intros convert.
    exact (three_failed_attempts host upstream convert w w w w
             missing missing missing
             (Hturn convert 0) eq_refl (Hturn convert 1) eq_refl
             (Hturn convert 2)). }
  split; [exact Hfetch | split].
  - unfold sendMessage.
    destruct (convertAnthropicToOllama host anthropicRequest);
      [apply Hloop | reflexivity].
  - unfold sendOpenAIMessage.
    destruct (convertOpenAIToOllama openaiRequest);
      [apply Hloop | reflexivity].
Qed.

Lemma no_key_no_fetch_witness :
  sendMessage node (always (mkResponse 200 None "{}")) hello_anthropic
              (start (Config.create []))
  = (Throw (mkError "No API key configured"), start (Config.create [])).
Proof.
  exact (proj1 (proj2 (no_key_no_fetch node (always (mkResponse 200 None "{}"))
                         (start (Config.create [])) hello_anthropic
                         hello_openai eq_refl))).
Defined.

Section SameErrorEveryTurn.

Variable host : Host.
Variable upstream : Upstream.
Variable convert : JValue -> Result JValue.
Variable key : string.
Variable error : Error.
Variable w : World.

Hypothesis turns :
  forall attempt w',
    config w' = config w ->
    try_block host upstream convert attempt w' = (Thrown error, fetched key w').

(** When every attempt costs one fetch and fails with the same error, the
    loop spends its whole budget and raises that error, pausing between
    the attempts exactly when [isNetworkError] recognizes it. *)
Lemma same_error_uses_the_budget :
  attempts host upstream convert MAX_RETRIES 0 None w
  = (Throw error,
     if isNetworkError error
     then fetched key
            (sleep (JNum RETRY_DELAY_MS)
               (fetched key (sleep (JNum RETRY_DELAY_MS) (fetched key w))))
     else fetched key (fetched key (fetched key w))).
Proof.
  unfold MAX_RETRIES.
  destruct (isNetworkError error) eqn:Hkind.
  - change (attempts host upstream convert 3 0 None w)
      with (match try_block host upstream convert 0 w with
            | (Returned converted, w') => (Ok converted, w')
            | (Continued, w') => attempts host upstream convert 2 1 None w'
            | (Thrown e, w') =>
                if isNetworkError e && (0 <? MAX_RETRIES - 1)%nat
                then attempts host upstream convert 2 1 None
                              (sleep (JNum RETRY_DELAY_MS) w')
                else attempts host upstream convert 2 1 (Some e) w'
            end).
    rewrite (turns 0 w eq_refl), Hkind. cbn [andb].
    replace (0 <? MAX_RETRIES - 1)%nat with true by reflexivity.
    set (w1 := sleep (JNum RETRY_DELAY_MS) (fetched key w)).
    change (attempts host upstream convert 2 1 None w1)
      with (match try_block host upstream convert 1 w1 with
            | (Returned converted, w') => (Ok converted, w')
            | (Continued, w') => attempts host upstream convert 1 2 None w'
            | (Thrown e, w') =>
                if isNetworkError e && (1 <? MAX_RETRIES - 1)%nat
                then attempts host upstream convert 1 2 None
                              (sleep (JNum RETRY_DELAY_MS) w')
                else attempts host upstream convert 1 2 (Some e) w'
            end).
    rewrite (turns 1 w1 eq_refl), Hkind. cbn [andb].
    replace (1 <? MAX_RETRIES - 1)%nat with true by reflexivity.
    set (w2 := sleep (JNum RETRY_DELAY_MS) (fetched key w1)).
    rewrite (last_turn_records_the_error host upstream convert 0 2 None w2
               (fetched key w2) error eq_refl (turns 2 w2 eq_refl)).
    reflexivity.
  - exact (three_failed_attempts host upstream convert w (fetched key w)
             (fetched key (fetched key w))
             (fetched key (fetched key (fetched key w)))
             error error error
             (turns 0 w eq_refl) Hkind
             (turns 1 (fetched key w) eq_refl) Hkind
             (turns 2 (fetched key (fetched key w)) eq_refl)).
Qed.

End SameErrorEveryTurn.

Section OneKeyRejects.

Variable host : Host.
Variable upstream : Upstream.
Variable key : string.
Variable error : Error.
Variable convert : JValue -> Result JValue.

Hypothesis key_is_set : key <> "".
Hypothesis rejects : forall n, upstream n key = Rejects error.

(** With one key there is nothing to rotate to: the rejection is thrown
    on, recognized or not. *)
Lemma single_key_rejection (w : World) :
  Config.apiKeys (config w) = [key] ->
  fetchWithKeyRotation upstream w = (Throw error, fetched key w).
Proof.
  intros Hkeys. unfold fetchWithKeyRotation, Config.getApiKeys.
  rewrite Hkeys. cbn [List.length key_attempts].
  unfold Config.getApiKey. rewrite Hkeys. cbn [List.length].
  rewrite Nat.mod_1_r. cbn [List.nth_error].
  destruct key as [| c rest]; [contradiction |].
  rewrite rejects. cbn [Nat.ltb Nat.leb]. now rewrite Bool.andb_false_r.
Qed.

Lemma single_key_rejection_turn (attempt : nat) (w : World) :
  Config.apiKeys (config w) = [key] ->
  try_block host upstream convert attempt w = (Thrown error, fetched key w).
Proof.
  intros Hkeys. unfold try_block. now rewrite (single_key_rejection w Hkeys).
Qed.

Lemma rejections_use_the_budget (w : World) :
  Config.apiKeys (config w) = [key] ->
  attempts host upstream convert MAX_RETRIES 0 None w
  = (Throw error,
     if isNetworkError error
     then fetched key
            (sleep (JNum RETRY_DELAY_MS)
               (fetched key (sleep (JNum RETRY_DELAY_MS) (fetched key w))))
     else fetched key (fetched key (fetched key w))).
Proof.
  intros Hkeys. apply same_error_uses_the_budget.
  intros attempt w' Hconfig. apply single_key_rejection_turn.
  now rewrite Hconfig.
Qed.

End OneKeyRejects.

(** X7.  Over a pool of one key, when every fetch rejects with the same
    error, [fetchWithKeyRotation] throws it on at once, and both
    non-streaming senders fetch exactly [MAX_RETRIES] times and raise it
    unchanged, waiting [RETRY_DELAY_MS] between the attempts when
    [isNetworkError] recognizes the error and not at all when it does
    not. *)
Theorem rejecting_fetch_is_tried_three_times
        (host : Host) (upstream : Upstream) (key : string) (error : Error)
        (w : World)
        (anthropicRequest : AnthropicRequest.t) (openaiRequest : OpenAIRequest.t)
        (a o : JValue) :
  key <> "" ->
  (forall n, upstream n key = Rejects error) ->
  Config.apiKeys (config w) = [key] ->
  convertAnthropicToOllama host anthropicRequest = Ok a ->
  convertOpenAIToOllama openaiRequest = Ok o ->
  let after :=
    if isNetworkError error
    then fetched key
           (sleep (JNum RETRY_DELAY_MS)
              (fetched key (sleep (JNum RETRY_DELAY_MS) (fetched key w))))
    else fetched key (fetched key (fetched key w)) in
  fetchWithKeyRotation upstream w = (Throw error, fetched key w)
  /\ sendMessage host upstream anthropicRequest w = (Throw error, after)
  /\ sendOpenAIMessage host upstream openaiRequest w = (Throw error, after).
Proof.
  intros Hkey Hrejects Hkeys Ha Ho after. split; [| split].
  - apply single_key_rejection; assumption.
  - unfold sendMessage. rewrite Ha.
    apply rejections_use_the_budget; assumption.
  - unfold sendOpenAIMessage. rewrite Ho.
    apply rejections_use_the_budget; assumption.
Qed.

Lemma rejecting_fetch_is_tried_three_times_witness :
  let upstream : Upstream := fun _ _ => Rejects (mkError "fetch failed") in
  let sent :=
    sendMessage node upstream hello_anthropic (start (Config.create ["a"])) in
  fst sent = Throw (mkError "fetch failed")
  /\ trace (snd sent)
     = [Fetch "a"; Sleep (JNum 1000); Fetch "a"; Sleep (JNum 1000); Fetch "a"].
Proof.
  cbv zeta.
  destruct (rejecting_fetch_is_tried_three_times node
              (fun _ _ => Rejects (mkError "fetch failed")) "a"
              (mkError "fetch failed") (start (Config.create ["a"]))
              hello_anthropic hello_openai
              (JObj [("model", JStr "glm-5");
                     ("messages",
                       JArr [JObj [("role", JStr "user");
                                   ("content", JStr "Hello")]]);
                     ("stream", JBool false);
                     ("options", JObj [("num_predict", JNum 4096)])])
              (JObj [("model", JStr "glm-5");
                     ("messages",
                       JArr [JObj [("role", JStr "user");
                                   ("content", JStr "Hello")]]);
                     ("stream", JBool false);
                     ("options", JObj [])])
              ltac:(discriminate) ltac:(reflexivity) eq_refl eq_refl eq_refl)
    as (_ & S & _).
  rewrite S. split; reflexivity.
Defined.

(* ------------------------------------------------------------------ *)
(** ** Calls that succeed *)

Lemma openai_conversion_of_an_object_succeeds
      (now : Z) (rnd : string) (data model : JValue) :
  JS.nullish data = false ->
  exists completion, convertOllamaToOpenAI now rnd data model = Ok completion.
Proof.
  intros Hdata. unfold convertOllamaToOpenAI, destructure.
  rewrite Hdata. cbn [bind]. eexists. reflexivity.
Qed.

Lemma ok_is_neither_401_nor_429 (response : Response) :
  ok response = true -> status response <> 401%Z /\ status response <> 429%Z.
Proof.
  unfold ok. intros H. apply Bool.andb_true_iff in H. destruct H as [H1 H2].
  apply Z.leb_le in H1, H2. lia.
Qed.

(** X8.  When the current key's first fetch is answered with a 2xx status
    and a body that parses to a JSON value other than [null], each
    non-streaming sender returns the translation of that body after this
    single fetch: no rotation, no pause, the cursor where it was. *)
Theorem first_answer_is_returned
        (host : Host) (upstream : Upstream) (key : string)
        (response : Response) (data : JValue) (w : World)
        (anthropicRequest : AnthropicRequest.t) (openaiRequest : OpenAIRequest.t)
        (a o : JValue) :
  Config.getApiKey (config w) = Some key ->
  key <> "" ->
  upstream (calls w) key = Resolves response ->
  ok response = true ->
  JSON_parse host (text response) = Ok data ->
  JS.nullish data = false ->
  convertAnthropicToOllama host anthropicRequest = Ok a ->
  convertOpenAIToOllama openaiRequest = Ok o ->
  (exists message,
      anthropic_reply host anthropicRequest data = Ok message
      /\ sendMessage host upstream anthropicRequest w
         = (Ok message, fetched key w))
  /\ (exists completion,
        openai_reply host openaiRequest data = Ok completion
        /\ sendOpenAIMessage host upstream openaiRequest w
           = (Ok completion, fetched key w)).
Proof.
  intros Hcurrent Hkey Hanswer Hok Hparse Hdata Ha Ho.
  destruct (ok_is_neither_401_nor_429 response Hok) as [N401 N429].
  assert (Hturn : forall convert converted attempt,
             convert data = Ok converted ->
             try_block host upstream convert attempt w
             = (Returned converted, fetched key w)).
  { intros convert converted attempt Hconvert. unfold try_block.
    rewrite (fetch_hands_back upstream key response w Hcurrent Hkey Hanswer
               N401 (or_introl N429)).
    rewrite Hok. cbn [negb]. now rewrite Hparse, Hconvert. }
  split.
  - destruct (conversion_of_an_object_succeeds (Date_now host 0)
                (Math_random_id host 0) data
                (AnthropicRequest.model anthropicRequest) Hdata)
      as [message Hmessage].
    exists message. split; [exact Hmessage |].
    unfold sendMessage. rewrite Ha. unfold MAX_RETRIES.
    apply loop_returns. apply Hturn. exact Hmessage.
  - destruct (openai_conversion_of_an_object_succeeds (Date_now host 0)
                (Math_random_id host 0) data
                (OpenAIRequest.model openaiRequest) Hdata)
      as [completion Hcompletion].
    exists completion. split; [exact Hcompletion |].
    unfold sendOpenAIMessage. rewrite Ho. unfold MAX_RETRIES.
    apply loop_returns. apply Hturn. exact Hcompletion.
Qed.

Lemma first_answer_is_returned_witness :
  let sent :=
    sendOpenAIMessage node (always (mkResponse 200 None line_hi_done))
                      hello_openai (start (Config.create ["a"; "b"])) in
  text_of (fst sent) openai_text = JStr "Hi"
  /\ snd sent = mkWorld (Config.create ["a"; "b"]) 1 [Fetch "a"].
Proof.
  cbv zeta.
  destruct (first_answer_is_returned node
              (always (mkResponse 200 None line_hi_done)) "a"
              (mkResponse 200 None line_hi_done) data_hi_done
              (start (Config.create ["a"; "b"])) hello_anthropic hello_openai
              (JObj [("model", JStr "glm-5");
                     ("messages",
                       JArr [JObj [("role", JStr "user");
                                   ("content", JStr "Hello")]]);
                     ("stream", JBool false);
                     ("options", JObj [("num_predict", JNum 4096)])])
              (JObj [("model", JStr "glm-5");
                     ("messages",
                       JArr [JObj [("role", JStr "user");
                                   ("content", JStr "Hello")]]);
                     ("stream", JBool false);
                     ("options", JObj [])])
              eq_refl ltac:(discriminate) eq_refl eq_refl
              ltac:(vm_compute; reflexivity) eq_refl eq_refl eq_refl)
    as [_ (completion & Hcompletion & Hsent)].
  rewrite Hsent. cbn [fst snd text_of].
  split; [| reflexivity].
  injection Hcompletion as <-. reflexivity.
Defined.

Section SecondKey.

Variable upstream : Upstream.
Variables key1 key2 : string.
Variable first : FetchOutcome.
Variable accepted : Response.

Hypothesis key1_is_set : key1 <> "".
Hypothesis key2_is_set : key2 <> "".
Hypothesis key1_fails : forall n, upstream n key1 = first.
Hypothesis key2_answers : forall n, upstream n key2 = Resolves accepted.
Hypothesis first_is_busy_or_unreachable :
  match first with
  | Resolves response => status response = 429%Z
  | Rejects error => isNetworkError error = true
  end.
Hypothesis accepted_is_final :
  status accepted <> 401%Z /\ status accepted <> 429%Z.

Lemma busy_key_gives_way :
  fetchWithKeyRotation upstream (start (Config.create [key1; key2]))
  = (Ok accepted,
     mkWorld (Config.mk [key1; key2] 1) 2
             [Fetch key1; Sleep (JNum 1000); Fetch key2]).
Proof.
  unfold fetchWithKeyRotation, start, Config.create, Config.getApiKeys.
  cbn [config Config.apiKeys List.length key_attempts].
  unfold Config.getApiKey at 1.
  cbn [Config.apiKeys Config.currentKeyIndex List.length Nat.modulo
       Nat.divmod snd Nat.sub List.nth_error].
  destruct key1 as [| c1 s1] eqn:E1; [contradiction |].
  cbn [calls]. rewrite key1_fails.
  assert (Hnext :
            key_attempts upstream [String c1 s1; key2] 1
              match first with
              | Resolves _ => None
              | Rejects error => Some error
              end
              (sleep (JNum 1000)
                 (rotate (fetched (String c1 s1)
                            (mkWorld (Config.mk [String c1 s1; key2] 0) 0 []))))
            = (Ok accepted,
               mkWorld (Config.mk [String c1 s1; key2] 1) 2
                       [Fetch (String c1 s1); Sleep (JNum 1000); Fetch key2])).
  { cbn [key_attempts]. unfold Config.getApiKey at 1.
    cbn [sleep rotate fetched config Config.rotateApiKey fst Config.apiKeys
         Config.currentKeyIndex List.length Nat.ltb Nat.leb Nat.add
         Nat.modulo Nat.divmod snd Nat.sub List.nth_error calls trace List.app].
    destruct key2 as [| c2 s2] eqn:E2; [contradiction |].
    rewrite key2_answers.
    destruct accepted_is_final as [N401 N429].
    apply Z.eqb_neq in N401, N429. rewrite N401, N429. reflexivity. }
  destruct first as [response | error].
  - rewrite first_is_busy_or_unreachable. cbn [Z.eqb Pos.eqb andb].
    exact Hnext.
  - rewrite first_is_busy_or_unreachable. cbn [andb Nat.ltb Nat.leb List.length].
    exact Hnext.
Qed.

End SecondKey.

(** X9.  Over the pool [key1; key2] with the cursor on the first key,
    when the first key is answered 429 or its fetch fails with a recognized
    network error, [fetchWithKeyRotation] moves the cursor to the second
    key, waits one second, and hands back the second key's response
    whatever its status (other than 401 and 429). *)
Theorem busy_or_unreachable_key_gives_way_after_a_second
        (upstream : Upstream) (key1 key2 : string) (first : FetchOutcome)
        (accepted : Response) :
  key1 <> "" ->
  key2 <> "" ->
  (forall n, upstream n key1 = first) ->
  (forall n, upstream n key2 = Resolves accepted) ->
  match first with
  | Resolves response => status response = 429%Z
  | Rejects error => isNetworkError error = true
  end ->
  status accepted <> 401%Z /\ status accepted <> 429%Z ->
  fetchWithKeyRotation upstream (start (Config.create [key1; key2]))
  = (Ok accepted,
     mkWorld (Config.mk [key1; key2] 1) 2
             [Fetch key1; Sleep (JNum 1000); Fetch key2]).
Proof.
  intros. apply busy_key_gives_way with (first := first); assumption.
Qed.

Lemma busy_or_unreachable_key_gives_way_after_a_second_witness :
  let upstream : Upstream :=
    fun _ bearer =>
      if bearer =? "a" then Rejects (mkError "connect ECONNREFUSED 1.2.3.4:443")
      else Resolves (mkResponse 500 None "oops") in
  fetchWithKeyRotation upstream (start (Config.create ["a"; "b"]))
  = (Ok (mkResponse 500 None "oops"),
     mkWorld (Config.mk ["a"; "b"] 1) 2 [Fetch "a"; Sleep (JNum 1000); Fetch "b"]).
Proof.
  cbv zeta.
  refine (busy_or_unreachable_key_gives_way_after_a_second
            (fun _ bearer =>
               if bearer =? "a"
               then Rejects (mkError "connect ECONNREFUSED 1.2.3.4:443")
               else Resolves (mkResponse 500 None "oops"))
            "a" "b" (Rejects (mkError "connect ECONNREFUSED 1.2.3.4:443"))
            (mkResponse 500 None "oops") _ _ _ _ _ _).
  - discriminate.
  - discriminate.
  - reflexivity.
  - reflexivity.
  - vm_compute. reflexivity.
  - split; discriminate.
Defined.

(* ------------------------------------------------------------------ *)
(** ** The retry-after header *)







(** An integer below [2^53] in magnitude is a double: nothing is
    rounded. *)
Lemma nearest_of_a_safe_integer (x : Z) :
  (0 <= x < 2 ^ 53)%Z -> JS.nearest x = x.
Proof.
  intros [Hlow Hhigh]. unfold JS.nearest.
  assert (Hbits : (Z.log2 x < 53)%Z).
  { destruct (Z.eq_dec x 0) as [-> | Hx]; [reflexivity |].
    apply Z.log2_lt_pow2; [lia | exact Hhigh]. }
  replace (Z.log2 x + 1 - 53 <=? 0)%Z with true; [reflexivity |].
  symmetry. apply Z.leb_le. lia.
Qed.

Lemma number_of_a_safe_integer (x : Z) :
  (Z.abs x < 2 ^ 53)%Z -> JS.number x = JNum x.
Proof.
  intros Hsafe. unfold JS.number.
  rewrite nearest_of_a_safe_integer by (split; [apply Z.abs_nonneg | exact Hsafe]).
  replace (2 ^ 1024 <=? Z.abs x)%Z with false.
  - f_equal. destruct x; reflexivity.
  - symmetry. apply Z.leb_gt.
    apply (Z.lt_le_trans _ (2 ^ 53)); [exact Hsafe |].
    apply Z.pow_le_mono_r; [reflexivity | discriminate].
Qed.

(** Beyond [2^53] the numeral is rounded, as [parseInt] rounds it: the
    header [9007199254740993] gives a pause of [9007199254740992000]. *)
Lemma retry_after_beyond_the_safe_integers :
  JS.parseInt "9007199254740993" = JNum 9007199254740992
  /\ waitMs (mkResponse 429 (Some "9007199254740993") "") 0
     = JNum 9007199254740992000.
Proof.
  split; vm_compute; reflexivity.
Qed.



(* ------------------------------------------------------------------ *)
(** ** What a stream reader makes of the bytes *)

(** X11.  Both stream readers are insensitive to how the network cuts the
    text into chunks: two bodies that deliver the same text and end the
    same way are drained to the same events and the same log lines. *)
Theorem chunking_does_not_matter
        (host : Host) (model : JValue) (values values' : list string)
        (rejection : option Error) :
  received values = received values' ->
  sendMessageStream host model (mkBody values rejection)
  = sendMessageStream host model (mkBody values' rejection)
  /\ sendOpenAIMessageStream host model (mkBody values rejection)
     = sendOpenAIMessageStream host model (mkBody values' rejection).
Proof.
  intros Hsame. unfold sendMessageStream, sendOpenAIMessageStream.
  rewrite !drain_handles_complete_lines. cbn [chunks failure].
  rewrite Hsame. split; reflexivity.
Qed.

Lemma chunking_does_not_matter_witness :
  sendMessageStream node (JStr "glm-5")
    (mkBody [line_hi; newline ++ line_done ++ newline] None)
  = sendMessageStream node (JStr "glm-5")
      (mkBody [line_hi ++ newline ++ line_done; newline] None).
Proof.
  exact (proj1 (chunking_does_not_matter node (JStr "glm-5")
                  [line_hi; newline ++ line_done ++ newline]
                  [line_hi ++ newline ++ line_done; newline] None
                  ltac:(vm_compute; reflexivity))).
Defined.

(** X12.  What follows the last line feed is never handled: a body whose
    text ends in an unterminated fragment is drained exactly like the body
    without that fragment, so a final line the upstream does not end with a
    line feed, terminal or not, yields nothing. *)
Theorem unterminated_last_line_is_dropped
        (host : Host) (model : JValue) (text fragment : string)
        (values values' : list string) (rejection : option Error) :
  snd (cut text) = "" ->
  cut fragment = ([], fragment) ->
  received values = text ++ fragment ->
  received values' = text ->
  sendMessageStream host model (mkBody values rejection)
  = sendMessageStream host model (mkBody values' rejection)
  /\ sendOpenAIMessageStream host model (mkBody values rejection)
     = sendOpenAIMessageStream host model (mkBody values' rejection).
Proof.
  intros Htext Hfragment Hvalues Hvalues'.
  unfold sendMessageStream, sendOpenAIMessageStream.
  rewrite !drain_handles_complete_lines. cbn [chunks failure].
  rewrite Hvalues, Hvalues', (cut_app text fragment), Htext.
  cbn [fst append]. rewrite Hfragment. cbn [fst].
  rewrite List.app_nil_r. split; reflexivity.
Qed.

Lemma unterminated_last_line_is_dropped_witness :
  events (sendMessageStream node (JStr "glm-5")
            (mkBody [line_hi ++ newline ++ line_done] None))
  = [content_block_delta (JStr "Hi")].
Proof.
  rewrite (proj1 (unterminated_last_line_is_dropped node (JStr "glm-5")
                    (line_hi ++ newline) line_done
                    [line_hi ++ newline ++ line_done] [line_hi ++ newline]
                    None
                    ltac:(vm_compute; reflexivity) ltac:(vm_compute; reflexivity)
                    ltac:(vm_compute; reflexivity) ltac:(vm_compute; reflexivity))).
  vm_compute. reflexivity.
Defined.

Section Ignoring.

Variable State : Type.
Variable on_line : State -> string -> list JValue * list string * State.
Variable quiet : string.

Hypothesis ignored : forall st, on_line st quiet = ([], [], st).

Lemma each_line_ignores (before after : list string) :
  forall st,
    each_line State on_line st (before ++ quiet :: after)%list
    = each_line State on_line st (before ++ after)%list.
Proof.
  intros st. rewrite !each_line_app.
  destruct (each_line State on_line st before) as [[ev lg] st1].
  cbn [each_line]. rewrite ignored.
  destruct (each_line State on_line st1 after) as [[ev2 lg2] st2].
  reflexivity.
Qed.

Lemma drain_ignores (st : State) (before after : string)
      (values values' : list string) (rejection : option Error) :
  cut quiet = ([], quiet) ->
  snd (cut before) = "" ->
  received values = before ++ quiet ++ newline ++ after ->
  received values' = before ++ after ->
  drain State on_line st (mkBody values rejection)
  = drain State on_line st (mkBody values' rejection).
Proof.
  intros Hquiet Hbefore Hvalues Hvalues'.
  rewrite !drain_handles_complete_lines. cbn [chunks failure].
  rewrite Hvalues, Hvalues'.
  rewrite (cut_app before (quiet ++ newline ++ after)), (cut_app before after).
  rewrite Hbefore. cbn [fst append].
  rewrite (cut_line_then_rest quiet after Hquiet). cbn [fst].
  now rewrite each_line_ignores.
Qed.

End Ignoring.

(** X13.  A blank line (nothing but white space) and a comment line (one
    that starts with a colon) between complete lines are passed over
    without being parsed or logged: the body that holds such a line is
    drained exactly like the body without it, by both readers. *)
Theorem blank_and_comment_lines_are_passed_over
        (host : Host) (model : JValue) (quiet before after : string)
        (values values' : list string) (rejection : option Error) :
  JS.trim quiet = "" \/ JS.startsWith quiet ":" = true ->
  cut quiet = ([], quiet) ->
  snd (cut before) = "" ->
  received values = before ++ quiet ++ newline ++ after ->
  received values' = before ++ after ->
  sendMessageStream host model (mkBody values rejection)
  = sendMessageStream host model (mkBody values' rejection)
  /\ sendOpenAIMessageStream host model (mkBody values rejection)
     = sendOpenAIMessageStream host model (mkBody values' rejection).
Proof.
  intros Hquiet Hline Hbefore Hvalues Hvalues'.
  assert (Hskipped : skipped quiet = true).
  { unfold skipped. destruct Hquiet as [-> | ->];
      [reflexivity | apply Bool.orb_true_r]. }
  split.
  - apply (drain_ignores Reader (anthropic_line host model) quiet) with
      (before := before) (after := after); try assumption.
    intros st. unfold anthropic_line. now rewrite Hskipped.
  - apply (drain_ignores nat (openai_line host model) quiet) with
      (before := before) (after := after); try assumption.
    intros st. unfold openai_line. now rewrite Hskipped.
Qed.

Lemma blank_and_comment_lines_are_passed_over_witness :
  sendMessageStream node (JStr "glm-5")
    (mkBody [line_hi ++ newline ++ ": keep-alive" ++ newline
             ++ line_done ++ newline] None)
  = sendMessageStream node (JStr "glm-5")
      (mkBody [line_hi ++ newline ++ line_done ++ newline] None).
Proof.
  exact (proj1 (blank_and_comment_lines_are_passed_over node (JStr "glm-5")
                  ": keep-alive" (line_hi ++ newline) (line_done ++ newline)
                  [line_hi ++ newline ++ ": keep-alive" ++ newline
                   ++ line_done ++ newline]
                  [line_hi ++ newline ++ line_done ++ newline] None
                  (or_intror eq_refl) eq_refl
                  ltac:(vm_compute; reflexivity) ltac:(vm_compute; reflexivity)
                  ltac:(vm_compute; reflexivity))).
Defined.

Section Accumulation.

Variable host : Host.
Variable model : JValue.

Lemma delta_texts_app (evs evs' : list JValue) :
  delta_texts (evs ++ evs') = delta_texts evs ++ delta_texts evs'.
Proof.
  induction evs as [| event evs IH]; [reflexivity |].
  cbn [List.app delta_texts]. now rewrite IH, append_associative.
Qed.

Lemma stops_carry_app (evs evs' : list JValue) :
  forall seen,
    stops_carry seen evs ->
    stops_carry (seen ++ delta_texts evs) evs' ->
    stops_carry seen (evs ++ evs').
Proof.
  induction evs as [| event evs IH]; intros seen Hevs Hevs'.
  - cbn in Hevs'. now rewrite append_empty_r in Hevs'.
  - cbn [List.app stops_carry] in *. destruct Hevs as [Hstop Hrest].
    split; [exact Hstop |]. apply IH; [exact Hrest |].
    cbn [delta_texts] in *.
    rewrite append_empty_r, append_associative. exact Hevs'.
Qed.

Lemma stops_carry_at (before after : list JValue) (stop : JValue) :
  forall seen,
    stops_carry seen (before ++ stop :: after) ->
    is_stop stop = true ->
    stop_text stop = JStr (seen ++ delta_texts before).
Proof.
  induction before as [| event before IH]; intros seen Hcarry Hstop.
  - cbn in Hcarry. destruct Hcarry as [Hhere _].
    cbn [delta_texts]. rewrite append_empty_r. now apply Hhere.
  - cbn [List.app stops_carry] in Hcarry. destruct Hcarry as [_ Hrest].
    rewrite (IH _ Hrest Hstop). cbn [delta_texts].
    now rewrite append_empty_r, append_associative.
Qed.

Lemma anthropic_line_accumulates (st : Reader) (line : string) :
  let '(ev, _, st') := anthropic_line host model st line in
  content st' = content st ++ delta_texts ev
  /\ stops_carry (content st) ev.
Proof.
  unfold anthropic_line.
  destruct (skipped line);
    [cbn; now rewrite append_empty_r |].
  destruct (JSON_parse host line) as [data | e];
    [| cbn; now rewrite append_empty_r].
  destruct (JS.get data "message") as [message | e];
    [| cbn; now rewrite append_empty_r].
  destruct (JS.truthy (JS.opt message "content"));
    destruct (JS.truthy (JS.prop data "done"));
    cbn [List.app content delta_texts stops_carry];
    repeat match goal with
           | |- context [is_delta (content_block_delta ?d)] =>
               change (is_delta (content_block_delta d)) with true
           | |- context [is_delta (message_stop ?a ?b ?c ?d)] =>
               change (is_delta (message_stop a b c d)) with false
           | |- context [is_stop (content_block_delta ?d)] =>
               change (is_stop (content_block_delta d)) with false
           | |- context [stop_text (message_stop ?a ?b ?c ?d)] =>
               change (stop_text (message_stop a b c d)) with (JStr b)
           | |- context [anthropic_delta_text (content_block_delta ?d)] =>
               change (anthropic_delta_text (content_block_delta d)) with d
           end;
    rewrite ?append_empty_r; repeat split; try reflexivity; try discriminate.
Qed.

Lemma each_line_accumulates (lines : list string) :
  forall st,
    let '(ev, _, st') := each_line Reader (anthropic_line host model) st lines in
    content st' = content st ++ delta_texts ev
    /\ stops_carry (content st) ev.
Proof.
  induction lines as [| line lines IH]; intros st.
  - cbn. now rewrite append_empty_r.
  - cbn [each_line].
    pose proof (anthropic_line_accumulates st line) as Hline.
    destruct (anthropic_line host model st line) as [[ev lg] st1].
    specialize (IH st1).
    destruct (each_line Reader (anthropic_line host model) st1 lines)
      as [[ev' lg'] st2].
    destruct Hline as [Hcontent Hcarry]. destruct IH as [Hcontent' Hcarry'].
    split.
    + now rewrite Hcontent', Hcontent, delta_texts_app, append_associative.
    + apply stops_carry_app; [exact Hcarry |]. now rewrite <- Hcontent.
Qed.

End Accumulation.

(** X14.  Whatever the upstream sends, a terminal event of the schema-A
    stream reader carries, as the text of its message, exactly the texts of
    the content deltas the reader yielded before it, concatenated in
    order. *)
Theorem terminal_event_carries_the_deltas_so_far
        (host : Host) (model : JValue) (body : Body)
        (before after : list JValue) (stop : JValue) :
  events (sendMessageStream host model body) = (before ++ stop :: after)%list ->
  is_stop stop = true ->
  stop_text stop = JStr (delta_texts before).
Proof.
  unfold sendMessageStream. rewrite drain_handles_complete_lines.
  pose proof (each_line_accumulates host model
                (fst (cut (received (chunks body)))) (mkReader "" 0)) as Hacc.
  destruct (each_line Reader (anthropic_line host model) (mkReader "" 0)
              (fst (cut (received (chunks body))))) as [[ev lg] st].
  cbn [events content] in *. destruct Hacc as [_ Hcarry].
  intros -> Hstop.
  exact (stops_carry_at before after stop "" Hcarry Hstop).
Qed.

Lemma terminal_event_carries_the_deltas_so_far_witness :
  stop_text (nth 1 (events (sendMessageStream node (JStr "glm-5")
                              (mkBody [line_hi ++ newline; line_done ++ newline]
                                      None))) JNull)
  = JStr "Hi".
Proof.
  exact (terminal_event_carries_the_deltas_so_far node (JStr "glm-5")
           (mkBody [line_hi ++ newline; line_done ++ newline] None)
           [content_block_delta (JStr "Hi")] []
           (nth 1 (events (sendMessageStream node (JStr "glm-5")
                             (mkBody [line_hi ++ newline; line_done ++ newline]
                                     None))) JNull)
           ltac:(vm_compute; reflexivity) ltac:(vm_compute; reflexivity)).
Defined.

(* ------------------------------------------------------------------ *)
(** ** What the request converters build *)

Section RequestShape.

Variable host : Host.

Lemma flatten_blocks_succeeds (blocks : list JValue) :
  Forall (fun block => JS.nullish block = false) blocks ->
  forall content, exists text, flatten_blocks host content blocks = Ok text.
Proof.
  induction 1 as [| block blocks Hblock _ IH]; intros content.
  - eexists. reflexivity.
  - cbn [flatten_blocks]. rewrite (get_of_object _ "type" Hblock). cbn [bind].
    destruct (JSOps.equals (JS.prop block "type") "text"); [apply IH |].
    destruct (JSOps.equals (JS.prop block "type") "tool_use"); [apply IH |].
    destruct (JSOps.equals (JS.prop block "type") "tool_result"); apply IH.
Qed.

Lemma ollama_role_is_a_chat_role (v : JValue) :
  ollama_role v = "user" \/ ollama_role v = "assistant".
Proof.
  unfold ollama_role.
  destruct (JSOps.equals v "user"); [now left |].
  destruct (JSOps.equals v "assistant"); [now right | now left].
Qed.

Lemma target_message_is_a_chat_message (role : JValue) (content : JValue) :
  JS.typeof content = "string" ->
  chat_message (ollama_message (JStr (ollama_role role)) content).
Proof.
  intros Hcontent. unfold chat_message, ollama_message.
  change (JS.prop (JObj [("role", JStr (ollama_role role)); ("content", content)])
                  "role") with (JStr (ollama_role role)).
  change (JS.prop (JObj [("role", JStr (ollama_role role)); ("content", content)])
                  "content") with content.
  split; [| exact Hcontent].
  destruct (ollama_role_is_a_chat_role role) as [-> | ->]; [now left | now right].
Qed.

Lemma convert_message_pushes (msg : JValue) (pushed : list JValue) :
  convert_message host msg = Ok pushed ->
  List.length pushed <= 1 /\ Forall chat_message pushed.
Proof.
  unfold convert_message.
  destruct (JS.get msg "role") as [role | e]; cbn [bind]; [| discriminate].
  destruct (JS.typeof (JS.prop msg "content") =? "string") eqn:Htype.
  - apply String.eqb_eq in Htype. intros [= <-]. split; [cbn; lia |].
    constructor; [| constructor].
    now apply target_message_is_a_chat_message.
  - destruct (JS.prop msg "content") as [| | b | n | | inf | s | blocks | fs];
      try (intros [= <-]; split; [cbn; lia | constructor]).
    destruct (flatten_blocks host "" blocks) as [content | e]; cbn [bind];
      [| discriminate].
    destruct (JS.truthy (JStr content)); intros [= <-];
      (split; [cbn; lia |]); [| constructor].
    constructor; [| constructor].
    now apply target_message_is_a_chat_message.
Qed.

Lemma convert_message_succeeds (msg : JValue) :
  readable_message msg -> exists pushed, convert_message host msg = Ok pushed.
Proof.
  intros [Hmsg Hblocks]. unfold convert_message.
  rewrite (get_of_object _ "role" Hmsg). cbn [bind].
  destruct (JS.typeof (JS.prop msg "content") =? "string");
    [eexists; reflexivity |].
  destruct (JS.prop msg "content") as [| | b | n | | inf | s | blocks | fs];
    try (eexists; reflexivity).
  destruct (flatten_blocks_succeeds blocks (Hblocks blocks eq_refl) "")
    as [text ->]. cbn [bind].
  destruct (JS.truthy (JStr text)); eexists; reflexivity.
Qed.

Lemma convert_messages_pushes (msgs : list JValue) :
  forall acc out,
    convert_messages host acc msgs = Ok out ->
    exists rest,
      out = (acc ++ rest)%list
      /\ List.length rest <= List.length msgs
      /\ Forall chat_message rest.
Proof.
  induction msgs as [| msg msgs IH]; intros acc out.
  - cbn. intros [= <-]. exists []. rewrite List.app_nil_r.
    repeat split; [cbn; lia | constructor].
  - cbn [convert_messages].
    destruct (convert_message host msg) as [pushed | e] eqn:Hmsg; cbn [bind];
      [| discriminate].
    intros Hout. destruct (IH _ _ Hout) as (rest & -> & Hlen & Hrest).
    destruct (convert_message_pushes msg pushed Hmsg) as [Hone Hpushed].
    exists (pushed ++ rest)%list. rewrite List.app_assoc.
    split; [reflexivity |]. split.
    + rewrite List.length_app. cbn [List.length]. lia.
    + apply Forall_app. now split.
Qed.

Lemma convert_messages_succeeds (msgs : list JValue) :
  Forall readable_message msgs ->
  forall acc, exists out, convert_messages host acc msgs = Ok out.
Proof.
  induction 1 as [| msg msgs Hmsg _ IH]; intros acc.
  - eexists. reflexivity.
  - cbn [convert_messages].
    destruct (convert_message_succeeds msg Hmsg) as [pushed ->]. cbn [bind].
    apply IH.
Qed.

End RequestShape.

(** X15.  A schema-A request whose messages are readable is always
    translated.  When the request has a truthy [system] the upstream
    messages start with exactly one message of role [system], whose
    content is [system] itself when that is a string and
    [system[0]?.text || ""] otherwise; when [system] is falsy they have no
    such head.  Then comes at most one message per source message; each
    of these has the role user or assistant and a string as content. *)
Theorem anthropic_request_becomes_chat_messages
        (host : Host) (request : AnthropicRequest.t) :
  Forall readable_message (AnthropicRequest.messages request) ->
  exists translated head rest,
    convertAnthropicToOllama host request = Ok translated
    /\ JS.prop translated "messages" = JArr (head ++ rest)
    /\ (JS.truthy (AnthropicRequest.system request) = true ->
        exists content,
          head = [JObj [("role", JStr "system"); ("content", content)]]
          /\ (JS.typeof (AnthropicRequest.system request) = "string" ->
              content = AnthropicRequest.system request)
          /\ (JS.typeof (AnthropicRequest.system request) <> "string" ->
              content
              = JS.or (JS.opt (JS.prop (AnthropicRequest.system request) "0")
                              "text")
                      (JStr "")))
    /\ (JS.truthy (AnthropicRequest.system request) = false -> head = [])
    /\ List.length rest <= List.length (AnthropicRequest.messages request)
    /\ Forall chat_message rest.
Proof.
  intros Hreadable. unfold convertAnthropicToOllama.
  destruct (convert_messages_succeeds host _ Hreadable
              (system_message (AnthropicRequest.system request)))
    as [out Hout].
  rewrite Hout. cbn [bind].
  destruct (convert_messages_pushes host _ _ _ Hout) as (rest & -> & Hlen & Hrest).
  eexists. exists (system_message (AnthropicRequest.system request)), rest.
  split; [reflexivity |]. split; [reflexivity |].
  split; [| split; [| now split]].
  - intros Htruthy. unfold system_message, ollama_message. rewrite Htruthy.
    eexists. split; [reflexivity |].
    destruct (String.eqb_spec (JS.typeof (AnthropicRequest.system request))
                              "string") as [Hstring | Hother].
    + split; [reflexivity | contradiction].
    + split; [contradiction | reflexivity].
  - intros Hfalsy. unfold system_message. now rewrite Hfalsy.
Qed.

Lemma anthropic_request_becomes_chat_messages_witness :
  exists translated rest,
    convertAnthropicToOllama node
      (AnthropicRequest.mk (JStr "glm-5")
         [JObj [("role", JStr "tool"); ("content", JStr "42")];
          JObj [("role", JStr "assistant"); ("content", JArr [])]]
         (JNum 64) JUndefined JUndefined JUndefined (JStr "Be brief."))
    = Ok translated
    /\ JS.prop translated "messages"
       = JArr (JObj [("role", JStr "system"); ("content", JStr "Be brief.")]
               :: rest)
    /\ List.length rest <= 2
    /\ Forall chat_message rest.
Proof.
  destruct (anthropic_request_becomes_chat_messages node
              (AnthropicRequest.mk (JStr "glm-5")
                 [JObj [("role", JStr "tool"); ("content", JStr "42")];
                  JObj [("role", JStr "assistant"); ("content", JArr [])]]
                 (JNum 64) JUndefined JUndefined JUndefined (JStr "Be brief.")))
    as (translated & head & rest & Hok & Hmessages & Hsystem & _ & Hlen & Hrest).
  - repeat constructor; cbn; try discriminate; intros blocks [= <-]; constructor.
  - destruct (Hsystem eq_refl) as (content & Hhead & Hstring & _).
    exists translated, rest. rewrite Hmessages, Hhead, (Hstring eq_refl).
    repeat split; assumption.
Defined.

Section ToolBlocks.

Variable host : Host.

Lemma append_is_not_empty_r (a b : string) : b <> "" -> a ++ b <> "".
Proof.
  intros Hb. destruct a; [exact Hb | discriminate].
Qed.

Lemma got_is_prop (v : JValue) (k : string) (x : JValue) :
  JS.get v k = Ok x -> x = JS.prop v k.
Proof.
  unfold JS.get. destruct (JS.nullish v); [discriminate | now intros [= <-]].
Qed.

Lemma flatten_blocks_extends (blocks : list JValue) :
  forall content text,
    flatten_blocks host content blocks = Ok text ->
    exists added,
      text = content ++ added /\ (Exists tool_block blocks -> added <> "").
Proof.
  induction blocks as [| block blocks IH]; intros content text.
  - cbn. intros [= <-]. exists "". rewrite append_empty_r.
    split; [reflexivity |]. intros H. inversion H.
  - cbn [flatten_blocks].
    destruct (JS.get block "type") as [type | e] eqn:Hget; cbn [bind];
      [| discriminate].
    apply got_is_prop in Hget. subst type.
    destruct (JSOps.equals (JS.prop block "type") "text") eqn:Htext.
    { intros Hrest. destruct (IH _ _ Hrest) as (added & -> & Hadded).
      eexists. split; [apply append_associative |].
      intros Htool. apply append_is_not_empty_r. apply Hadded.
      inversion Htool as [? ? [Hb | Hb] | ? ? Hb]; subst;
        [rewrite Hb in Htext; discriminate
        | rewrite Hb in Htext; discriminate | exact Hb]. }
    destruct (JSOps.equals (JS.prop block "type") "tool_use") eqn:Huse.
    { intros Hrest. destruct (IH _ _ Hrest) as (added & -> & _).
      eexists. split; [apply append_associative |].
      intros _. cbn [append]. intros Hempty. discriminate Hempty. }
    destruct (JSOps.equals (JS.prop block "type") "tool_result") eqn:Hresult.
    { intros Hrest. destruct (IH _ _ Hrest) as (added & -> & _).
      eexists. split; [apply append_associative |].
      intros _. cbn [append]. intros Hempty. discriminate Hempty. }
    intros Hrest. destruct (IH _ _ Hrest) as (added & -> & Hadded).
    exists added. split; [reflexivity |].
    intros Htool. apply Hadded.
    inversion Htool as [? ? [Hb | Hb] | ? ? Hb]; subst;
      [rewrite Hb in Huse; discriminate
      | rewrite Hb in Hresult; discriminate | exact Hb].
Qed.

End ToolBlocks.

(** X16.  A message whose content array holds a tool-use or a tool-result
    block is never dropped by the schema-A request converter: whenever the
    request is translated, the upstream messages hold, after the
    translation of the messages before it, one message with the mapped
    role and a non-empty text. *)
Theorem message_with_a_tool_block_is_kept
        (host : Host) (request : AnthropicRequest.t)
        (before after blocks : list JValue) (msg translated : JValue) :
  AnthropicRequest.messages request = (before ++ msg :: after)%list ->
  JS.prop msg "content" = JArr blocks ->
  Exists tool_block blocks ->
  convertAnthropicToOllama host request = Ok translated ->
  exists earlier text later,
    convert_messages host (system_message (AnthropicRequest.system request))
                     before = Ok earlier
    /\ JS.prop translated "messages"
       = JArr (earlier ++ target_message msg text :: later)
    /\ text <> "".
Proof.
  intros Hmessages Hcontent Htool. unfold convertAnthropicToOllama.
  rewrite Hmessages, convert_messages_app.
  destruct (convert_messages host
              (system_message (AnthropicRequest.system request)) before)
    as [earlier | e]; cbn [bind]; [| discriminate].
  cbn [convert_messages]. unfold convert_message at 1.
  destruct (JS.get msg "role") as [role | e] eqn:Hrole; cbn [bind];
    [| discriminate].
  apply got_is_prop in Hrole. subst role.
  rewrite Hcontent. cbn [JS.typeof]. cbn [String.eqb Ascii.eqb Bool.eqb].
  destruct (flatten_blocks host "" blocks) as [text | e] eqn:Hflat;
    cbn [bind]; [| discriminate].
  destruct (flatten_blocks_extends host blocks "" text Hflat)
    as (added & Htext & Hadded).
  cbn [append] in Htext. subst added. specialize (Hadded Htool).
  cbn [JS.truthy].
  destruct (text =? "") eqn:Hempty;
    [apply String.eqb_eq in Hempty; contradiction |].
  cbn [negb bind].
  destruct (convert_messages host
              (earlier ++ [ollama_message (JStr (ollama_role (JS.prop msg "role")))
                             (JStr text)]) after) as [out | e] eqn:Hout;
    cbn [bind]; [| discriminate].
  destruct (convert_messages_pushes host _ _ _ Hout) as (later & -> & _).
  intros [= <-]. exists earlier, text, later.
  split; [reflexivity |]. split; [| exact Hadded].
  rewrite <- List.app_assoc. reflexivity.
Qed.

Lemma message_with_a_tool_block_is_kept_witness :
  exists earlier text later,
    convert_messages node (system_message JUndefined)
      [JObj [("role", JStr "user"); ("content", JStr "What is 6 x 7?")]]
    = Ok earlier
    /\ JS.prop
         (JObj [("model", JStr "glm-5");
                ("messages",
                  JArr [JObj [("role", JStr "user");
                              ("content", JStr "What is 6 x 7?")];
                        JObj [("role", JStr "user");
                              ("content", JStr "[tool_result: 42]")]]);
                ("stream", JBool false);
                ("options", JObj [("num_predict", JNum 64)])])
         "messages"
       = JArr (earlier
               ++ target_message
                    (JObj [("role", JStr "user");
                           ("content",
                             JArr [JObj [("type", JStr "tool_result");
                                         ("content", JStr "42")]])])
                    text
               :: later)
    /\ text <> "".
Proof.
  apply (message_with_a_tool_block_is_kept node
           (AnthropicRequest.mk (JStr "glm-5")
              [JObj [("role", JStr "user"); ("content", JStr "What is 6 x 7?")];
               JObj [("role", JStr "user");
                     ("content",
                       JArr [JObj [("type", JStr "tool_result");
                                   ("content", JStr "42")]])]]
              (JNum 64) JUndefined JUndefined JUndefined JUndefined)
           [JObj [("role", JStr "user"); ("content", JStr "What is 6 x 7?")]]
           []
           [JObj [("type", JStr "tool_result"); ("content", JStr "42")]]).
  - reflexivity.
  - reflexivity.
  - constructor. right. reflexivity.
  - vm_compute. reflexivity.
Defined.

Section OpenAIRequestShape.

Lemma map_result_succeeds {A B} (f : A -> Result B) (good : A -> Prop)
      (related : A -> B -> Prop) (xs : list A) :
  (forall x, good x -> exists y, f x = Ok y /\ related x y) ->
  Forall good xs ->
  exists ys, map_result f xs = Ok ys /\ Forall2 related xs ys.
Proof.
  intros Hf. induction 1 as [| x xs Hx _ (ys & Hys & Hrel)].
  - exists []. split; [reflexivity | constructor].
  - destruct (Hf x Hx) as (y & Hy & Hxy).
    exists (y :: ys). cbn [map_result]. rewrite Hy, Hys. cbn [bind].
    split; [reflexivity | now constructor].
Qed.

Lemma convert_part_succeeds (part : JValue) :
  JS.nullish part = false -> exists text, convert_part part = Ok text /\ True.
Proof.
  intros Hpart. unfold convert_part.
  rewrite (get_of_object _ "type" Hpart). cbn [bind].
  destruct (JSOps.equals (JS.prop part "type") "text");
    [eexists; split; [reflexivity | exact I] |].
  destruct (JSOps.equals (JS.prop part "type") "image_url");
    eexists; split; reflexivity || exact I.
Qed.

Lemma convert_openai_message_keeps_role (msg : JValue) :
  readable_message msg ->
  exists m,
    convert_openai_message msg = Ok m
    /\ (JS.prop m "role" = JS.prop msg "role"
        /\ JS.typeof (JS.prop m "content") = "string"
        /\ (JS.typeof (JS.prop msg "content") = "string" ->
            JS.prop m "content" = JS.prop msg "content")).
Proof.
  intros [Hmsg Hparts]. unfold convert_openai_message.
  rewrite (get_of_object _ "content" Hmsg). cbn [bind].
  destruct (JS.typeof (JS.prop msg "content") =? "string") eqn:Htype.
  - apply String.eqb_eq in Htype. cbn [bind]. eexists.
    split; [reflexivity |]. unfold ollama_message.
    repeat split; [exact Htype].
  - assert (Hnot : JS.typeof (JS.prop msg "content") <> "string")
      by now apply String.eqb_neq.
    destruct (JS.prop msg "content") as [| | b | n | | inf | s | parts | fs];
      cbn [bind];
      try (eexists; split; [reflexivity |]; unfold ollama_message;
           repeat split; intros Hstring; now destruct Hnot).
    destruct (map_result_succeeds convert_part
                (fun part => JS.nullish part = false) (fun _ _ => True) parts
                convert_part_succeeds (Hparts parts eq_refl))
      as (texts & -> & _).
    cbn [bind]. eexists. split; [reflexivity |]. unfold ollama_message.
    repeat split. intros Hstring. now destruct Hnot.
Qed.

End OpenAIRequestShape.

(** X17.  A schema-B request whose [messages] is an array of readable
    messages is always translated, into exactly one upstream message per
    source message and in the same order; each keeps the role of its
    source as it is, its content is a string, and a content that was a
    string is kept unchanged, the empty string included. *)
Theorem openai_request_keeps_every_message
        (request : OpenAIRequest.t) (msgs : list JValue) :
  OpenAIRequest.messages request = JArr msgs ->
  Forall readable_message msgs ->
  exists translated out,
    convertOpenAIToOllama request = Ok translated
    /\ JS.prop translated "messages" = JArr out
    /\ Forall2 (fun msg m =>
                  JS.prop m "role" = JS.prop msg "role"
                  /\ JS.typeof (JS.prop m "content") = "string"
                  /\ (JS.typeof (JS.prop msg "content") = "string" ->
                      JS.prop m "content" = JS.prop msg "content"))
               msgs out.
Proof.
  intros Hmessages Hreadable. unfold convertOpenAIToOllama.
  rewrite Hmessages. cbn [JS.or JS.truthy].
  destruct (map_result_succeeds convert_openai_message readable_message _ msgs
              convert_openai_message_keeps_role Hreadable)
    as (out & -> & Hout).
  cbn [bind]. eexists. exists out. split; [reflexivity |].
  split; [reflexivity | exact Hout].
Qed.

Lemma openai_request_keeps_every_message_witness :
  exists translated out,
    convertOpenAIToOllama
      (OpenAIRequest.mk (JStr "glm-5")
         (JArr [JObj [("role", JStr "tool"); ("content", JStr "")];
                JObj [("role", JStr "user");
                      ("content",
                        JArr [JObj [("type", JStr "text");
                                    ("text", JStr "Hi")]])]])
         JUndefined JUndefined JUndefined JUndefined)
    = Ok translated
    /\ JS.prop translated "messages" = JArr out
    /\ Forall2 (fun msg m =>
                  JS.prop m "role" = JS.prop msg "role"
                  /\ JS.typeof (JS.prop m "content") = "string"
                  /\ (JS.typeof (JS.prop msg "content") = "string" ->
                      JS.prop m "content" = JS.prop msg "content"))
               [JObj [("role", JStr "tool"); ("content", JStr "")];
                JObj [("role", JStr "user");
                      ("content",
                        JArr [JObj [("type", JStr "text");
                                    ("text", JStr "Hi")]])]]
               out.
Proof.
  apply (openai_request_keeps_every_message
           (OpenAIRequest.mk (JStr "glm-5")
              (JArr [JObj [("role", JStr "tool"); ("content", JStr "")];
                     JObj [("role", JStr "user");
                           ("content",
                             JArr [JObj [("type", JStr "text");
                                         ("text", JStr "Hi")]])]])
              JUndefined JUndefined JUndefined JUndefined)).
  - reflexivity.
  - repeat constructor; cbn; try discriminate.
    intros blocks [= <-]. repeat constructor.
Defined.

Lemma defined_or_undefined (v : JValue) :
  JSOps.defined v = true \/ v = JUndefined.
Proof.
  destruct v; (now left) || now right.
Qed.

Lemma build_options_reads (temperature top_p max_tokens : JValue) :
  exists fields,
    build_options temperature top_p max_tokens = JObj fields
    /\ JS.lookup "temperature" fields = temperature
    /\ JS.lookup "top_p" fields = top_p
    /\ JS.lookup "num_predict" fields = max_tokens
    /\ JS.lookup "max_tokens" fields = JUndefined
    /\ Forall (fun field => JSOps.defined (snd field) = true) fields.
Proof.
  unfold build_options. eexists. split; [reflexivity |].
  destruct (defined_or_undefined temperature) as [Ht | ->];
    destruct (defined_or_undefined top_p) as [Hp | ->];
    destruct (defined_or_undefined max_tokens) as [Hm | ->];
    rewrite ?Ht, ?Hp, ?Hm; cbn [JSOps.defined List.app];
    repeat split; repeat constructor; assumption.
Qed.

(** X18.  Both request converters hand the sampling parameters on under
    [options]: [temperature] and [top_p] under their own names,
    [max_tokens] under [num_predict] and never under [max_tokens]; a
    parameter the request leaves undefined is not set at all, so every
    field of [options] holds a defined value.  The model is passed
    through; [stream] is [false] for schema A, and for schema B what the
    request asked for or [false]. *)
Theorem sampling_parameters_become_options :
  (forall (host : Host) (request : AnthropicRequest.t) (translated : JValue),
      convertAnthropicToOllama host request = Ok translated ->
      option_of translated "temperature" = AnthropicRequest.temperature request
      /\ option_of translated "top_p" = AnthropicRequest.top_p request
      /\ option_of translated "num_predict" = AnthropicRequest.max_tokens request
      /\ option_of translated "max_tokens" = JUndefined
      /\ (forall fields,
             JS.prop translated "options" = JObj fields ->
             Forall (fun field => JSOps.defined (snd field) = true) fields)
      /\ JS.prop translated "model" = AnthropicRequest.model request
      /\ JS.prop translated "stream" = JBool false)
  /\ (forall (request : OpenAIRequest.t) (translated : JValue),
         convertOpenAIToOllama request = Ok translated ->
         option_of translated "temperature" = OpenAIRequest.temperature request
         /\ option_of translated "top_p" = OpenAIRequest.top_p request
         /\ option_of translated "num_predict" = OpenAIRequest.max_tokens request
         /\ option_of translated "max_tokens" = JUndefined
         /\ (forall fields,
                JS.prop translated "options" = JObj fields ->
                Forall (fun field => JSOps.defined (snd field) = true) fields)
         /\ JS.prop translated "model" = OpenAIRequest.model request
         /\ JS.prop translated "stream"
            = JS.or (OpenAIRequest.stream request) (JBool false)).
Proof.
  split.
  - intros host request translated. unfold convertAnthropicToOllama.
    destruct (convert_messages host _ _) as [out | e]; cbn [bind];
      [| discriminate].
    intros [= <-]. unfold option_of.
    change (JS.prop (JObj ?fs) "options")
      with (build_options (AnthropicRequest.temperature request)
              (AnthropicRequest.top_p request)
              (AnthropicRequest.max_tokens request)).
    destruct (build_options_reads (AnthropicRequest.temperature request)
                (AnthropicRequest.top_p request)
                (AnthropicRequest.max_tokens request))
      as (fields & -> & Ht & Hp & Hm & Hnone & Hall).
    cbn [JS.prop]. repeat split; try assumption; try reflexivity.
    now intros ? [= <-].
  - intros request translated. unfold convertOpenAIToOllama.
    destruct (match JS.or (OpenAIRequest.messages request) (JArr []) with
              | JArr msgs => map_result convert_openai_message msgs
              | _ => Throw (mkError "(messages || []).map is not a function")
              end) as [out | e]; cbn [bind]; [| discriminate].
    intros [= <-]. unfold option_of.
    change (JS.prop (JObj ?fs) "options")
      with (build_options (OpenAIRequest.temperature request)
              (OpenAIRequest.top_p request)
              (OpenAIRequest.max_tokens request)).
    destruct (build_options_reads (OpenAIRequest.temperature request)
                (OpenAIRequest.top_p request)
                (OpenAIRequest.max_tokens request))
      as (fields & -> & Ht & Hp & Hm & Hnone & Hall).
    cbn [JS.prop]. repeat split; try assumption; try reflexivity.
    now intros ? [= <-].
Qed.

Lemma sampling_parameters_become_options_witness :
  option_of
    (JObj [("model", JStr "glm-5"); ("messages", JArr []);
           ("stream", JBool false);
           ("options", JObj [("num_predict", JNum 64)])])
    "num_predict"
  = JNum 64.
Proof.
  exact (proj1 (proj2 (proj2
           (proj1 sampling_parameters_become_options node
              (AnthropicRequest.mk (JStr "glm-5") [] (JNum 64) JUndefined
                 JUndefined JUndefined JUndefined)
              _ eq_refl)))).
Defined.

(* ------------------------------------------------------------------ *)
(** ** Token counts of the translated responses *)

(** X19.  For an upstream response whose message content is a string, the
    schema-A response carries that string as its text, and reports as
    output tokens the upstream [eval_count] when that is truthy and the
    number of characters of the text otherwise (a missing or zero count is
    replaced by the length of the text); input tokens are the upstream
    [prompt_eval_count] or zero. *)
Theorem missing_eval_count_is_estimated_by_length
        (now : Z) (rnd : string) (data model response : JValue) (c : string) :
  convertOllamaToAnthropic now rnd data model = Ok response ->
  JS.prop (JS.prop data "message") "content" = JStr c ->
  anthropic_text response = JStr c
  /\ (JS.truthy (JS.prop data "eval_count") = true ->
      usage response "output_tokens" = JS.prop data "eval_count")
  /\ (JS.truthy (JS.prop data "eval_count") = false ->
      usage response "output_tokens" = JNum (Z.of_nat (String.length c)))
  /\ usage response "input_tokens"
     = JS.or (JS.prop data "prompt_eval_count") (JNum 0).
Proof.
  unfold convertOllamaToAnthropic, destructure.
  destruct (JS.nullish data); cbn [bind]; [discriminate |].
  intros [= <-] Hcontent.
  rewrite (string_content_has_a_truthy_holder _ _ Hcontent), Hcontent.
  cbn [JS.typeof]. cbn [String.eqb Ascii.eqb Bool.eqb].
  unfold anthropic_text, usage.
  split; [reflexivity |].
  change (JS.prop (JS.prop (JObj ?fs) "usage") "output_tokens")
    with (JS.or (JS.or (JS.prop data "eval_count")
                       (JS.prop (JStr c) "length")) (JNum 0)).
  split; [| split; [| reflexivity]].
  - intros Hcount. unfold JS.or at 2. rewrite Hcount.
    unfold JS.or. now rewrite Hcount.
  - intros Hcount. unfold JS.or at 2. rewrite Hcount.
    change (JS.prop (JStr c) "length") with (JNum (Z.of_nat (String.length c))).
    unfold JS.or. cbn [JS.truthy].
    destruct (Z.of_nat (String.length c) =? 0)%Z eqn:Hzero; cbn [negb];
      [| reflexivity].
    apply Z.eqb_eq in Hzero. now rewrite Hzero.
Qed.

Lemma missing_eval_count_is_estimated_by_length_witness :
  usage
    (JObj [("id", JStr "msg_0_r"); ("type", JStr "message");
           ("role", JStr "assistant");
           ("content", JArr [JObj [("type", JStr "text");
                                   ("text", JStr "Hello")]]);
           ("model", JStr "glm-5"); ("stop_reason", JStr "end_turn");
           ("stop_sequence", JNull);
           ("usage", JObj [("input_tokens", JNum 0);
                           ("output_tokens", JNum 5)])])
    "output_tokens"
  = JNum 5.
Proof.
  exact (proj1 (proj2 (proj2
           (missing_eval_count_is_estimated_by_length 0 "r"
              (JObj [("message", JObj [("role", JStr "assistant");
                                       ("content", JStr "Hello")]);
                     ("done", JBool true)])
              (JStr "glm-5") _ "Hello" eq_refl eq_refl))) eq_refl).
Defined.

(** Beyond [2^53] the sum is rounded, as the addition of doubles rounds
    it: [9007199254740992 + 1] is [9007199254740992]. *)
Lemma total_beyond_the_safe_integers :
  JSOps.add (JNum 9007199254740992) (JNum 1) = JNum 9007199254740992.
Proof.
  vm_compute. reflexivity.
Qed.

(** X20.  The schema-B response reports the upstream counters as they
    are and their sum as the total: with numeric [prompt_eval_count] and
    [eval_count] whose sum is below [2^53] in magnitude, so that the
    addition rounds nothing, the total is their sum, and without either
    counter all three figures are zero, whatever the text. *)
Theorem total_tokens_is_the_sum
        (now : Z) (rnd : string) (data model completion : JValue) :
  convertOllamaToOpenAI now rnd data model = Ok completion ->
  (forall p e,
      JS.prop data "prompt_eval_count" = JNum p ->
      JS.prop data "eval_count" = JNum e ->
      (Z.abs (p + e) < 2 ^ 53)%Z ->
      usage completion "prompt_tokens" = JNum p
      /\ usage completion "completion_tokens" = JNum e
      /\ usage completion "total_tokens" = JNum (p + e))
  /\ (JS.prop data "prompt_eval_count" = JUndefined ->
      JS.prop data "eval_count" = JUndefined ->
      usage completion "prompt_tokens" = JNum 0
      /\ usage completion "completion_tokens" = JNum 0
      /\ usage completion "total_tokens" = JNum 0).
Proof.
  unfold convertOllamaToOpenAI, destructure.
  destruct (JS.nullish data); cbn [bind]; [discriminate |].
  intros [= <-]. unfold usage.
  change (JS.prop (JS.prop (JObj ?fs) "usage") "prompt_tokens")
    with (JS.or (JS.prop data "prompt_eval_count") (JNum 0)).
  change (JS.prop (JS.prop (JObj ?fs) "usage") "completion_tokens")
    with (JS.or (JS.prop data "eval_count") (JNum 0)).
  change (JS.prop (JS.prop (JObj ?fs) "usage") "total_tokens")
    with (JSOps.add (JS.or (JS.prop data "prompt_eval_count") (JNum 0))
                    (JS.or (JS.prop data "eval_count") (JNum 0))).
  assert (Hnum : forall n, JS.or (JNum n) (JNum 0) = JNum n).
  { intros n. unfold JS.or. cbn [JS.truthy].
    destruct (n =? 0)%Z eqn:Hzero; cbn [negb]; [| reflexivity].
    apply Z.eqb_eq in Hzero. now subst n. }
  split.
  - intros p e -> -> Hsafe. rewrite !Hnum. repeat split.
    change (JSOps.add (JNum p) (JNum e)) with (JS.number (p + e)).
    now apply number_of_a_safe_integer.
  - intros -> ->. repeat split; reflexivity.
Qed.

Lemma total_tokens_is_the_sum_witness :
  usage
    (JObj [("id", JStr "chatcmpl-0-r"); ("object", JStr "chat.completion");
           ("created", JNum 0); ("model", JStr "glm-5");
           ("choices",
             JArr [JObj [("index", JNum 0);
                         ("message", JObj [("role", JStr "assistant");
                                           ("content", JStr "Hello")]);
                         ("finish_reason", JStr "stop")]]);
           ("usage", JObj [("prompt_tokens", JNum 12);
                           ("completion_tokens", JNum 30);
                           ("total_tokens", JNum 42)])])
    "total_tokens"
  = JNum 42.
Proof.
  exact (proj2 (proj2
           (proj1 (total_tokens_is_the_sum 0 "r"
                     (JObj [("message", JObj [("role", JStr "assistant");
                                              ("content", JStr "Hello")]);
                            ("done", JBool true);
                            ("prompt_eval_count", JNum 12);
                            ("eval_count", JNum 30)])
                     (JStr "glm-5") _ eq_refl)
                  12%Z 30%Z eq_refl eq_refl ltac:(vm_compute; reflexivity)))).
Defined.

(* ------------------------------------------------------------------ *)
(** ** An upstream that keeps failing, and how the failure is reported *)

Lemma includes_in_the_tail (before s sub : string) :
  JS.includes s sub = true -> JS.includes (before ++ s) sub = true.
Proof.
  intros Hs. induction before as [| c before IH]; [exact Hs |].
  cbn [append JS.includes]. rewrite IH. apply Bool.orb_true_r.
Qed.

(** X21.  When the current key keeps being answered with one and the same
    failing status other than 401 and 429, both non-streaming senders ask
    three times with that same key, never rotating, and raise
    [API error <status>: <body>]; they pause between the attempts only if
    that message looks like a network error.  The front door then reads
    the kind of error off the text: a body that merely contains [401] or
    [authentication_error] turns the failure into an authentication
    error with status 401 and a fixed message. *)
Theorem failing_status_is_asked_three_times
        (host : Host) (upstream : Upstream) (key : string) (answer : Response)
        (w : World)
        (anthropicRequest : AnthropicRequest.t) (openaiRequest : OpenAIRequest.t)
        (a o : JValue) :
  Config.getApiKey (config w) = Some key ->
  key <> "" ->
  (forall n, upstream n key = Resolves answer) ->
  ok answer = false ->
  status answer <> 401%Z ->
  status answer <> 429%Z ->
  convertAnthropicToOllama host anthropicRequest = Ok a ->
  convertOpenAIToOllama openaiRequest = Ok o ->
  let error :=
    mkError ("API error " ++ JS.Z_to_string (status answer) ++ ": "
             ++ text answer) in
  let after :=
    if isNetworkError error
    then fetched key
           (sleep (JNum RETRY_DELAY_MS)
              (fetched key (sleep (JNum RETRY_DELAY_MS) (fetched key w))))
    else fetched key (fetched key (fetched key w)) in
  sendMessage host upstream anthropicRequest w = (Throw error, after)
  /\ sendOpenAIMessage host upstream openaiRequest w = (Throw error, after)
  /\ config after = config w
  /\ (JS.includes (text answer) "401" = true
      \/ JS.includes (text answer) "authentication_error" = true ->
      parseError error
      = mkParsedError "authentication_error" 401
          "Authentication failed. Please check your OLLAMA_API_KEY.").
Proof.
  intros Hcurrent Hkey Hanswer Hok H401 H429 Ha Ho error after.
  assert (Hturn : forall convert attempt w',
             config w' = config w ->
             try_block host upstream convert attempt w'
             = (Thrown error, fetched key w')).
  { intros convert attempt w' Hconfig.
    apply (try_block_on_failing_status host upstream key answer w');
      try assumption; [now rewrite Hconfig | apply Hanswer]. }
  split; [| split; [| split]].
  - unfold sendMessage. rewrite Ha.
    apply same_error_uses_the_budget. apply Hturn.
  - unfold sendOpenAIMessage. rewrite Ho.
    apply same_error_uses_the_budget. apply Hturn.
  - unfold after. destruct (isNetworkError error); reflexivity.
  - intros Hbody. unfold parseError.
    replace (JS.includes (message error) "401"
             || JS.includes (message error) "authentication_error")
      with true; [reflexivity |].
    symmetry. apply Bool.orb_true_iff. unfold error. cbn [message].
    rewrite <- !append_associative.
    destruct Hbody as [Hbody | Hbody]; [left | right];
      now apply includes_in_the_tail.
Qed.

Lemma failing_status_is_asked_three_times_witness :
  let upstream : Upstream :=
    fun _ _ => Resolves (mkResponse 500 None "upstream timeout after 4012 ms") in
  let sent :=
    sendMessage node upstream hello_anthropic (start (Config.create ["a"; "b"])) in
  fst sent = Throw (mkError "API error 500: upstream timeout after 4012 ms")
  /\ trace (snd sent) = [Fetch "a"; Fetch "a"; Fetch "a"]
  /\ reported_as (fst sent) = Some "authentication_error".
Proof.
  cbv zeta.
  destruct (failing_status_is_asked_three_times node
              (fun _ _ => Resolves (mkResponse 500 None
                                      "upstream timeout after 4012 ms"))
              "a" (mkResponse 500 None "upstream timeout after 4012 ms")
              (start (Config.create ["a"; "b"]))
              hello_anthropic hello_openai
              (JObj [("model", JStr "glm-5");
                     ("messages",
                       JArr [JObj [("role", JStr "user");
                                   ("content", JStr "Hello")]]);
                     ("stream", JBool false);
                     ("options", JObj [("num_predict", JNum 4096)])])
              (JObj [("model", JStr "glm-5");
                     ("messages",
                       JArr [JObj [("role", JStr "user");
                                   ("content", JStr "Hello")]]);
                     ("stream", JBool false);
                     ("options", JObj [])])
              eq_refl ltac:(discriminate) ltac:(reflexivity) eq_refl
              ltac:(discriminate) ltac:(discriminate) eq_refl eq_refl)
    as (S & _ & _ & _).
  rewrite S. repeat split; reflexivity.
Defined.

(* ------------------------------------------------------------------ *)
(** ** Opening the connection of a streaming call *)

Section Connection.

Variable host : Host.
Variable upstream : Upstream.
Variable body_of : Response -> option Body.

(** The count of turns is no part of the behaviour: any count that covers
    the distance of [keyAttempt] from [bound] gives the same outcome. *)
Lemma connect_turns_suffice (bound len : nat) :
  forall turns turns' keyAttempt response w,
    bound <= turns + keyAttempt ->
    bound <= turns' + keyAttempt ->
    Streaming.connect upstream bound len turns keyAttempt response w
    = Streaming.connect upstream bound len turns' keyAttempt response w.
Proof.
  induction turns as [| turns IH]; intros turns' keyAttempt response w H H'.
  - assert (Hout : (keyAttempt <? bound)%nat = false) by (apply Nat.ltb_ge; lia).
    destruct turns'; cbn [Streaming.connect]; now rewrite Hout.
  - destruct turns' as [| turns'].
    + assert (Hout : (keyAttempt <? bound)%nat = false) by (apply Nat.ltb_ge; lia).
      cbn [Streaming.connect]. now rewrite Hout.
    + cbn [Streaming.connect].
      destruct (keyAttempt <? bound)%nat; cbn [negb]; [| reflexivity].
      destruct (fetchWithKeyRotation upstream w) as [[answer | error] w1].
      * destruct (ok answer); [reflexivity |].
        destruct ((status answer =? 401)%Z || (status answer =? 429)%Z);
          cbn [andb].
        -- destruct (S keyAttempt <? len)%nat; [apply IH; lia |].
           destruct (Streaming.last_key len (S keyAttempt));
             [reflexivity | apply IH; lia].
        -- destruct (Streaming.last_key len keyAttempt);
             [reflexivity | apply IH; lia].
      * destruct (Streaming.last_key len keyAttempt);
          [reflexivity | apply IH; lia].
Qed.

Lemma not_the_last_key (len keyAttempt : nat) :
  Streaming.last_key len keyAttempt = false -> S keyAttempt < len.
Proof.
  unfold Streaming.last_key. intros H. apply Z.leb_gt in H. lia.
Qed.

Lemma the_last_key (len keyAttempt : nat) :
  Streaming.last_key len keyAttempt = true -> len <= S keyAttempt.
Proof.
  unfold Streaming.last_key. intros H. apply Z.leb_le in H. lia.
Qed.

(** What the loop costs and what it leaves: at most one rotation per
    turn, and the pool as it was. *)
Lemma connect_effects (bound len : nat) :
  forall turns keyAttempt response w,
    let out :=
      Streaming.connect upstream bound len turns keyAttempt response w in
    let k := List.length (Config.apiKeys (config w)) in
    calls w <= calls (snd out) <= calls w + turns * Nat.max 1 k
    /\ Config.apiKeys (config (snd out)) = Config.apiKeys (config w).
Proof.
  induction turns as [| turns IH]; intros keyAttempt response w;
    cbn [Streaming.connect].
  - destruct (negb (keyAttempt <? bound)%nat); cbn [fst snd]; split;
      lia || reflexivity.
  - destruct (negb (keyAttempt <? bound)%nat); cbn [fst snd];
      [split; lia || reflexivity |].
    pose proof (fetch_effects upstream w) as (Hcalls & Hkeys & _).
    assert (Hnext : forall keyAttempt' response' w1,
               calls w <= calls w1
                 <= calls w + Nat.max 1 (List.length (Config.apiKeys (config w))) ->
               Config.apiKeys (config w1) = Config.apiKeys (config w) ->
               let out :=
                 Streaming.connect upstream bound len turns keyAttempt'
                                   response' w1 in
               calls w <= calls (snd out)
                 <= calls w
                    + S turns * Nat.max 1 (List.length (Config.apiKeys (config w)))
               /\ Config.apiKeys (config (snd out)) = Config.apiKeys (config w)).
    { intros keyAttempt' response' w1 C K. cbv zeta.
      destruct (IH keyAttempt' response' w1) as (C' & K').
      rewrite K in C', K'. split; [lia | exact K']. }
    destruct (fetchWithKeyRotation upstream w) as [[answer | error] w1];
      cbn [snd] in Hcalls, Hkeys.
    + destruct (ok answer); [cbn [fst snd]; split; [lia | exact Hkeys] |].
      destruct ((status answer =? 401)%Z || (status answer =? 429)%Z);
        cbn [andb].
      * destruct (S keyAttempt <? len)%nat; [now apply Hnext |].
        destruct (Streaming.last_key len (S keyAttempt)); [| now apply Hnext].
        cbn [fst snd]. split; [lia | exact Hkeys].
      * destruct (Streaming.last_key len keyAttempt); [| now apply Hnext].
        cbn [fst snd]. split; [lia | exact Hkeys].
    + destruct (Streaming.last_key len keyAttempt); [| now apply Hnext].
      cbn [fst snd]. split; [lia | exact Hkeys].
Qed.

(** Once a turn has been taken, the loop is left without an exception
    only by [break], that is with a 2xx response in hand. *)
Lemma connect_breaks_on_ok (bound len : nat) :
  len <= bound ->
  forall turns keyAttempt response w result w',
    keyAttempt < len ->
    bound <= turns + keyAttempt ->
    Streaming.connect upstream bound len turns keyAttempt response w
    = (Ok result, w') ->
    exists answer, result = Some answer /\ ok answer = true.
Proof.
  intros Hbound.
  induction turns as [| turns IH];
    intros keyAttempt response w result w' Hkey Hturns; [lia |].
  cbn [Streaming.connect].
  assert (Hin : (keyAttempt <? bound)%nat = true) by (apply Nat.ltb_lt; lia).
  rewrite Hin. cbn [negb].
  destruct (fetchWithKeyRotation upstream w) as [[answer | error] w1].
  - destruct (ok answer) eqn:Hok.
    { intros [= <- <-]. now exists answer. }
    destruct ((status answer =? 401)%Z || (status answer =? 429)%Z);
      cbn [andb].
    + destruct (S keyAttempt <? len)%nat eqn:Hnext.
      * apply Nat.ltb_lt in Hnext. apply IH; [exact Hnext | lia].
      * destruct (Streaming.last_key len (S keyAttempt)) eqn:Hlast;
          [discriminate |].
        apply not_the_last_key in Hlast. apply IH; lia.
    + destruct (Streaming.last_key len keyAttempt) eqn:Hlast;
        [discriminate |].
      apply not_the_last_key in Hlast. apply IH; lia.
  - destruct (Streaming.last_key len keyAttempt) eqn:Hlast; [discriminate |].
    apply not_the_last_key in Hlast. apply IH; lia.
Qed.

End Connection.

(** X22.  A streaming call, whatever the upstream does, issues at most
    [k * k] fetches over a pool of [k] keys (in openai-client.js at most
    one over an empty pool), one rotation through the pool per key
    attempt, and leaves the pool as it was. *)
Theorem a_streaming_call_fetches_at_most_k_times_per_key
        (host : Host) (upstream : Upstream) (body_of : Response -> option Body)
        (anthropicRequest : AnthropicRequest.t) (openaiRequest : OpenAIRequest.t)
        (w : World) :
  let k := List.length (Config.apiKeys (config w)) in
  let wa :=
    snd (Streaming.sendMessageStream host upstream body_of anthropicRequest w) in
  let wo :=
    snd (Streaming.sendOpenAIMessageStream host upstream body_of openaiRequest w) in
  calls w <= calls wa <= calls w + k * k
  /\ Config.apiKeys (config wa) = Config.apiKeys (config w)
  /\ calls w <= calls wo <= calls w + Nat.max 1 k * Nat.max 1 k
  /\ Config.apiKeys (config wo) = Config.apiKeys (config w).
Proof.
  intros k wa wo.
  assert (Ha : calls w <= calls wa <= calls w + k * Nat.max 1 k
               /\ Config.apiKeys (config wa) = Config.apiKeys (config w)).
  { unfold wa, Streaming.sendMessageStream, Streaming.failed, Config.getApiKeys.
    fold k.
    destruct (convertAnthropicToOllama host anthropicRequest);
      [| cbn [snd]; split; lia || reflexivity].
    pose proof (connect_effects upstream k k k 0 None w) as Hloop.
    cbv zeta in Hloop. fold k in Hloop.
    destruct (Streaming.connect upstream k k k 0 None w)
      as [[[answer |] | error] w1]; cbn [snd] in *; try exact Hloop.
    destruct (negb (ok answer)); [exact Hloop |].
    destruct (body_of answer); exact Hloop. }
  assert (Ho : calls w <= calls wo <= calls w + Nat.max k 1 * Nat.max 1 k
               /\ Config.apiKeys (config wo) = Config.apiKeys (config w)).
  { unfold wo, Streaming.sendOpenAIMessageStream, Streaming.failed,
      Config.getApiKeys. fold k.
    destruct (convertOpenAIToOllama openaiRequest);
      [| cbn [snd]; split; lia || reflexivity].
    pose proof (connect_effects upstream (Nat.max k 1) k (Nat.max k 1) 0 None w)
      as Hloop.
    cbv zeta in Hloop. fold k in Hloop.
    destruct (Streaming.connect upstream (Nat.max k 1) k (Nat.max k 1) 0 None w)
      as [[[answer |] | error] w1]; cbn [snd] in *; try exact Hloop.
    destruct (negb (ok answer)); [exact Hloop |].
    destruct (body_of answer); exact Hloop. }
  destruct Ha as [Ha Ha']. destruct Ho as [Ho Ho'].
  replace (Nat.max k 1) with (Nat.max 1 k) in Ho by lia.
  repeat split; try assumption; try lia.
  destruct k; cbn [Nat.max] in Ha; lia.
Qed.

Section NoKey.

Variable host : Host.
Variable upstream : Upstream.
Variable body_of : Response -> option Body.

Lemma empty_pool_throws (w : World) :
  Config.apiKeys (config w) = [] ->
  fetchWithKeyRotation upstream w
  = (Throw (mkError "No API key configured"), w).
Proof.
  intros Hkeys.
  unfold fetchWithKeyRotation, Config.getApiKeys, Config.getApiKey.
  rewrite Hkeys. cbn [List.length key_attempts].
  unfold Config.getApiKey. rewrite Hkeys. reflexivity.
Qed.

End NoKey.

(** X23.  Without a key the two streaming senders fail in different ways
    before anything is fetched: in client.js the loop is not entered and
    reading [ok] of the response that was never assigned raises a
    TypeError, in openai-client.js the loop is entered once and
    "No API key configured" is raised.  The front door reports both as an
    [api_error].  With at least one key the loop of either sender is left
    without an exception only with a 2xx response in hand, so the status
    check that follows the loop never fires. *)
Theorem streaming_without_a_key
        (host : Host) (upstream : Upstream) (body_of : Response -> option Body)
        (anthropicRequest : AnthropicRequest.t) (openaiRequest : OpenAIRequest.t)
        (a o : JValue) (w : World) :
  convertAnthropicToOllama host anthropicRequest = Ok a ->
  convertOpenAIToOllama openaiRequest = Ok o ->
  let k := List.length (Config.apiKeys (config w)) in
  let type_error :=
    mkError "Cannot read properties of undefined (reading 'ok')" in
  let missing := mkError "No API key configured" in
  (k = 0 ->
   Streaming.sendMessageStream host upstream body_of anthropicRequest w
   = Streaming.failed type_error w
   /\ Streaming.sendOpenAIMessageStream host upstream body_of openaiRequest w
      = Streaming.failed missing w
   /\ errorType (parseError type_error) = "api_error"
   /\ errorType (parseError missing) = "api_error")
  /\ (k <> 0 ->
      forall bound result w',
        bound = k \/ bound = Nat.max k 1 ->
        Streaming.connect upstream bound k bound 0 None w = (Ok result, w') ->
        exists answer, result = Some answer /\ ok answer = true).
Proof.
  intros Ha Ho k type_error missing. split.
  - intros Hk.
    assert (Hkeys : Config.apiKeys (config w) = [])
      by (apply List.length_zero_iff_nil; exact Hk).
    split; [| split; [| split; reflexivity]].
    + unfold Streaming.sendMessageStream, Config.getApiKeys.
      rewrite Ha, Hkeys. reflexivity.
    + unfold Streaming.sendOpenAIMessageStream, Config.getApiKeys.
      rewrite Ho, Hkeys. cbn [List.length Nat.max Streaming.connect].
      cbn [Nat.ltb Nat.leb negb].
      rewrite (empty_pool_throws upstream w Hkeys). reflexivity.
  - intros Hk bound result w' Hbound.
    apply (connect_breaks_on_ok upstream bound k); destruct Hbound; lia.
Qed.

Lemma streaming_without_a_key_witness :
  let upstream : Upstream := always (mkResponse 200 None "") in
  ended (fst (Streaming.sendMessageStream node upstream (fun _ => None)
                hello_anthropic (start (Config.create []))))
  = Some (mkError "Cannot read properties of undefined (reading 'ok')")
  /\ ended (fst (Streaming.sendOpenAIMessageStream node upstream (fun _ => None)
                   hello_openai (start (Config.create []))))
     = Some (mkError "No API key configured").
Proof.
  cbv zeta.
  destruct (proj1 (streaming_without_a_key node (always (mkResponse 200 None ""))
                     (fun _ => None) hello_anthropic hello_openai
                     _ _ (start (Config.create [])) eq_refl eq_refl)
                  eq_refl)
    as (A & O & _).
  rewrite A, O. split; reflexivity.
Defined.

(** X24.  When the current key's first fetch is answered with a 2xx
    status and the response has a body, a streaming call is that single
    fetch followed by the reader on that body: its events, its log lines
    and its end are the reader's, with no rotation and no pause. *)
Theorem streaming_reads_the_first_2xx_response
        (host : Host) (upstream : Upstream) (body_of : Response -> option Body)
        (key : string) (answer : Response) (body : Body) (w : World)
        (anthropicRequest : AnthropicRequest.t) (openaiRequest : OpenAIRequest.t)
        (a o : JValue) :
  Config.getApiKey (config w) = Some key ->
  key <> "" ->
  upstream (calls w) key = Resolves answer ->
  ok answer = true ->
  body_of answer = Some body ->
  convertAnthropicToOllama host anthropicRequest = Ok a ->
  convertOpenAIToOllama openaiRequest = Ok o ->
  Streaming.sendMessageStream host upstream body_of anthropicRequest w
  = (sendMessageStream host (AnthropicRequest.model anthropicRequest) body,
     fetched key w)
  /\ Streaming.sendOpenAIMessageStream host upstream body_of openaiRequest w
     = (sendOpenAIMessageStream host (OpenAIRequest.model openaiRequest) body,
        fetched key w).
Proof.
  intros Hcurrent Hkey Hanswer Hok Hbody Ha Ho.
  destruct (ok_is_neither_401_nor_429 answer Hok) as [N401 N429].
  pose proof (fetch_hands_back upstream key answer w Hcurrent Hkey Hanswer
                N401 (or_introl N429)) as Hfetch.
  pose proof (pool_is_not_empty key w Hcurrent) as Hpool.
  unfold Streaming.sendMessageStream, Streaming.sendOpenAIMessageStream,
    Config.getApiKeys.
  rewrite Ha, Ho.
  destruct (List.length (Config.apiKeys (config w))) as [| n]; [contradiction |].
  cbn [Nat.max Streaming.connect Nat.ltb Nat.leb negb].
  rewrite Hfetch, Hok. cbv iota beta. rewrite Hok. cbn [negb].
  rewrite Hbody. split; reflexivity.
Qed.

Lemma streaming_reads_the_first_2xx_response_witness :
  let sent :=
    Streaming.sendMessageStream node (always (mkResponse 200 None ""))
      (fun _ => Some (mkBody [line_hi ++ newline; line_done ++ newline] None))
      hello_anthropic (start (Config.create ["a"; "b"])) in
  List.map event_type (events (fst sent))
  = [JStr "content_block_delta"; JStr "message_stop"]
  /\ trace (snd sent) = [Fetch "a"].
Proof.
  cbv zeta.
  rewrite (proj1 (streaming_reads_the_first_2xx_response node
                    (always (mkResponse 200 None ""))
                    (fun _ => Some (mkBody [line_hi ++ newline;
                                            line_done ++ newline] None))
                    "a" (mkResponse 200 None "")
                    (mkBody [line_hi ++ newline; line_done ++ newline] None)
                    (start (Config.create ["a"; "b"]))
                    hello_anthropic hello_openai _ _
                    eq_refl ltac:(discriminate) eq_refl eq_refl eq_refl
                    eq_refl eq_refl)).
  split; vm_compute; reflexivity.
Defined.

Section FailingStatus.

Variable upstream : Upstream.
Variable key : string.
Variable answer : Response.
Variable w : World.

Hypothesis key_is_current : Config.getApiKey (config w) = Some key.
Hypothesis key_is_set : key <> "".
Hypothesis answered : forall n, upstream n key = Resolves answer.
Hypothesis failing : ok answer = false.
Hypothesis not_401 : status answer <> 401%Z.
Hypothesis not_429 : status answer <> 429%Z.

Let k := List.length (Config.apiKeys (config w)).

Lemma failing_status_uses_every_key_attempt (bound : nat) :
  k <= bound ->
  forall turns keyAttempt response w',
    config w' = config w ->
    keyAttempt < k ->
    k <= turns + keyAttempt ->
    Streaming.connect upstream bound k turns keyAttempt response w'
    = (Throw (Streaming.api_error answer),
       Nat.iter (k - keyAttempt) (fetched key) w').
Proof.
  intros Hbound.
  induction turns as [| turns IH];
    intros keyAttempt response w' Hconfig Hkey Hturns; [lia |].
  cbn [Streaming.connect].
  assert (Hin : (keyAttempt <? bound)%nat = true) by (apply Nat.ltb_lt; lia).
  rewrite Hin. cbn [negb].
  assert (Hcurrent : Config.getApiKey (config w') = Some key)
    by (rewrite Hconfig; exact key_is_current).
  rewrite (fetch_hands_back upstream key answer w' Hcurrent key_is_set
             (answered (calls w')) not_401 (or_introl not_429)).
  rewrite failing.
  replace ((status answer =? 401)%Z || (status answer =? 429)%Z) with false
    by (symmetry; apply Bool.orb_false_iff; split; now apply Z.eqb_neq).
  cbn [andb].
  destruct (Streaming.last_key k keyAttempt) eqn:Hlast.
  - apply the_last_key in Hlast.
    replace (k - keyAttempt) with 1 by lia. reflexivity.
  - apply not_the_last_key in Hlast.
    rewrite (IH (S keyAttempt) (Some answer) (fetched key w') Hconfig Hlast
                ltac:(lia)).
    replace (k - keyAttempt) with (S (k - S keyAttempt)) by lia.
    now rewrite Nat.iter_succ_r.
Qed.

End FailingStatus.

(** X25.  When the current key keeps being answered with one and the same
    failing status other than 401 and 429, a streaming call over a pool of
    [k] keys asks [k] times, every time with that same key (the key
    attempts are counted, the pool is not rotated), then fails with
    [API error <status>: <body>] before any event. *)
Theorem streaming_asks_a_failing_upstream_once_per_key
        (host : Host) (upstream : Upstream) (body_of : Response -> option Body)
        (key : string) (answer : Response) (w : World)
        (anthropicRequest : AnthropicRequest.t) (openaiRequest : OpenAIRequest.t)
        (a o : JValue) :
  Config.getApiKey (config w) = Some key ->
  key <> "" ->
  (forall n, upstream n key = Resolves answer) ->
  ok answer = false ->
  status answer <> 401%Z ->
  status answer <> 429%Z ->
  convertAnthropicToOllama host anthropicRequest = Ok a ->
  convertOpenAIToOllama openaiRequest = Ok o ->
  let k := List.length (Config.apiKeys (config w)) in
  let failure :=
    Streaming.failed
      (mkError ("API error " ++ JS.Z_to_string (status answer) ++ ": "
                ++ text answer))
      (Nat.iter k (fetched key) w) in
  Streaming.sendMessageStream host upstream body_of anthropicRequest w = failure
  /\ Streaming.sendOpenAIMessageStream host upstream body_of openaiRequest w
     = failure.
Proof.
  intros Hcurrent Hkey Hanswer Hok H401 H429 Ha Ho k failure.
  pose proof (pool_is_not_empty key w Hcurrent) as Hpool.
  subst failure k.
  unfold Streaming.sendMessageStream, Streaming.sendOpenAIMessageStream,
    Config.getApiKeys.
  rewrite Ha, Ho.
  rewrite (failing_status_uses_every_key_attempt upstream key answer w
             Hcurrent Hkey Hanswer Hok H401 H429
             (List.length (Config.apiKeys (config w))) (Nat.le_refl _)
             (List.length (Config.apiKeys (config w))) 0 None w eq_refl
             ltac:(lia) ltac:(lia)).
  rewrite (failing_status_uses_every_key_attempt upstream key answer w
             Hcurrent Hkey Hanswer Hok H401 H429
             (Nat.max (List.length (Config.apiKeys (config w))) 1) ltac:(lia)
             (Nat.max (List.length (Config.apiKeys (config w))) 1) 0 None w
             eq_refl ltac:(lia) ltac:(lia)).
  rewrite Nat.sub_0_r. split; reflexivity.
Qed.

Lemma streaming_asks_a_failing_upstream_once_per_key_witness :
  let sent :=
    Streaming.sendMessageStream node (always (mkResponse 503 None "busy"))
      (fun _ => None) hello_anthropic (start (Config.create ["a"; "b"; "c"])) in
  ended (fst sent) = Some (mkError "API error 503: busy")
  /\ trace (snd sent) = [Fetch "a"; Fetch "a"; Fetch "a"].
Proof.
  cbv zeta.
  rewrite (proj1 (streaming_asks_a_failing_upstream_once_per_key node
                    (always (mkResponse 503 None "busy")) (fun _ => None)
                    "a" (mkResponse 503 None "busy")
                    (start (Config.create ["a"; "b"; "c"]))
                    hello_anthropic hello_openai _ _
                    eq_refl ltac:(discriminate) ltac:(reflexivity) eq_refl
                    ltac:(discriminate) ltac:(discriminate) eq_refl eq_refl)).
  split; reflexivity.
Defined.

Section RejectedPoolStreaming.

Variable upstream : Upstream.
Variable keys : list string.

Let k := List.length keys.

Hypothesis some_key : keys <> [].
Hypothesis keys_are_set : Forall (fun key => key <> "") keys.
Hypothesis all_rejected :
  forall n key, exists response,
    upstream n key = Resolves response /\ status response = 401%Z.

Lemma rejected_pool_is_gone_through_per_key_attempt (bound : nat) :
  k <= bound ->
  forall turns keyAttempt response w,
    Config.apiKeys (config w) = keys ->
    Config.currentKeyIndex (config w) < k ->
    keyAttempt < k ->
    k <= turns + keyAttempt ->
    let out := Streaming.connect upstream bound k turns keyAttempt response w in
    fst out = Throw (mkError "All API keys exhausted")
    /\ calls (snd out) = calls w + (k - keyAttempt) * k
    /\ config (snd out) = config w.
Proof.
  intros Hbound.
  induction turns as [| turns IH];
    intros keyAttempt response w Hkeys Hcursor Hkey Hturns; [lia |].
  cbn [Streaming.connect].
  assert (Hin : (keyAttempt <? bound)%nat = true) by (apply Nat.ltb_lt; lia).
  rewrite Hin. cbn [negb].
  rewrite (rejected_pool_is_tried_once upstream keys some_key keys_are_set
             all_rejected w Hkeys Hcursor).
  fold k.
  destruct (Streaming.last_key k keyAttempt) eqn:Hlast.
  - apply the_last_key in Hlast. cbn [fst snd calls config].
    replace (k - keyAttempt) with 1 by lia.
    repeat split. lia.
  - apply not_the_last_key in Hlast.
    match goal with
    | |- context [Streaming.connect upstream bound k turns (S keyAttempt)
                                    response ?w1] =>
        destruct (IH (S keyAttempt) response w1 Hkeys Hcursor Hlast
                     ltac:(lia)) as (R & C & G)
    end.
    cbv zeta. rewrite R, C, G. cbn [calls config].
    repeat split. nia.
Qed.

End RejectedPoolStreaming.

(** X26.  When every key is answered with 401, a streaming call goes
    through the whole pool once for each of its [k] key attempts, [k * k]
    fetches in all, and then fails with "All API keys exhausted" before
    any event, the cursor back where it started. *)
Theorem streaming_tries_a_rejected_pool_k_times
        (host : Host) (upstream : Upstream) (body_of : Response -> option Body)
        (keys : list string) (w : World)
        (anthropicRequest : AnthropicRequest.t) (openaiRequest : OpenAIRequest.t)
        (a o : JValue) :
  keys <> [] ->
  Forall (fun key => key <> "") keys ->
  (forall n key, exists response,
      upstream n key = Resolves response /\ status response = 401%Z) ->
  Config.apiKeys (config w) = keys ->
  Config.currentKeyIndex (config w) < List.length keys ->
  convertAnthropicToOllama host anthropicRequest = Ok a ->
  convertOpenAIToOllama openaiRequest = Ok o ->
  let sent :=
    Streaming.sendMessageStream host upstream body_of anthropicRequest w in
  let sent' :=
    Streaming.sendOpenAIMessageStream host upstream body_of openaiRequest w in
  let exhausted := mkDrained [] [] (Some (mkError "All API keys exhausted")) in
  (fst sent = exhausted
   /\ calls (snd sent) = calls w + List.length keys * List.length keys
   /\ config (snd sent) = config w)
  /\ (fst sent' = exhausted
      /\ calls (snd sent') = calls w + List.length keys * List.length keys
      /\ config (snd sent') = config w).
Proof.
  intros Hsome Hset Hrejected Hkeys Hcursor Ha Ho sent sent' exhausted.
  assert (Hk : List.length keys <> 0) by (apply pool_size_positive; exact Hsome).
  unfold sent, sent', Streaming.sendMessageStream,
    Streaming.sendOpenAIMessageStream, Config.getApiKeys.
  rewrite Ha, Ho, Hkeys. split.
  - destruct (rejected_pool_is_gone_through_per_key_attempt upstream keys
                Hsome Hset Hrejected (List.length keys) (Nat.le_refl _)
                (List.length keys) 0 None w Hkeys Hcursor
                ltac:(lia) ltac:(lia)) as (R & C & G).
    destruct (Streaming.connect upstream (List.length keys) (List.length keys)
                (List.length keys) 0 None w) as [[result | error] w1].
    + discriminate.
    + cbn [fst snd] in *. injection R as ->.
      rewrite Nat.sub_0_r in C. now repeat split.
  - destruct (rejected_pool_is_gone_through_per_key_attempt upstream keys
                Hsome Hset Hrejected (Nat.max (List.length keys) 1)
                ltac:(lia) (Nat.max (List.length keys) 1) 0 None w Hkeys
                Hcursor ltac:(lia) ltac:(lia)) as (R & C & G).
    destruct (Streaming.connect upstream (Nat.max (List.length keys) 1)
                (List.length keys) (Nat.max (List.length keys) 1) 0 None w)
      as [[result | error] w1].
    + discriminate.
    + cbn [fst snd] in *. injection R as ->.
      rewrite Nat.sub_0_r in C. now repeat split.
Qed.

Lemma streaming_tries_a_rejected_pool_k_times_witness :
  let sent :=
    Streaming.sendMessageStream node (always (mkResponse 401 None "no"))
      (fun _ => None) hello_anthropic (start (Config.create ["a"; "b"; "c"])) in
  ended (fst sent) = Some (mkError "All API keys exhausted")
  /\ calls (snd sent) = 9.
Proof.
  cbv zeta.
  destruct (streaming_tries_a_rejected_pool_k_times node
              (always (mkResponse 401 None "no")) (fun _ => None)
              ["a"; "b"; "c"] (start (Config.create ["a"; "b"; "c"]))
              hello_anthropic hello_openai _ _
              ltac:(discriminate)
              ltac:(repeat constructor; discriminate)
              ltac:(intros n key; eexists; split; reflexivity)
              eq_refl ltac:(cbn; lia) eq_refl eq_refl)
    as ((R & C & _) & _).
  rewrite R, C. split; reflexivity.
Defined.

(* ------------------------------------------------------------------ *)
(** ** The configuration that is loaded *)

Section Fields.

Lemma lookup_set_same (k : string) (v : JValue) (fields : list (string * JValue)) :
  JS.lookup k (Json.set_field k v fields) = v.
Proof.
  induction fields as [| [k' v'] fields IH]; cbn [Json.set_field JS.lookup].
  - now rewrite String.eqb_refl.
  - destruct (k =? k') eqn:Hk; cbn [JS.lookup].
    + now rewrite String.eqb_refl.
    + now rewrite Hk.
Qed.

Lemma lookup_set_other (k k' : string) (v : JValue)
      (fields : list (string * JValue)) :
  k' <> k ->
  JS.lookup k' (Json.set_field k v fields) = JS.lookup k' fields.
Proof.
  intros Hother.
  induction fields as [| [k0 v0] fields IH]; cbn [Json.set_field JS.lookup].
  - apply String.eqb_neq in Hother. now rewrite Hother.
  - destruct (k =? k0) eqn:Hk; cbn [JS.lookup].
    + apply String.eqb_eq in Hk. subst k0.
      apply String.eqb_neq in Hother. now rewrite Hother.
    + destruct (k' =? k0); [reflexivity | exact IH].
Qed.

Lemma lookup_override_other (variable : option string) (k k' : string)
      (f : string -> JValue) (config : list (string * JValue)) :
  k' <> k ->
  JS.lookup k' (Loader.override variable k f config) = JS.lookup k' config.
Proof.
  intros Hother. unfold Loader.override.
  destruct variable as [s |]; [| reflexivity].
  destruct (JS.truthy (JStr s)); [| reflexivity].
  now apply lookup_set_other.
Qed.

Lemma lookup_override_set (s : string) (k : string)
      (f : string -> JValue) (config : list (string * JValue)) :
  s <> "" ->
  JS.lookup k (Loader.override (Some s) k f config) = f s.
Proof.
  intros Hs. unfold Loader.override. cbn [JS.truthy].
  apply String.eqb_neq in Hs. rewrite Hs. cbn [negb].
  apply lookup_set_same.
Qed.

Lemma override_unset (variable : option string) (k : string)
      (f : string -> JValue) (config : list (string * JValue)) :
  variable = None \/ variable = Some "" ->
  Loader.override variable k f config = config.
Proof.
  intros [-> | ->]; reflexivity.
Qed.

(** Nothing that is loaded after the keys touches them. *)
Lemma keys_after_the_overrides (host : Host) (file : Loader.File)
      (env : Loader.Env) :
  Loader.get (Loader.loadConfig host file env) "apiKeys"
  = JS.lookup "apiKeys"
      (Loader.override (Loader.ANTHROPIC_API_KEY env) "apiKeys"
         (fun s => JArr (List.map JStr (Loader.pool s)))
         (Loader.override (Loader.OLLAMA_API_KEY env) "apiKeys"
            (fun s => JArr (List.map JStr (Loader.pool s)))
            (Loader.from_file host file))).
Proof.
  unfold Loader.get, Loader.loadConfig.
  assert (Hdebug : forall config,
             JS.lookup "apiKeys"
               (match Loader.DEBUG env with
                | Some s => if s =? "true"
                            then Json.set_field "debug" (JBool true) config
                            else config
                | None => config
                end)
             = JS.lookup "apiKeys" config).
  { intros config. destruct (Loader.DEBUG env) as [s |]; [| reflexivity].
    destruct (s =? "true"); [| reflexivity].
    apply lookup_set_other. discriminate. }
  rewrite Hdebug.
  rewrite lookup_override_other by discriminate.
  set (inner := Loader.override (Loader.OLLAMA_BASE_URL env) _ _ _).
  assert (Hinner : forall f g,
             JS.lookup "apiKeys"
               (Loader.override (Loader.ANTHROPIC_API_KEY env) "apiKeys" f
                  (Loader.override (Loader.OLLAMA_API_KEY env) "apiKeys" g inner))
             = JS.lookup "apiKeys"
                 (Loader.override (Loader.ANTHROPIC_API_KEY env) "apiKeys" f
                    (Loader.override (Loader.OLLAMA_API_KEY env) "apiKeys" g
                       (Loader.from_file host file)))).
  { intros f g. unfold Loader.override.
    assert (Hbase : JS.lookup "apiKeys" inner
                    = JS.lookup "apiKeys" (Loader.from_file host file)).
    { unfold inner. now rewrite !lookup_override_other by discriminate. }
    destruct (Loader.ANTHROPIC_API_KEY env) as [a |];
      destruct (Loader.OLLAMA_API_KEY env) as [o |];
      repeat match goal with
             | |- context [JS.truthy (JStr ?x)] => destruct (JS.truthy (JStr x))
             end;
      rewrite ?lookup_set_same; try reflexivity; exact Hbase. }
  apply Hinner.
Qed.

End Fields.

Section Trimming.

Lemma trimEnd_idempotent (s : string) : JS.trimEnd (JS.trimEnd s) = JS.trimEnd s.
Proof.
  induction s as [| c s IH]; [reflexivity |].
  cbn [JS.trimEnd].
  destruct (JS.is_space c && (JS.trimEnd s =? "")) eqn:Hc; [reflexivity |].
  cbn [JS.trimEnd]. now rewrite IH, Hc.
Qed.

Lemma trimStart_starts_in_text (s : string) : starts_in_text (JS.trimStart s).
Proof.
  induction s as [| c s IH]; [exact I |].
  cbn [JS.trimStart]. destruct (JS.is_space c) eqn:Hc; [exact IH | exact Hc].
Qed.

Lemma trimStart_of_trimEnd (s : string) :
  starts_in_text s -> JS.trimStart (JS.trimEnd s) = JS.trimEnd s.
Proof.
  destruct s as [| c s]; [reflexivity |].
  cbn [starts_in_text JS.trimEnd]. intros Hc. rewrite Hc. cbn [andb JS.trimStart].
  now rewrite Hc.
Qed.

Lemma trim_idempotent (s : string) : JS.trim (JS.trim s) = JS.trim s.
Proof.
  unfold JS.trim.
  rewrite (trimStart_of_trimEnd _ (trimStart_starts_in_text s)).
  apply trimEnd_idempotent.
Qed.

(** [s.includes(",")] looks at the characters one by one. *)
Lemma includes_comma (c : ascii) (s : string) :
  JS.includes (String c s) "," = Ascii.eqb c ","%char || JS.includes s ",".
Proof.
  cbn [JS.includes String.prefix].
  destruct (ascii_dec ","%char c) as [<- | Hc].
  - now destruct s.
  - replace (Ascii.eqb c ","%char) with false; [reflexivity |].
    symmetry. apply Ascii.eqb_neq. congruence.
Qed.

Lemma trimStart_keeps_out (s : string) :
  JS.includes s "," = false -> JS.includes (JS.trimStart s) "," = false.
Proof.
  induction s as [| c s IH]; [trivial |].
  intros Hs. cbn [JS.trimStart].
  destruct (JS.is_space c); [| exact Hs].
  rewrite includes_comma in Hs. apply Bool.orb_false_iff in Hs.
  apply IH. apply Hs.
Qed.

Lemma trimEnd_keeps_out (s : string) :
  JS.includes s "," = false -> JS.includes (JS.trimEnd s) "," = false.
Proof.
  induction s as [| c s IH]; [trivial |].
  intros Hs. rewrite includes_comma in Hs. apply Bool.orb_false_iff in Hs.
  destruct Hs as [Hc Hs]. cbn [JS.trimEnd].
  destruct (JS.is_space c && (JS.trimEnd s =? "")); [reflexivity |].
  rewrite includes_comma, Hc. now apply IH.
Qed.

Lemma split_keeps_out (s : string) :
  Forall (fun piece => JS.includes piece "," = false) (JS.split ","%char s).
Proof.
  induction s as [| c s IH]; cbn [JS.split].
  - repeat constructor.
  - destruct (Ascii.eqb c ","%char) eqn:Hc.
    + constructor; [reflexivity | exact IH].
    + destruct (JS.split ","%char s) as [| first others].
      * constructor; [| constructor]. rewrite includes_comma, Hc. reflexivity.
      * inversion IH as [| ? ? Hfirst Hothers]; subst.
        constructor; [| exact Hothers].
        now rewrite includes_comma, Hc.
Qed.

Lemma pool_is_clean (s : string) :
  Forall (fun key => key <> "" /\ JS.trim key = key
                     /\ JS.includes key "," = false)
         (Loader.pool s).
Proof.
  unfold Loader.pool. apply Forall_forall. intros key Hin.
  apply List.filter_In in Hin. destruct Hin as [Hin Hkey].
  apply List.in_map_iff in Hin. destruct Hin as (piece & <- & Hpiece).
  split; [| split].
  - cbn [JS.truthy] in Hkey. intros Hempty. rewrite Hempty in Hkey. discriminate.
  - apply trim_idempotent.
  - unfold JS.trim. apply trimEnd_keeps_out, trimStart_keeps_out.
    pose proof (split_keeps_out s) as Hall.
    rewrite Forall_forall in Hall. now apply Hall.
Qed.

End Trimming.

(** X27.  Keys given in the environment replace whatever config.json
    holds: with a non-empty [ANTHROPIC_API_KEY] the pool is made of its
    comma-separated pieces, and so it is of the pieces of a non-empty
    [OLLAMA_API_KEY] when [ANTHROPIC_API_KEY] is unset or empty.  The
    pieces are taken in order, trimmed, the empty ones left out: no key of
    the pool is empty, starts or ends with white space, or holds a
    comma. *)
Theorem environment_keys_replace_the_pool
        (host : Host) (file : Loader.File) (env : Loader.Env) (s : string) :
  s <> "" ->
  Loader.ANTHROPIC_API_KEY env = Some s
  \/ (Loader.OLLAMA_API_KEY env = Some s
      /\ (Loader.ANTHROPIC_API_KEY env = None
          \/ Loader.ANTHROPIC_API_KEY env = Some "")) ->
  Loader.getApiKeys (Loader.loadConfig host file env)
  = JArr (List.map JStr (Loader.pool s))
  /\ Forall (fun key => key <> "" /\ JS.trim key = key
                        /\ JS.includes key "," = false)
            (Loader.pool s).
Proof.
  intros Hs Hfrom. split; [| apply pool_is_clean].
  unfold Loader.getApiKeys. rewrite keys_after_the_overrides.
  destruct Hfrom as [-> | [-> Hnone]].
  - now rewrite lookup_override_set.
  - rewrite (override_unset _ _ _ _ Hnone). now rewrite lookup_override_set.
Qed.

Lemma environment_keys_replace_the_pool_witness :
  Loader.getApiKeys
    (Loader.loadConfig node
       (Some (Ok (wire (JObj [("apiKeys", JArr [JStr "from-file"])]))))
       (Loader.mkEnv None None None (Some " k1 , ,k2,") None None None))
  = JArr [JStr "k1"; JStr "k2"].
Proof.
  exact (proj1 (environment_keys_replace_the_pool node
                  (Some (Ok (wire (JObj [("apiKeys", JArr [JStr "from-file"])]))))
                  (Loader.mkEnv None None None (Some " k1 , ,k2,") None None None)
                  " k1 , ,k2," ltac:(discriminate)
                  (or_intror (conj eq_refl (or_introl eq_refl))))).
Defined.

(** The environment never sets the single-key field. *)
Lemma apiKey_comes_from_the_file (host : Host) (file : Loader.File)
      (env : Loader.Env) :
  Loader.get (Loader.loadConfig host file env) "apiKey"
  = JS.lookup "apiKey" (Loader.from_file host file).
Proof.
  unfold Loader.get, Loader.loadConfig.
  assert (Hdebug : forall config,
             JS.lookup "apiKey"
               (match Loader.DEBUG env with
                | Some s => if s =? "true"
                            then Json.set_field "debug" (JBool true) config
                            else config
                | None => config
                end)
             = JS.lookup "apiKey" config).
  { intros config. destruct (Loader.DEBUG env) as [s |]; [| reflexivity].
    destruct (s =? "true"); [| reflexivity].
    apply lookup_set_other. discriminate. }
  rewrite Hdebug. now rewrite !lookup_override_other by discriminate.
Qed.

(** X28.  Keys that come from the environment alone do not open the model
    listing.  When config.json is missing, cannot be read or does not
    parse, [config.get('apiKey')] is [null] whatever the environment
    holds, and the /v1/models endpoint answers 401 with the code
    [missing_api_key] without a fetch, although the environment may have
    filled the pool the senders use. *)
Theorem environment_keys_do_not_open_the_listing
        (host : Host) (upstream : Upstream) (seconds_of : JValue -> JValue)
        (file : Loader.File) (env : Loader.Env) (w : World) :
  file = None
  \/ (exists error, file = Some (Throw error))
  \/ (exists text error,
         file = Some (Ok text) /\ JSON_parse host text = Throw error) ->
  let settings := Loader.loadConfig host file env in
  Loader.get settings "apiKey" = JNull
  /\ (forall s,
         s <> "" ->
         Loader.OLLAMA_API_KEY env = Some s ->
         Loader.ANTHROPIC_API_KEY env = None ->
         Loader.getApiKeys settings = JArr (List.map JStr (Loader.pool s)))
  /\ exists body,
       models_endpoint host upstream seconds_of settings w = (mkReply 401 body, w)
       /\ JS.prop (JS.prop body "error") "code" = JStr "missing_api_key".
Proof.
  intros Hfile settings.
  assert (Hnull : Loader.get settings "apiKey" = JNull).
  { unfold settings. rewrite apiKey_comes_from_the_file.
    destruct Hfile as [-> | [[error ->] | (text & error & -> & Hparse)]];
      cbn [Loader.from_file bind]; rewrite ?Hparse; reflexivity. }
  split; [exact Hnull |]. split.
  - intros s Hs Hollama Hanthropic. unfold settings, Loader.getApiKeys.
    rewrite keys_after_the_overrides, Hollama, Hanthropic.
    rewrite (override_unset None _ _ _ (or_introl eq_refl)).
    now rewrite lookup_override_set.
  - unfold models_endpoint. fold settings. rewrite Hnull. cbn [JS.truthy negb].
    eexists. split; reflexivity.
Qed.

Lemma environment_keys_do_not_open_the_listing_witness :
  let settings :=
    Loader.loadConfig node None
      (Loader.mkEnv None None None (Some "key-1,key-2") None None None) in
  Loader.getApiKeys settings = JArr [JStr "key-1"; JStr "key-2"]
  /\ code (fst (models_endpoint node (always (mkResponse 200 None ""))
                  (fun _ => JNum 0) settings
                  (start (Config.create ["key-1"; "key-2"]))))
     = 401%Z.
Proof.
  cbv zeta.
  destruct (environment_keys_do_not_open_the_listing node
              (always (mkResponse 200 None "")) (fun _ => JNum 0) None
              (Loader.mkEnv None None None (Some "key-1,key-2") None None None)
              (start (Config.create ["key-1"; "key-2"]))
              (or_introl eq_refl))
    as (_ & K & body & R & _).
  split.
  - exact (K "key-1,key-2" ltac:(discriminate) eq_refl eq_refl).
  - rewrite R. reflexivity.
Defined.

Section ListingModels.

Variable host : Host.
Variable seconds_of : JValue -> JValue.

Lemma equals_is_equality (v : JValue) (s : string) :
  JSOps.equals v s = true <-> v = JStr s.
Proof.
  destruct v; cbn [JSOps.equals]; split; try discriminate.
  - intros H. apply String.eqb_eq in H. now subst.
  - intros [= ->]. apply String.eqb_refl.
Qed.

Lemma model_entries_name_the_models (models : list JValue) :
  forall readings entries,
    model_entries host seconds_of readings models = Ok entries ->
    Forall (fun model => JS.nullish model = false) models
    /\ List.map (fun entry => JS.prop entry "id") entries
       = List.map (fun model => JS.prop model "name") models
    /\ List.map (fun entry => JS.prop entry "root") entries
       = List.map (fun model => JS.prop model "name") models.
Proof.
  induction models as [| model models IH]; intros readings entries.
  - cbn. intros [= <-]. repeat split. constructor.
  - cbn [model_entries]. unfold model_entry at 1.
    destruct (JS.get model "name") as [name | e] eqn:Hname; cbn [bind];
      [| discriminate].
    cbn [fst snd].
    destruct (model_entries host seconds_of _ models) as [rest | e] eqn:Hrest;
      cbn [bind]; [| discriminate].
    intros [= <-]. destruct (IH _ _ Hrest) as (Hall & Hids & Hroots).
    assert (Hmodel : JS.nullish model = false).
    { unfold JS.get in Hname. destruct (JS.nullish model);
        [discriminate | reflexivity]. }
    apply got_is_prop in Hname. subst name.
    split; [now constructor |].
    cbn [List.map]. rewrite Hids, Hroots. split; reflexivity.
Qed.

Lemma model_entries_succeed (models : list JValue) :
  Forall (fun model => JS.nullish model = false) models ->
  forall readings,
    exists entries, model_entries host seconds_of readings models = Ok entries.
Proof.
  induction 1 as [| model models Hmodel _ IH]; intros readings.
  - eexists. reflexivity.
  - cbn [model_entries]. unfold model_entry at 1.
    rewrite (get_of_object _ "name" Hmodel). cbn [bind fst snd].
    destruct (IH (if JS.truthy (JS.prop model "modified_at")
                  then readings else S readings)) as [entries ->].
    cbn [bind]. eexists. reflexivity.
Qed.

Lemma some_entry_is_some_model (modelId : string) (entries models : list JValue) :
  List.map (fun entry => JS.prop entry "id") entries
  = List.map (fun model => JS.prop model "name") models ->
  List.existsb (fun m => JSOps.equals (JS.prop m "id") modelId) entries = true
  <-> Exists (fun model => JS.prop model "name" = JStr modelId) models.
Proof.
  revert models.
  induction entries as [| entry entries IH]; intros [| model models] Hmap;
    try discriminate.
  - cbn. split; [discriminate | intros H; inversion H].
  - cbn [List.map] in Hmap. injection Hmap as Hhead Htail.
    cbn [List.existsb]. rewrite Bool.orb_true_iff, (IH _ Htail), Hhead,
      equals_is_equality.
    split.
    + intros [H | H]; [now left | now right].
    + intros H. inversion H; subst; [now left | now right].
Qed.

End ListingModels.

(** X29.  [isValidModel] answers [true] exactly when the listing
    succeeds and holds the model: the rotation hands back a 2xx response,
    its body parses, [models] is an array none of whose elements is
    [null], and some element bears the name asked for.  In every other
    case, a failed fetch or a single [null] among the models included, it
    answers [false]; either way it costs what the one rotation costs. *)
Theorem a_model_is_valid_when_the_listing_holds_it
        (host : Host) (upstream : Upstream) (seconds_of : JValue -> JValue)
        (modelId : string) (w : World) :
  (fst (isValidModel host upstream seconds_of modelId w) = true
   <-> exists response data models,
         fst (fetchWithKeyRotation upstream w) = Ok response
         /\ ok response = true
         /\ JSON_parse host (text response) = Ok data
         /\ JS.get data "models" = Ok (JArr models)
         /\ Forall (fun model => JS.nullish model = false) models
         /\ Exists (fun model => JS.prop model "name" = JStr modelId) models)
  /\ snd (isValidModel host upstream seconds_of modelId w)
     = snd (fetchWithKeyRotation upstream w).
Proof.
  unfold isValidModel, listModels.
  destruct (fetchWithKeyRotation upstream w) as [[response | error] w1];
    cbn [fst snd].
  2: { split; [| reflexivity]. split; [discriminate |].
       intros (? & ? & ? & H & _). discriminate. }
  destruct (ok response) eqn:Hok; cbn [negb fst snd].
  2: { split; [| reflexivity]. split; [discriminate |].
       intros (r & ? & ? & [= <-] & H & _). congruence. }
  destruct (JSON_parse host (text response)) as [data | e] eqn:Hparse;
    cbn [bind fst snd].
  2: { split; [| reflexivity]. split; [discriminate |].
       intros (r & ? & ? & [= <-] & _ & H & _). congruence. }
  destruct (JS.get data "models") as [models | e] eqn:Hmodels;
    cbn [bind fst snd].
  2: { split; [| reflexivity]. split; [discriminate |].
       intros (r & d & ? & [= <-] & _ & H & H' & _). congruence. }
  destruct (JS.get models "map") as [map | e] eqn:Hmap; cbn [bind fst snd].
  2: { split; [| reflexivity]. split; [discriminate |].
       intros (r & d & ms & [= <-] & _ & H & H' & _).
       rewrite Hparse in H. injection H as <-. rewrite Hmodels in H'.
       injection H' as ->. discriminate. }
  destruct models as [| | b | n | | inf | s | ms | fs];
    try (split; [| reflexivity]; split; [discriminate |];
         intros (r & d & ms' & [= <-] & _ & H & H' & _);
         rewrite Hparse in H; injection H as <-; rewrite Hmodels in H';
         discriminate).
  destruct (model_entries host seconds_of 0 ms) as [entries | e] eqn:Hentries;
    cbn [bind fst snd].
  - split; [| reflexivity].
    destruct (model_entries_name_the_models host seconds_of ms 0 entries
                Hentries) as (Hall & Hids & _).
    change (JS.prop (JObj [("object", JStr "list"); ("data", JArr entries)])
                    "data") with (JArr entries).
    rewrite (some_entry_is_some_model modelId entries ms Hids).
    split.
    + intros Hsome. exists response, data, ms. now repeat split.
    + intros (r & d & ms' & [= <-] & _ & H & H' & _ & Hsome).
      rewrite Hparse in H. injection H as <-. rewrite Hmodels in H'.
      injection H' as <-. exact Hsome.
  - split; [| reflexivity]. split; [discriminate |].
    intros (r & d & ms' & [= <-] & _ & H & H' & Hall & _).
    rewrite Hparse in H. injection H as <-. rewrite Hmodels in H'.
    injection H' as <-.
    destruct (model_entries_succeed host seconds_of ms Hall 0) as [entries H].
    congruence.
Qed.

Lemma a_model_is_valid_when_the_listing_holds_it_witness :
  let listing :=
    wire (JObj [("models", JArr [JObj [("name", JStr "glm-5")];
                                 JObj [("name", JStr "kimi-k2.5")]])]) in
  fst (isValidModel node (always (mkResponse 200 None listing))
                    (fun _ => JNum 0) "kimi-k2.5"
                    (start (Config.create ["a"]))) = true.
Proof.
  cbv zeta.
  apply (proj1 (a_model_is_valid_when_the_listing_holds_it node
                  (always (mkResponse 200 None
                             (wire (JObj [("models",
                                           JArr [JObj [("name", JStr "glm-5")];
                                                 JObj [("name",
                                                        JStr "kimi-k2.5")]])]))))
                  (fun _ => JNum 0) "kimi-k2.5" (start (Config.create ["a"])))).
  eexists. eexists. eexists.
  split; [vm_compute; reflexivity |].
  split; [reflexivity |].
  split; [vm_compute; reflexivity |].
  split; [reflexivity |].
  split; [repeat constructor |].
  right. left. reflexivity.
Defined.

Section Spreading.

(** A spread takes each property of the source, and keeps those of the
    target the source does not have. *)
Lemma lookup_spread (k : string) (fields : list (string * JValue)) :
  NoDup (List.map fst fields) ->
  forall target,
    JS.lookup k
      (List.fold_left
         (fun fs field => Json.set_field (fst field) (snd field) fs)
         fields target)
    = if List.existsb (String.eqb k) (List.map fst fields)
      then JS.lookup k fields
      else JS.lookup k target.
Proof.
  induction fields as [| [k0 v0] fields IH]; intros Hnodup target;
    [reflexivity |].
  cbn [List.map fst] in Hnodup. inversion Hnodup as [| ? ? Hfresh Hrest]; subst.
  cbn [List.fold_left List.map fst snd List.existsb JS.lookup].
  rewrite (IH Hrest).
  destruct (String.eqb_spec k k0) as [-> | Hother]; cbn [orb].
  - replace (List.existsb (String.eqb k0) (List.map fst fields)) with false.
    + apply lookup_set_same.
    + symmetry. apply Bool.not_true_is_false. intros Hin.
      apply List.existsb_exists in Hin. destruct Hin as (k' & Hin & Hk).
      apply String.eqb_eq in Hk. subst k'. contradiction.
  - destruct (List.existsb (String.eqb k) (List.map fst fields));
      [reflexivity |].
    now apply lookup_set_other.
Qed.

End Spreading.

(** X30.  A config.json that is an object with a non-empty string under
    [apiKey] and nothing of a length under [apiKeys] (no such field,
    [null], or an empty array) gives, when the environment holds no keys,
    a pool of that one key, and [config.get('apiKey')] is that key.  A
    file that has both the single key and a non-empty [apiKeys] array
    keeps its array: the single key is not added to it. *)
Theorem single_key_of_the_file_becomes_the_pool
        (host : Host) (text : string) (fields : list (string * JValue))
        (key : string) (env : Loader.Env) :
  JSON_parse host text = Ok (JObj fields) ->
  NoDup (List.map fst fields) ->
  JS.lookup "apiKey" fields = JStr key ->
  key <> "" ->
  Loader.OLLAMA_API_KEY env = None \/ Loader.OLLAMA_API_KEY env = Some "" ->
  Loader.ANTHROPIC_API_KEY env = None \/ Loader.ANTHROPIC_API_KEY env = Some "" ->
  let settings := Loader.loadConfig host (Some (Ok text)) env in
  Loader.get settings "apiKey" = JStr key
  /\ (JS.truthy (JS.opt (JS.lookup "apiKeys" fields) "length") = false ->
      Loader.getApiKeys settings = JArr [JStr key])
  /\ (forall keys,
         JS.lookup "apiKeys" fields = JArr keys -> keys <> [] ->
         Loader.getApiKeys settings = JArr keys).
Proof.
  intros Hparse Hnodup HapiKey Hkey Hollama Hanthropic settings.
  assert (Hmember : List.existsb (String.eqb "apiKey") (List.map fst fields)
                    = true).
  { destruct (List.existsb (String.eqb "apiKey") (List.map fst fields)) eqn:H;
      [reflexivity |].
    exfalso. clear - HapiKey H.
    induction fields as [| [k0 v0] fields IH]; [discriminate |].
    cbn [List.map fst List.existsb JS.lookup] in *.
    destruct ("apiKey" =? k0); [discriminate | now apply IH]. }
  assert (Hspread_key :
            JS.lookup "apiKey" (Loader.spread Loader.DEFAULT_CONFIG (JObj fields))
            = JStr key).
  { unfold Loader.spread. cbn [Loader.own_properties].
    now rewrite (lookup_spread "apiKey" fields Hnodup), Hmember. }
  assert (Hspread_keys :
            JS.lookup "apiKeys" (Loader.spread Loader.DEFAULT_CONFIG (JObj fields))
            = if List.existsb (String.eqb "apiKeys") (List.map fst fields)
              then JS.lookup "apiKeys" fields
              else JArr []).
  { unfold Loader.spread. cbn [Loader.own_properties].
    now rewrite (lookup_spread "apiKeys" fields Hnodup). }
  assert (Htruthy : JS.truthy (JStr key) = true).
  { cbn [JS.truthy]. apply String.eqb_neq in Hkey. now rewrite Hkey. }
  assert (Hfile :
            Loader.from_file host (Some (Ok text))
            = let config := Loader.spread Loader.DEFAULT_CONFIG (JObj fields) in
              if negb (JS.truthy (JS.opt (JS.lookup "apiKeys" config) "length"))
              then Json.set_field "apiKeys" (JArr [JStr key]) config
              else config).
  { cbn [Loader.from_file bind]. rewrite Hparse. cbv zeta.
    now rewrite Hspread_key, Htruthy. }
  cbv zeta in Hfile.
  split; [| split].
  - unfold settings. rewrite apiKey_comes_from_the_file, Hfile.
    destruct (negb _); [| exact Hspread_key].
    rewrite lookup_set_other by discriminate. exact Hspread_key.
  - intros Hnone. unfold settings, Loader.getApiKeys.
    rewrite keys_after_the_overrides.
    rewrite (override_unset _ _ _ _ Hanthropic), (override_unset _ _ _ _ Hollama).
    rewrite Hfile, Hspread_keys.
    replace (JS.truthy
               (JS.opt
                  (if List.existsb (String.eqb "apiKeys") (List.map fst fields)
                   then JS.lookup "apiKeys" fields
                   else JArr []) "length")) with false
      by (destruct (List.existsb (String.eqb "apiKeys") (List.map fst fields));
          [symmetry; exact Hnone | reflexivity]).
    cbn [negb]. now rewrite lookup_set_same.
  - intros keys Hkeys Hsome. unfold settings, Loader.getApiKeys.
    rewrite keys_after_the_overrides.
    rewrite (override_unset _ _ _ _ Hanthropic), (override_unset _ _ _ _ Hollama).
    rewrite Hfile, Hspread_keys.
    assert (Hin : List.existsb (String.eqb "apiKeys") (List.map fst fields)
                  = true).
    { destruct (List.existsb (String.eqb "apiKeys") (List.map fst fields))
        eqn:H; [reflexivity |].
      exfalso. clear - Hkeys H.
      induction fields as [| [k0 v0] fields IH]; [discriminate |].
      cbn [List.map fst List.existsb JS.lookup] in *.
      destruct ("apiKeys" =? k0); [discriminate | now apply IH]. }
    rewrite Hin, Hkeys.
    destruct keys as [| first others]; [contradiction |].
    change (JS.truthy (JS.opt (JArr (first :: others)) "length")) with true.
    cbn [negb]. rewrite Hspread_keys, Hin, Hkeys. reflexivity.
Qed.

Lemma single_key_of_the_file_becomes_the_pool_witness :
  let settings :=
    Loader.loadConfig node
      (Some (Ok (wire (JObj [("apiKey", JStr "only-key")]))))
      (Loader.mkEnv None None None None None None None) in
  Loader.get settings "apiKey" = JStr "only-key"
  /\ Loader.getApiKeys settings = JArr [JStr "only-key"].
Proof.
  cbv zeta.
  destruct (single_key_of_the_file_becomes_the_pool node
              (wire (JObj [("apiKey", JStr "only-key")]))
              [("apiKey", JStr "only-key")] "only-key"
              (Loader.mkEnv None None None None None None None)
              ltac:(vm_compute; reflexivity)
              ltac:(repeat constructor; cbn; tauto)
              eq_refl ltac:(discriminate) (or_introl eq_refl) (or_introl eq_refl))
    as (A & P & _).
  split; [exact A | exact (P eq_refl)].
Defined.
